(** * lyra-tool-discovery: retry layer, response schemas and discovery loop

    A shallow embedding of [src/errors.ts], [src/utils/retry.ts],
    [src/schemas.ts] and [ToolDiscovery.discover] of [src/index.ts].

    Conventions of the embedding:
    - a JavaScript [number] that the code uses as a counter, a status code or
      a number of seconds is a [Z]; a delay computed with [Math.random] is a
      rational [Q] before [Math.floor] (IEEE rounding is not modelled);
    - strings are [string]s of 8-bit characters;
    - a call that may throw returns an [outcome]; the effects a function has
      on the outside (calls of the wrapped operation, sleeps, console lines)
      are recorded, in order, in a list of events. *)

From Stdlib Require Import ZArith QArith Qround Qminmax Qpower.
From Stdlib Require Import List String Ascii Bool Lia.
From Stdlib Require Import DecimalString Lqa.
Import ListNotations.

Local Open Scope string_scope.
Local Open Scope Z_scope.

Local Set Warnings "-register-all".

(** ** Outcomes of calls that may throw *)

Inductive outcome (E A : Type) : Type :=
| Returned (a : A)
| Raised (e : E).

Arguments Returned {E A} a.
Arguments Raised {E A} e.

(** ** src/errors.ts *)

Module Errors.

Inductive provider : Type := github | npm | openai | anthropic.

Definition provider_name (p : provider) : string :=
  match p with
  | github => "github"
  | npm => "npm"
  | openai => "openai"
  | anthropic => "anthropic"
  end.

(** The values the code throws and catches: one constructor per class of
    errors.ts, [OtherError] for any other [Error], and [Undefined] for the
    value of a [lastError] that was never assigned.  The optional [cause]
    of a LyraError is not read by any function below and is left out. *)
Inductive thrown : Type :=
| LyraError (message code : string)
| APIKeyError (p : provider) (message : option string)
| RateLimitError (p : provider) (retryAfter : option Z)
| NetworkError (url : string) (status : option Z)
| AnalysisError (toolName : string) (message : option string)
| AIResponseError (p : provider) (rawResponse : option string)
| ValidationError (message : string) (field : option string)
| OtherError (message : string)
| Undefined.

Definition show_Z (z : Z) : string := NilZero.string_of_int (Z.to_int z).

(** [x || dflt] on an optional string: the empty string is falsy too. *)
Definition or_default (x : option string) (dflt : string) : string :=
  match x with
  | Some s => if (s =? "")%string then dflt else s
  | None => dflt
  end.

(** Truthiness of an optional number: [undefined] and [0] are falsy. *)
Definition truthy_num (x : option Z) : bool :=
  match x with
  | Some n => negb (n =? 0)%Z
  | None => false
  end.

Definition code (e : thrown) : string :=
  match e with
  | LyraError _ c => c
  | APIKeyError _ _ => "API_KEY_ERROR"
  | RateLimitError _ _ => "RATE_LIMIT_ERROR"
  | NetworkError _ _ => "NETWORK_ERROR"
  | AnalysisError _ _ => "ANALYSIS_ERROR"
  | AIResponseError _ _ => "AI_RESPONSE_ERROR"
  | ValidationError _ _ => "VALIDATION_ERROR"
  | OtherError _ => ""
  | Undefined => ""
  end.

Definition name (e : thrown) : string :=
  match e with
  | LyraError _ _ => "LyraError"
  | APIKeyError _ _ => "APIKeyError"
  | RateLimitError _ _ => "RateLimitError"
  | NetworkError _ _ => "NetworkError"
  | AnalysisError _ _ => "AnalysisError"
  | AIResponseError _ _ => "AIResponseError"
  | ValidationError _ _ => "ValidationError"
  | OtherError _ => "Error"
  | Undefined => ""
  end.

Definition message (e : thrown) : string :=
  match e with
  | LyraError m _ => m
  | APIKeyError p m =>
      or_default m
        ("Missing or invalid API key for " ++ provider_name p ++ ". Set "
         ++ match p with openai => "OPENAI_API_KEY" | _ => "ANTHROPIC_API_KEY" end
         ++ " environment variable.")
  | RateLimitError p ra =>
      "Rate limited by " ++ provider_name p
      ++ (if truthy_num ra
          then match ra with
               | Some n => ". Retry after " ++ show_Z n ++ "s"
               | None => ""
               end
          else "")
  | NetworkError u st =>
      "Network request failed: " ++ u
      ++ (if truthy_num st
          then match st with
               | Some n => " (status: " ++ show_Z n ++ ")"
               | None => ""
               end
          else "")
  | AnalysisError t m => or_default m ("Failed to analyze tool: " ++ t)
  | AIResponseError p _ => "Invalid response from " ++ provider_name p ++ " AI"
  | ValidationError m _ => m
  | OtherError m => m
  | Undefined => ""
  end.

Definition isRateLimitError (e : thrown) : bool :=
  match e with
  | RateLimitError _ _ => true
  | _ => false
  end.

Definition isNetworkError (e : thrown) : bool :=
  match e with
  | NetworkError _ _ => true
  | _ => false
  end.

Definition isRetryableError (e : thrown) : bool :=
  if isRateLimitError e then true
  else if isNetworkError e then true
  else false.

End Errors.

Import Errors.

(** ** HTTP responses, as far as the retry layer reads them *)

Module Http.

(** [headers] lists the response headers with lower-case names, one entry
    per name; [headers.get(name)] is the first entry of that name. *)
Record Response : Type := mkResponse {
  status : Z;
  headers : list (string * string)
}.

Fixpoint headers_get (hs : list (string * string)) (k : string) : option string :=
  match hs with
  | [] => None
  | (k', v) :: tl => if (k' =? k)%string then Some v else headers_get tl k
  end.

(** [response.ok]: the status is in the range 200-299. *)
Definition ok (r : Response) : bool := (200 <=? status r) && (status r <=? 299).

Definition is_space (c : ascii) : bool :=
  let n := nat_of_ascii c in
  ((9 <=? n) && (n <=? 13))%nat || (n =? 32)%nat.

Definition digit_of (c : ascii) : option Z :=
  let n := nat_of_ascii c in
  if ((48 <=? n) && (n <=? 57))%nat then Some (Z.of_nat n - 48) else None.

Fixpoint skip_spaces (s : string) : string :=
  match s with
  | String c tl => if is_space c then skip_spaces tl else s
  | EmptyString => s
  end.

(** The digits at the front of [s], read in base ten onto [acc]; [seen]
    tells whether a digit was read. *)
Fixpoint read_digits (s : string) (seen : bool) (acc : Z) : option Z :=
  match s with
  | String c tl =>
      match digit_of c with
      | Some d => read_digits tl true (10 * acc + d)
      | None => if seen then Some acc else None
      end
  | EmptyString => if seen then Some acc else None
  end.

(** [parseInt(s, 10)]; [None] is NaN. *)
Definition parseInt (s : string) : option Z :=
  match skip_spaces s with
  | String "-" tl => option_map Z.opp (read_digits tl false 0)
  | String "+" tl => read_digits tl false 0
  | t => read_digits t false 0
  end.

(** [Math.ceil(x / 1000)] for an integer [x]. *)
Definition ceil_div_1000 (x : Z) : Z := - ((- x) / 1000).

Definition nonempty (x : option string) : option string :=
  match x with
  | Some s => if (s =? "")%string then None else Some s
  | None => None
  end.

(** [getRetryAfter(response)] of errors.ts; [now] is [Date.now()]. *)
Definition getRetryAfter (now : Z) (response : Response) : option Z :=
  let from_reset :=
    match nonempty (headers_get (headers response) "x-ratelimit-reset") with
    | Some resetAt =>
        match parseInt resetAt with
        | Some n =>
            let resetTime := n * 1000 in
            if resetTime >? now then Some (ceil_div_1000 (resetTime - now)) else None
        | None => None
        end
    | None => None
    end in
  match nonempty (headers_get (headers response) "retry-after") with
  | Some retryAfter =>
      match parseInt retryAfter with
      | Some seconds => Some seconds
      | None => from_reset
      end
  | None => from_reset
  end.

End Http.

Import Http.

(** ** src/utils/retry.ts *)

Module Retry.

Inductive debug_line : Type :=
| DbgNonRetryable (msg : string)
| DbgMaxRetries (maxRetries : Z)
| DbgRetryAttempt (attempt maxRetries delayMs : Z) (msg : string).

(** What [withRetry] does to the outside, in order. *)
Inductive event : Type :=
| EvCall
| EvDebug (d : debug_line)
| EvOnRetry (attempt : Z) (e : thrown) (delayMs : Z)
| EvSleep (ms : Z).

Definition is_call (ev : event) : bool :=
  match ev with EvCall => true | _ => false end.

Definition is_sleep (ev : event) : bool :=
  match ev with EvSleep _ => true | _ => false end.

Definition calls (tr : list event) : nat := List.length (filter is_call tr).
Definition sleeps (tr : list event) : nat := List.length (filter is_sleep tr).

(** [calculateBackoff(attempt, baseDelayMs, maxDelayMs)]; [rnd] is the value
    [Math.random()] returns in this call. *)
Definition calculateBackoff (rnd : Q) (attempt : nat) (baseDelayMs maxDelayMs : Q) : Z :=
  let exponentialDelay := (baseDelayMs * 2 ^ Z.of_nat attempt)%Q in
  let jitter := (rnd * (3 # 10) * exponentialDelay)%Q in
  let delay := Qmin (exponentialDelay + jitter)%Q maxDelayMs in
  Qfloor delay.

Section WithRetry.

(** [W] is the state of the world the wrapped operation and the callback act
    on, [T] the type of the operation's result. *)
Context {W T : Type}.

Definition callback : Type := Z -> thrown -> Z -> W -> outcome thrown unit * W.

(** [RetryOptions]: every field may be absent. *)
Record RetryOptions : Type := mkRetryOptions {
  maxRetries : option Z;
  baseDelayMs : option Q;
  maxDelayMs : option Q;
  onRetry : option callback
}.

(** [{ ...DEFAULT_OPTIONS, ...options }]. *)
Record Policy : Type := mkPolicy {
  p_maxRetries : Z;
  p_baseDelayMs : Q;
  p_maxDelayMs : Q;
  p_onRetry : option callback
}.

Definition DEFAULT_maxRetries : Z := 3.
Definition DEFAULT_baseDelayMs : Q := 1000 # 1.
Definition DEFAULT_maxDelayMs : Q := 30000 # 1.

Definition get_or {A} (x : option A) (d : A) : A :=
  match x with Some a => a | None => d end.

Definition merge_options (options : RetryOptions) : Policy :=
  {| p_maxRetries := get_or (maxRetries options) DEFAULT_maxRetries;
     p_baseDelayMs := get_or (baseDelayMs options) DEFAULT_baseDelayMs;
     p_maxDelayMs := get_or (maxDelayMs options) DEFAULT_maxDelayMs;
     p_onRetry := onRetry options |}.

Definition no_options : RetryOptions :=
  {| maxRetries := None; baseDelayMs := None; maxDelayMs := None; onRetry := None |}.

(** What a run of [withRetry] leaves: its outcome, the world, the events. *)
Record run : Type := mkRun {
  result : outcome thrown T;
  world : W;
  trace : list event
}.

Variable fn : W -> outcome thrown T * W.
Variable opts : Policy.
(** [rand attempt] is what [Math.random()] returns in the backoff computed
    after the failure of attempt number [attempt]. *)
Variable rand : nat -> Q.

(** The delay before the next attempt: the error's [retryAfter], when it is
    a rate-limit error with a truthy one, else the backoff. *)
Definition delay_for (attempt : nat) (error : thrown) : Z :=
  let backoff :=
    calculateBackoff (rand attempt) attempt (p_baseDelayMs opts) (p_maxDelayMs opts) in
  match error with
  | RateLimitError _ (Some retryAfter) =>
      if truthy_num (Some retryAfter) then retryAfter * 1000 else backoff
  | _ => backoff
  end.

(** The [for] loop of [withRetry], entered with the counter at [attempt].
    [budget] is the number of values of the counter from [attempt] on for
    which [attempt <= opts.maxRetries] holds (see [budget_condition]); at
    [budget = 0] the condition is false and the code reaches
    [throw lastError]. *)
Fixpoint retry_loop (budget attempt : nat) (lastError : thrown) (w : W)
    (tr : list event) : run :=
  match budget with
  | O => mkRun (Raised lastError) w tr
  | S budget' =>
      let '(r, w1) := fn w in
      let tr1 := (tr ++ [EvCall])%list in
      match r with
      | Returned v => mkRun (Returned v) w1 tr1
      | Raised error =>
          if negb (isRetryableError error) then
            mkRun (Raised error) w1 (tr1 ++ [EvDebug (DbgNonRetryable (message error))])%list
          else if Z.of_nat attempt >=? p_maxRetries opts then
            mkRun (Raised error) w1 (tr1 ++ [EvDebug (DbgMaxRetries (p_maxRetries opts))])%list
          else
            let delayMs := delay_for attempt error in
            let tr2 :=
              (tr1 ++ [EvDebug (DbgRetryAttempt (Z.of_nat attempt + 1) (p_maxRetries opts)
                                  delayMs (message error))])%list in
            match p_onRetry opts with
            | Some cb =>
                let tr3 := (tr2 ++ [EvOnRetry (Z.of_nat attempt + 1) error delayMs])%list in
                match cb (Z.of_nat attempt + 1) error delayMs w1 with
                | (Raised e', w2) => mkRun (Raised e') w2 tr3
                | (Returned _, w2) =>
                    retry_loop budget' (S attempt) error w2 (tr3 ++ [EvSleep delayMs])%list
                end
            | None => retry_loop budget' (S attempt) error w1 (tr2 ++ [EvSleep delayMs])%list
            end
      end
  end.

Definition budget_from (attempt : nat) : nat :=
  Z.to_nat (p_maxRetries opts + 1 - Z.of_nat attempt).

Definition withRetry_policy (w : W) : run :=
  retry_loop (budget_from 0) 0 Undefined w [].

End WithRetry.

Arguments RetryOptions : clear implicits.
Arguments Policy : clear implicits.
Arguments run : clear implicits.
Arguments callback : clear implicits.

(** [withRetry(fn, options)]. *)
Definition withRetry {W T} (fn : W -> outcome thrown T * W)
    (options : RetryOptions W) (rand : nat -> Q) (w : W) : run W T :=
  withRetry_policy fn (merge_options options) rand w.

(** [response.headers.get('x-ratelimit-remaining') === '0'] *)
Definition remaining_is_zero (hs : list (string * string)) : bool :=
  match headers_get hs "x-ratelimit-remaining" with
  | Some remaining => (remaining =? "0")%string
  | None => false
  end.

(** The checks [fetchWithRetry] makes on the response of one [fetch]. *)
Definition check_response (now : Z) (url : string) (response : Response)
    : outcome thrown Response :=
  if status response =? 429 then
    Raised (RateLimitError github (getRetryAfter now response))
  else if (status response =? 403) && remaining_is_zero (headers response) then
    Raised (RateLimitError github (getRetryAfter now response))
  else if negb (ok response) && (status response >=? 500) then
    Raised (NetworkError url (Some (status response)))
  else Returned response.

(** [fetchWithRetry(url, options, retryOptions)]: [fetch] is the platform's
    [fetch(url, options)] and [now] reads the clock ([Date.now()]).  The
    debug line of each fetch is not recorded. *)
Definition fetchWithRetry {W} (fetch : W -> outcome thrown Response * W)
    (now : W -> Z) (url : string) (retryOptions : RetryOptions W)
    (rand : nat -> Q) (w : W) : run W Response :=
  withRetry
    (fun w0 =>
       match fetch w0 with
       | (Returned response, w1) => (check_response (now w1) url response, w1)
       | (Raised e, w1) => (Raised e, w1)
       end)
    retryOptions rand w.

End Retry.

Import Retry.

(** ** src/schemas.ts *)

Module Schemas.

(** A JavaScript value as [JSON.parse] or a caller may hand it to a schema.
    An object is the list of its own properties; a property that is absent
    reads as [JUndefined], and of two entries with one key the first is the
    property. *)
Inductive json : Type :=
| JUndefined
| JNull
| JBool (b : bool)
| JNum (n : Z)
| JStr (s : string)
| JArr (items : list json)
| JObj (fields : list (string * json)).

Fixpoint prop (fields : list (string * json)) (k : string) : json :=
  match fields with
  | [] => JUndefined
  | (k', v) :: tl => if (k' =? k)%string then v else prop tl k
  end.

(** A zod schema, read as its [safeParse]: [Some] of the parsed data, or
    [None] when the schema reports issues. *)
Definition schema (A : Type) : Type := json -> option A.

Definition bind {A B} (x : option A) (f : A -> option B) : option B :=
  match x with Some a => f a | None => None end.

Notation "'let?' x ':=' c 'in' k" := (bind c (fun x => k))
  (at level 10, x name, c at level 100, k at level 200).

(** [z.string()] *)
Definition z_string : schema string :=
  fun v => match v with JStr s => Some s | _ => None end.

(** [z.boolean()] *)
Definition z_boolean : schema bool :=
  fun v => match v with JBool b => Some b | _ => None end.

(** [s.optional()] *)
Definition z_optional {A} (s : schema A) : schema (option A) :=
  fun v => match v with JUndefined => Some None | _ => option_map Some (s v) end.

(** The properties of a value that [z.object] and [z.record] accept. *)
Definition as_object (v : json) : option (list (string * json)) :=
  match v with JObj fields => Some fields | _ => None end.

Fixpoint all_strings (items : list json) : option (list string) :=
  match items with
  | [] => Some []
  | v :: tl =>
      let? s := z_string v in
      let? rest := all_strings tl in
      Some (s :: rest)
  end.

(** [z.array(z.string())] *)
Definition z_array_string : schema (list string) :=
  fun v => match v with JArr items => all_strings items | _ => None end.

Fixpoint all_string_values (fields : list (string * json)) : option (list (string * string)) :=
  match fields with
  | [] => Some []
  | (k, v) :: tl =>
      let? s := z_string v in
      let? rest := all_string_values tl in
      Some ((k, s) :: rest)
  end.

(** [z.record(z.string())] *)
Definition z_record_string : schema (list (string * string)) :=
  fun v => let? fields := as_object v in all_string_values fields.

(** [PluginTemplateSchema] *)
Inductive PluginTemplate : Type :=
| mcp_http | mcp_stdio | openapi | basic | default | markdown | standalone | settings.

Definition template_name (t : PluginTemplate) : string :=
  match t with
  | mcp_http => "mcp-http"
  | mcp_stdio => "mcp-stdio"
  | openapi => "openapi"
  | basic => "basic"
  | default => "default"
  | markdown => "markdown"
  | standalone => "standalone"
  | settings => "settings"
  end.

Definition all_templates : list PluginTemplate :=
  [mcp_http; mcp_stdio; openapi; basic; default; markdown; standalone; settings].

Definition template_of_name (s : string) : option PluginTemplate :=
  find (fun t => (template_name t =? s)%string) all_templates.

Definition PluginTemplateSchema : schema PluginTemplate :=
  fun v => let? s := z_string v in template_of_name s.

Definition isValidTemplate (template : string) : bool :=
  match PluginTemplateSchema (JStr template) with Some _ => true | None => false end.

Inductive AuthType : Type := auth_none | auth_bearer | auth_oauth2.

Definition auth_type_name (a : AuthType) : string :=
  match a with
  | auth_none => "none"
  | auth_bearer => "bearer"
  | auth_oauth2 => "oauth2"
  end.

Definition AuthTypeSchema : schema AuthType :=
  fun v =>
    let? s := z_string v in
    find (fun a => (auth_type_name a =? s)%string) [auth_none; auth_bearer; auth_oauth2].

Record Auth : Type := mkAuth {
  auth_type : AuthType;
  token : option string;
  accessToken : option string
}.

Definition AuthSchema : schema Auth :=
  fun v =>
    let? o := as_object v in
    let? ty := AuthTypeSchema (prop o "type") in
    let? tk := z_optional z_string (prop o "token") in
    let? at_ := z_optional z_string (prop o "accessToken") in
    Some (mkAuth ty tk at_).

Record MCPHttpConfig : Type := mkHttp {
  url : string;
  auth : option Auth;
  headers : option (list (string * string))
}.

Record MCPStdioConfig : Type := mkStdio {
  command : string;
  args : option (list string);
  env : option (list (string * string))
}.

Inductive MCPConnection : Type :=
| Http (c : MCPHttpConfig)
| Stdio (c : MCPStdioConfig).

Record PluginMeta : Type := mkMeta {
  title : string;
  meta_description : string;
  meta_avatar : option string;
  tags : option (list string);
  category : option string
}.

Record MCPCustomParams : Type := mkParams {
  mcp : MCPConnection;
  description : option string;
  avatar : option string
}.

Record MCPPluginConfig : Type := mkMCPPlugin {
  mcp_identifier : string;
  customParams : MCPCustomParams
}.

Record StandardPluginConfig : Type := mkStandard {
  identifier : string;
  manifest : option string;
  author : option string;
  meta : option PluginMeta
}.

Inductive PluginConfig : Type :=
| MCPPlugin (c : MCPPluginConfig)
| StandardPlugin (c : StandardPluginConfig).

Record AIAnalysisResponse : Type := mkAIAnalysisResponse {
  template : PluginTemplate;
  reasoning : string;
  config : PluginConfig
}.

(** The error [parse] throws.  The list of issues it carries is not
    modelled. *)
Inductive ZodError : Type := mkZodError.

Section Validators.

(** [is_url s]: [new URL(s)] does not throw (the test of [z.string().url()]);
    the platform's URL parser is a parameter. *)
Variable is_url : string -> bool.

(** [z.string().url()] *)
Definition z_url : schema string :=
  fun v => let? s := z_string v in if is_url s then Some s else None.

(** [z.literal(lit)] on a string literal *)
Definition z_literal (lit : string) : schema unit :=
  fun v => match v with
           | JStr s => if (s =? lit)%string then Some tt else None
           | _ => None
           end.

Definition MCPHttpConfigSchema : schema MCPHttpConfig :=
  fun v =>
    let? o := as_object v in
    let? _ := z_literal "http" (prop o "type") in
    let? u := z_url (prop o "url") in
    let? a := z_optional AuthSchema (prop o "auth") in
    let? h := z_optional z_record_string (prop o "headers") in
    Some (mkHttp u a h).

Definition MCPStdioConfigSchema : schema MCPStdioConfig :=
  fun v =>
    let? o := as_object v in
    let? _ := z_literal "stdio" (prop o "type") in
    let? c := z_string (prop o "command") in
    let? a := z_optional z_array_string (prop o "args") in
    let? e := z_optional z_record_string (prop o "env") in
    Some (mkStdio c a e).

(** [z.discriminatedUnion('type', [MCPHttpConfigSchema, MCPStdioConfigSchema])]:
    the option is chosen by the value of [type]. *)
Definition MCPConnectionSchema : schema MCPConnection :=
  fun v =>
    let? o := as_object v in
    match prop o "type" with
    | JStr ty =>
        if (ty =? "http")%string then option_map Http (MCPHttpConfigSchema v)
        else if (ty =? "stdio")%string then option_map Stdio (MCPStdioConfigSchema v)
        else None
    | _ => None
    end.

Definition PluginMetaSchema : schema PluginMeta :=
  fun v =>
    let? o := as_object v in
    let? t := z_string (prop o "title") in
    let? d := z_string (prop o "description") in
    let? a := z_optional z_string (prop o "avatar") in
    let? g := z_optional z_array_string (prop o "tags") in
    let? c := z_optional z_string (prop o "category") in
    Some (mkMeta t d a g c).

Definition MCPCustomParamsSchema : schema MCPCustomParams :=
  fun v =>
    let? o := as_object v in
    let? m := MCPConnectionSchema (prop o "mcp") in
    let? d := z_optional z_string (prop o "description") in
    let? a := z_optional z_string (prop o "avatar") in
    Some (mkParams m d a).

Definition MCPPluginConfigSchema : schema MCPPluginConfig :=
  fun v =>
    let? o := as_object v in
    let? i := z_string (prop o "identifier") in
    let? p := MCPCustomParamsSchema (prop o "customParams") in
    Some (mkMCPPlugin i p).

Definition StandardPluginConfigSchema : schema StandardPluginConfig :=
  fun v =>
    let? o := as_object v in
    let? i := z_string (prop o "identifier") in
    let? m := z_optional z_string (prop o "manifest") in
    let? a := z_optional z_string (prop o "author") in
    let? e := z_optional PluginMetaSchema (prop o "meta") in
    Some (mkStandard i m a e).

(** [z.union([MCPPluginConfigSchema, StandardPluginConfigSchema])]: the
    result of the first option that accepts the value. *)
Definition ConfigSchema : schema PluginConfig :=
  fun v =>
    match MCPPluginConfigSchema v with
    | Some c => Some (MCPPlugin c)
    | None => option_map StandardPlugin (StandardPluginConfigSchema v)
    end.

Definition AIAnalysisResponseSchema : schema AIAnalysisResponse :=
  fun v =>
    let? o := as_object v in
    let? t := PluginTemplateSchema (prop o "template") in
    let? r := z_string (prop o "reasoning") in
    let? c := ConfigSchema (prop o "config") in
    Some (mkAIAnalysisResponse t r c).

(** [schema.safeParse(data)]: [{ success: true, data }] or
    [{ success: false, error }]. *)
Inductive SafeParseResult (A : Type) : Type :=
| Success (data : A)
| Failure (error : ZodError).

Definition safeParse {A} (s : schema A) (data : json) : SafeParseResult A :=
  match s data with
  | Some d => Success A d
  | None => Failure A mkZodError
  end.

(** [schema.parse(data)]: the data of [safeParse], or its error thrown. *)
Definition parse {A} (s : schema A) (data : json) : outcome ZodError A :=
  match safeParse s data with
  | Success _ d => Returned d
  | Failure _ e => Raised e
  end.

Definition parseAIResponse (data : json) : outcome ZodError AIAnalysisResponse :=
  parse AIAnalysisResponseSchema data.

(** [null] is [None]. *)
Definition safeParseAIResponse (data : json)
    : outcome ZodError (option AIAnalysisResponse) :=
  let result := safeParse AIAnalysisResponseSchema data in
  Returned (match result with
            | Success _ d => Some d
            | Failure _ _ => None
            end).

End Validators.

(** ** Decisions written as values

    [enc_decision d] is the value a decision is written as: the object that
    [JSON.parse(JSON.stringify(d))] gives, where a field that is absent is
    listed with the value [JUndefined] (both read the same through
    [prop]). *)

Definition enc_opt {A} (enc : A -> json) (x : option A) : json :=
  match x with Some a => enc a | None => JUndefined end.

Definition enc_strings (l : list string) : json := JArr (map JStr l).

Definition enc_record (l : list (string * string)) : json :=
  JObj (map (fun kv => (fst kv, JStr (snd kv))) l).

Definition enc_auth (a : Auth) : json :=
  JObj [ ("type", JStr (auth_type_name (auth_type a)));
         ("token", enc_opt JStr (token a));
         ("accessToken", enc_opt JStr (accessToken a)) ].

Definition enc_connection (c : MCPConnection) : json :=
  match c with
  | Http h =>
      JObj [ ("type", JStr "http");
             ("url", JStr (url h));
             ("auth", enc_opt enc_auth (auth h));
             ("headers", enc_opt enc_record (headers h)) ]
  | Stdio s =>
      JObj [ ("type", JStr "stdio");
             ("command", JStr (command s));
             ("args", enc_opt enc_strings (args s));
             ("env", enc_opt enc_record (env s)) ]
  end.

Definition enc_meta (m : PluginMeta) : json :=
  JObj [ ("title", JStr (title m));
         ("description", JStr (meta_description m));
         ("avatar", enc_opt JStr (meta_avatar m));
         ("tags", enc_opt enc_strings (tags m));
         ("category", enc_opt JStr (category m)) ].

Definition enc_config (c : PluginConfig) : json :=
  match c with
  | MCPPlugin m =>
      JObj [ ("identifier", JStr (mcp_identifier m));
             ("customParams",
              JObj [ ("mcp", enc_connection (mcp (customParams m)));
                     ("description", enc_opt JStr (description (customParams m)));
                     ("avatar", enc_opt JStr (avatar (customParams m))) ]) ]
  | StandardPlugin p =>
      JObj [ ("identifier", JStr (identifier p));
             ("manifest", enc_opt JStr (manifest p));
             ("author", enc_opt JStr (author p));
             ("meta", enc_opt enc_meta (meta p)) ]
  end.

Definition enc_decision (d : AIAnalysisResponse) : json :=
  JObj [ ("template", JStr (template_name (template d)));
         ("reasoning", JStr (reasoning d));
         ("config", enc_config (config d)) ].

(** The [url] of an http descriptor in the decision, if there is one, is
    one [new URL] accepts. *)
Definition urls_ok (is_url : string -> bool) (d : AIAnalysisResponse) : bool :=
  match config d with
  | MCPPlugin m =>
      match mcp (customParams m) with
      | Http h => is_url (url h)
      | Stdio _ => true
      end
  | StandardPlugin _ => true
  end.


End Schemas.

(** ** ToolDiscovery.discover of src/index.ts *)

Module Discovery.

Import Schemas.

(** [DiscoverySource] of types.ts. *)
Inductive DiscoverySource : Type :=
| src_github | src_npm | src_smithery | src_mcp_directory
| src_openapi_directory | src_rapidapi.

Definition source_name (s : DiscoverySource) : string :=
  match s with
  | src_github => "github"
  | src_npm => "npm"
  | src_smithery => "smithery"
  | src_mcp_directory => "mcp-directory"
  | src_openapi_directory => "openapi-directory"
  | src_rapidapi => "rapidapi"
  end.

(** [DiscoveredTool] of types.ts. *)
Record DiscoveredTool : Type := mkTool {
  id : string;
  name : string;
  description : string;
  source : DiscoverySource;
  sourceUrl : string;
  license : option string;
  author : option string;
  homepage : option string;
  repository : option string;
  hasOpenAPI : option bool;
  hasMCPSupport : option bool;
  hasNpmPackage : option bool;
  readme : option string;
  packageJson : option json;
  manifestUrl : option string;
  mcpConfig : option MCPConnection
}.

Definition TemplateDecision : Type := AIAnalysisResponse.

Record DiscoveryResult : Type := mkResult {
  tool : DiscoveredTool;
  decision : TemplateDecision;
  generated_pluginConfig : PluginConfig
}.

Record DiscoveryOptions : Type := mkOptions {
  sources : option (list DiscoverySource);
  limit : option Z;
  dryRun : option bool;
  outputDir : option string;
  maxAgeMonths : option Z
}.

Definition CRYPTO_KEYWORDS : list string :=
  [ "crypto"; "cryptocurrency"; "defi"; "blockchain"; "web3";
    "ethereum"; "eth"; "solana"; "sol"; "bitcoin"; "btc";
    "wallet"; "token"; "nft"; "dex"; "swap"; "staking";
    "yield"; "bridge"; "chain"; "smart contract"; "erc20";
    "erc721"; "uniswap"; "aave"; "compound"; "lending";
    "liquidity"; "vault"; "protocol"; "onchain"; "on-chain";
    "web3.js"; "ethers"; "viem"; "wagmi"; "rainbowkit" ].

(** [toLowerCase] on the letters A-Z; other characters are kept. *)
Definition lower_ascii (c : ascii) : ascii :=
  let n := nat_of_ascii c in
  if ((65 <=? n) && (n <=? 90))%nat then ascii_of_nat (n + 32) else c.

Fixpoint toLowerCase (s : string) : string :=
  match s with
  | String c tl => String (lower_ascii c) (toLowerCase tl)
  | EmptyString => EmptyString
  end.

(** [s.includes(sub)] *)
Fixpoint includes (s sub : string) : bool :=
  if prefix sub s then true
  else match s with
       | String _ tl => includes tl sub
       | EmptyString => false
       end.

(** [tool.readme?.slice(0, 5000) || ''] *)
Definition readme_head (t : DiscoveredTool) : string :=
  match readme t with
  | Some r => substring 0 5000 r
  | None => ""
  end.

Definition isCryptoRelated (t : DiscoveredTool) : bool :=
  let searchText := toLowerCase (name t ++ " " ++ description t ++ " " ++ readme_head t) in
  existsb (fun keyword => includes searchText (toLowerCase keyword)) CRYPTO_KEYWORDS.

(** Truthiness of the optional flag. *)
Definition truthy_flag (b : option bool) : bool :=
  match b with Some true => true | _ => false end.

(** [arr.slice(0, end_)]: a negative [end_] counts from the end of the
    array. *)
Definition slice0 {A} (arr : list A) (end_ : Z) : list A :=
  let len := Z.of_nat (List.length arr) in
  let k := if end_ <? 0 then Z.max (len + end_) 0 else Z.min end_ len in
  firstn (Z.to_nat k) arr.

(** The lines the run writes on the console. *)
Inductive console_line : Type :=
| LogDiscovering (from : list DiscoverySource)
| LogMaxAge (months : Z)
| LogFound (n : nat) (s : DiscoverySource)
| ErrSource (s : DiscoverySource) (e : thrown)
| WarnNotImplemented (s : DiscoverySource)
| LogTotal (n : nat)
| LogCryptoRelated (n : nat)
| LogMcpCompatible (n : nat)
| LogDryRun (t : DiscoveredTool)
| LogAnalyzing (t : DiscoveredTool)
| LogTemplate (t : PluginTemplate)
| LogReasoning (r : string)
| LogQuickImport (q : string)
| ErrFailedToAnalyze (e : thrown).

(** What the run does to the outside, in order: console lines, calls of a
    source adapter and calls of [this.ai.analyzeAndDecide]. *)
Inductive event : Type :=
| EvConsole (l : console_line)
| EvSearch (s : DiscoverySource)
| EvAnalyze (t : DiscoveredTool).

Definition is_analyze (ev : event) : bool :=
  match ev with EvAnalyze _ => true | _ => false end.

Definition is_failure_line (ev : event) : bool :=
  match ev with EvConsole (ErrFailedToAnalyze _) => true | _ => false end.

Definition analyze_calls (tr : list event) : nat := List.length (filter is_analyze tr).
Definition failure_lines (tr : list event) : nat := List.length (filter is_failure_line tr).

Section Discover.

Context {W : Type}.

(** The collaborators of the class, whose code is in other files:
    [this.github.searchMCPServers(limit, maxAgeMonths)],
    [this.npm.searchMCPServers(limit)], [this.ai.analyzeAndDecide(tool)] and
    [this.ai.generateQuickImport(decision)] ([None] is [null]; it builds a
    string from the decision and is taken to return). *)
Variable github_searchMCPServers : Z -> Z -> W -> outcome thrown (list DiscoveredTool) * W.
Variable npm_searchMCPServers : Z -> W -> outcome thrown (list DiscoveredTool) * W.
Variable analyzeAndDecide : DiscoveredTool -> W -> outcome thrown TemplateDecision * W.
Variable generateQuickImport : TemplateDecision -> option string.

Record run : Type := mkRun {
  result : outcome thrown (list DiscoveryResult);
  world : W;
  trace : list event
}.

Definition discoverFromSource (s : DiscoverySource) (limit_ maxAgeMonths_ : Z) (w : W)
    : outcome thrown (list DiscoveredTool) * W * list event :=
  match s with
  | src_github =>
      let '(r, w1) := github_searchMCPServers limit_ maxAgeMonths_ w in (r, w1, [EvSearch s])
  | src_npm =>
      let '(r, w1) := npm_searchMCPServers limit_ w in (r, w1, [EvSearch s])
  | _ => (Returned [], w, [EvConsole (WarnNotImplemented s)])
  end.

(** The first loop: [tools] grows by what each source returns; a source
    that throws adds nothing. *)
Fixpoint collect (srcs : list DiscoverySource) (limit_ maxAgeMonths_ : Z)
    (tools : list DiscoveredTool) (w : W) (tr : list event)
    : list DiscoveredTool * W * list event :=
  match srcs with
  | [] => (tools, w, tr)
  | s :: rest =>
      let '(r, w1, evs) := discoverFromSource s limit_ maxAgeMonths_ w in
      match r with
      | Returned discovered =>
          collect rest limit_ maxAgeMonths_ (tools ++ discovered)%list w1
            (tr ++ evs ++ [EvConsole (LogFound (List.length discovered) s)])%list
      | Raised error =>
          collect rest limit_ maxAgeMonths_ tools w1
            (tr ++ evs ++ [EvConsole (ErrSource s error)])%list
      end
  end.

Definition quick_import_lines (d : TemplateDecision) : list event :=
  match generateQuickImport d with
  | Some q => if (q =? "")%string then [] else [EvConsole (LogQuickImport q)]
  | None => []
  end.

(** The second loop, over [mcpTools.slice(0, limit)]. *)
Fixpoint analyze_loop (dryRun_ : bool) (candidates : list DiscoveredTool)
    (results : list DiscoveryResult) (w : W) (tr : list event)
    : list DiscoveryResult * W * list event :=
  match candidates with
  | [] => (results, w, tr)
  | t :: rest =>
      if dryRun_ then
        analyze_loop dryRun_ rest results w (tr ++ [EvConsole (LogDryRun t)])%list
      else
        let tr1 := (tr ++ [EvConsole (LogAnalyzing t); EvAnalyze t])%list in
        match analyzeAndDecide t w with
        | (Returned d, w1) =>
            analyze_loop dryRun_ rest
              (results ++ [mkResult t d (config d)])%list w1
              (tr1 ++ [EvConsole (LogTemplate (template d));
                       EvConsole (LogReasoning (reasoning d))]
                   ++ quick_import_lines d)%list
        | (Raised error, w1) =>
            analyze_loop dryRun_ rest results w1
              (tr1 ++ [EvConsole (ErrFailedToAnalyze error)])%list
        end
  end.

Definition get_or {A} (x : option A) (d : A) : A :=
  match x with Some a => a | None => d end.

(** The candidates the second loop runs over, from the collected tools. *)
Definition candidates_of (tools : list DiscoveredTool) (limit_ : Z) : list DiscoveredTool :=
  let cryptoTools := filter isCryptoRelated tools in
  let mcpTools := filter (fun t => truthy_flag (hasMCPSupport t)) cryptoTools in
  slice0 mcpTools limit_.

Definition discover (options : DiscoveryOptions) (w : W) : run :=
  let sources_ := get_or (sources options) [src_github; src_npm] in
  let limit_ := get_or (limit options) 10 in
  let dryRun_ := get_or (dryRun options) false in
  let maxAgeMonths_ := get_or (maxAgeMonths options) 12 in
  let tr0 := [EvConsole (LogDiscovering sources_); EvConsole (LogMaxAge maxAgeMonths_)] in
  let '(tools, w1, tr1) := collect sources_ limit_ maxAgeMonths_ [] w tr0 in
  let tr2 := (tr1 ++ [EvConsole (LogTotal (List.length tools))])%list in
  match tools with
  | [] => mkRun (Returned []) w1 tr2
  | _ =>
      let cryptoTools := filter isCryptoRelated tools in
      let mcpTools := filter (fun t => truthy_flag (hasMCPSupport t)) cryptoTools in
      let tr3 := (tr2 ++ [EvConsole (LogCryptoRelated (List.length cryptoTools));
                          EvConsole (LogMcpCompatible (List.length mcpTools))])%list in
      let '(results, w2, tr4) := analyze_loop dryRun_ (slice0 mcpTools limit_) [] w1 tr3 in
      mkRun (Returned results) w2 tr4
  end.

(** The tools the first loop hands to the filters: [tools] after the loop. *)
Definition merged (srcs : list DiscoverySource) (limit_ maxAgeMonths_ : Z) (w : W)
    : list DiscoveredTool :=
  fst (fst (collect srcs limit_ maxAgeMonths_ [] w [])).

(** *** What the second loop is compared with

    [item_outcomes candidates w]: each candidate, in order, with what
    [analyzeAndDecide] gives for it in the world the candidates before it
    left; [successes] and [failures] split these. *)
Fixpoint item_outcomes (candidates : list DiscoveredTool) (w : W)
    : list (DiscoveredTool * outcome thrown TemplateDecision) :=
  match candidates with
  | [] => []
  | t :: rest =>
      let '(o, w1) := analyzeAndDecide t w in (t, o) :: item_outcomes rest w1
  end.

Fixpoint world_after (candidates : list DiscoveredTool) (w : W) : W :=
  match candidates with
  | [] => w
  | t :: rest => world_after rest (snd (analyzeAndDecide t w))
  end.

Definition successes (os : list (DiscoveredTool * outcome thrown TemplateDecision))
    : list DiscoveryResult :=
  flat_map (fun o => match snd o with
                     | Returned d => [mkResult (fst o) d (config d)]
                     | Raised _ => []
                     end) os.

Definition failures (os : list (DiscoveredTool * outcome thrown TemplateDecision))
    : list (DiscoveredTool * thrown) :=
  flat_map (fun o => match snd o with
                     | Returned _ => []
                     | Raised e => [(fst o, e)]
                     end) os.

(** The tools and the world the first loop of [discover options] leaves,
    and the candidates its second loop runs over. *)
Definition collected (options : DiscoveryOptions) (w : W) : list DiscoveredTool * W :=
  fst (collect (get_or (sources options) [src_github; src_npm])
         (get_or (limit options) 10) (get_or (maxAgeMonths options) 12) [] w
         [EvConsole (LogDiscovering (get_or (sources options) [src_github; src_npm]));
          EvConsole (LogMaxAge (get_or (maxAgeMonths options) 12))]).

Definition candidates (options : DiscoveryOptions) (w : W) : list DiscoveredTool :=
  candidates_of (fst (collected options w)) (get_or (limit options) 10).

Definition outcomes (options : DiscoveryOptions) (w : W)
    : list (DiscoveredTool * outcome thrown TemplateDecision) :=
  item_outcomes (candidates options w) (snd (collected options w)).

End Discover.

Arguments run : clear implicits.

End Discovery.

(** ** Fixtures *)

Module Fixtures.

(** An operation that fails with a 503 at every call. *)
Definition always_503 (w : unit) : outcome thrown nat * unit :=
  (Raised (NetworkError "https://registry.npmjs.org/-/v1/search" (Some 503)), w).



(** The decision of the model for a tool, with the template of a remote
    server and the connection descriptor of a local process. *)
Definition http_template_stdio_descriptor : Schemas.json :=
  Schemas.JObj
    [ ("template", Schemas.JStr "mcp-http");
      ("reasoning", Schemas.JStr "Has MCP SDK and bin entry");
      ("config",
       Schemas.JObj
         [ ("identifier", Schemas.JStr "my-mcp-tool");
           ("customParams",
            Schemas.JObj
              [ ("mcp",
                 Schemas.JObj
                   [ ("type", Schemas.JStr "stdio");
                     ("command", Schemas.JStr "npx");
                     ("args", Schemas.JArr [Schemas.JStr "-y"; Schemas.JStr "my-mcp-tool"]) ]);
                ("description", Schemas.JStr "A great tool") ]) ]) ].

Definition http_template_stdio_decision : Schemas.AIAnalysisResponse :=
  Schemas.mkAIAnalysisResponse Schemas.mcp_http "Has MCP SDK and bin entry"
    (Schemas.MCPPlugin
       (Schemas.mkMCPPlugin "my-mcp-tool"
          (Schemas.mkParams
             (Schemas.Stdio (Schemas.mkStdio "npx" (Some ["-y"; "my-mcp-tool"]) None))
             (Some "A great tool") None))).

(** Tools as a source adapter returns them: about a wallet, with MCP
    support. *)
Definition wallet_tool (n : string) : Discovery.DiscoveredTool :=
  Discovery.mkTool ("github:acme/" ++ n) n "Ethereum wallet MCP server"
    Discovery.src_github ("https://github.com/acme/" ++ n)
    None None None None None (Some true) None None None None None.

Definition five_tools : list Discovery.DiscoveredTool :=
  map wallet_tool ["t1"; "t2"; "t3"; "t4"; "t5"].

Definition four_tools : list Discovery.DiscoveredTool :=
  map wallet_tool ["t1"; "t2"; "t4"; "t5"].

Definition decision_for (t : Discovery.DiscoveredTool) : Discovery.TemplateDecision :=
  Schemas.mkAIAnalysisResponse Schemas.mcp_stdio "bin entry"
    (Schemas.MCPPlugin
       (Schemas.mkMCPPlugin (Discovery.name t)
          (Schemas.mkParams
             (Schemas.Stdio (Schemas.mkStdio "npx" (Some ["-y"; Discovery.name t]) None))
             None None))).

Definition result_for (t : Discovery.DiscoveredTool) : Discovery.DiscoveryResult :=
  Discovery.mkResult t (decision_for t) (Schemas.config (decision_for t)).

Definition github_returns (ts : list Discovery.DiscoveredTool) (limit_ maxAge : Z) (w : unit)
    : outcome thrown (list Discovery.DiscoveredTool) * unit := (Returned ts, w).

Definition npm_returns (ts : list Discovery.DiscoveredTool) (limit_ : Z) (w : unit)
    : outcome thrown (list Discovery.DiscoveredTool) * unit := (Returned ts, w).

(** A classifier that fails on the tool named t3 and on no other. *)
Definition analyze_fails_on_t3 (t : Discovery.DiscoveredTool) (w : unit)
    : outcome thrown Discovery.TemplateDecision * unit :=
  if (Discovery.name t =? "t3")%string
  then (Raised (AIResponseError openai (Some "Sure, here is the answer: {not json")), w)
  else (Returned (decision_for t), w).

Definition analyze_succeeds (t : Discovery.DiscoveredTool) (w : unit)
    : outcome thrown Discovery.TemplateDecision * unit :=
  (Returned (decision_for t), w).


(** What the adapters with fixed answers find for a source. *)
Definition found_by (found_github found_npm : list Discovery.DiscoveredTool)
    (s : Discovery.DiscoverySource) : list Discovery.DiscoveredTool :=
  match s with
  | Discovery.src_github => found_github
  | Discovery.src_npm => found_npm
  | _ => []
  end.

Definition no_quick_import (d : Discovery.TemplateDecision) : option string := None.

Definition from_github : Discovery.DiscoveryOptions :=
  Discovery.mkOptions (Some [Discovery.src_github]) (Some 10) None None None.

Definition from_github_twice : Discovery.DiscoveryOptions :=
  Discovery.mkOptions (Some [Discovery.src_github; Discovery.src_github]) (Some 10)
    None None None.

End Fixtures.

Import Fixtures.

From Stdlib Require Import Permutation.

(** ** Reading the traces of the retry layer *)

Module RetryTraces.

(** The delays of the sleeps of a trace, in order. *)
Fixpoint sleep_delays (tr : list Retry.event) : list Z :=
  match tr with
  | [] => []
  | EvSleep ms :: tl => ms :: sleep_delays tl
  | _ :: tl => sleep_delays tl
  end.

(** The hint [withRetry] reads on an error: the [retryAfter] of a
    [RateLimitError], when it is truthy. *)
Definition retry_hint (e : thrown) : option Z :=
  match e with
  | RateLimitError _ (Some n) => if n =? 0 then None else Some n
  | _ => None
  end.

(** An operation that throws [e] at each of its first [k] calls and returns
    [v] at every later one; its world is the number of calls made. *)
Definition fails_then_returns {T : Type} (k : nat) (e : thrown) (v : T) (n : nat)
    : outcome thrown T * nat :=
  if (n <? k)%nat then (Raised e, S n) else (Returned v, S n).

End RetryTraces.

Import RetryTraces.

(** ** Reading the headers and the schemas *)

Module Readings.

(** The number of seconds the [retry-after] header gives, when the header is
    there and starts with a number. *)
Definition usable_retry_after (response : Response) : option Z :=
  match nonempty (headers_get (Http.headers response) "retry-after") with
  | Some s => parseInt s
  | None => None
  end.

(** The time of reset, in seconds, the [x-ratelimit-reset] header gives. *)
Definition usable_reset (response : Response) : option Z :=
  match nonempty (headers_get (Http.headers response) "x-ratelimit-reset") with
  | Some s => parseInt s
  | None => None
  end.

(** The eight names [PluginTemplateSchema] lists. *)
Definition template_names : list string :=
  [ "mcp-http"; "mcp-stdio"; "openapi"; "basic"; "default"; "markdown";
    "standalone"; "settings" ].

End Readings.

Import Readings.

(** ** Reading the runs of the discovery *)

Module DiscoveryReadings.

Import Discovery.

Definition is_search (ev : event) : bool :=
  match ev with EvSearch _ => true | _ => false end.

(** The number of calls of a source adapter in a trace. *)
Definition search_calls (tr : list event) : nat := List.length (filter is_search tr).

(** The sources [discoverFromSource] knows. *)
Definition implemented (s : DiscoverySource) : bool :=
  match s with src_github | src_npm => true | _ => false end.

(** The tool [t] with another readme. *)
Definition with_readme (t : DiscoveredTool) (r : option string) : DiscoveredTool :=
  mkTool (id t) (name t) (description t) (source t) (sourceUrl t) (license t) (author t)
    (homepage t) (repository t) (hasOpenAPI t) (hasMCPSupport t) (hasNpmPackage t)
    r (packageJson t) (manifestUrl t) (mcpConfig t).

(** What a run returns and the world it leaves, from what its first loop
    collected. *)
Definition outcome_of_collected {W : Type}
    (analyzeAndDecide : DiscoveredTool -> W -> outcome thrown TemplateDecision * W)
    (generateQuickImport : TemplateDecision -> option string)
    (options : DiscoveryOptions) (c : list DiscoveredTool * W)
    : outcome thrown (list DiscoveryResult) * W :=
  match fst c with
  | [] => (Returned [], snd c)
  | _ =>
      let lr := fst (analyze_loop analyzeAndDecide generateQuickImport
                       (get_or (dryRun options) false)
                       (candidates_of (fst c) (get_or (limit options) 10)) [] (snd c) []) in
      (Returned (fst lr), snd lr)
  end.

(** A readme of 5000 letters that holds no keyword, and a tool that no
    keyword matches. *)
Definition padding : string := string_of_list_ascii (repeat "z"%char 5000).

Definition plain_tool : DiscoveredTool :=
  mkTool "npm:left-pad" "left-pad" "Pads a string" src_npm
    "https://www.npmjs.com/package/left-pad"
    None None None None None (Some true) None None None None None.

End DiscoveryReadings.

Import DiscoveryReadings.

(** ** examples/09-custom-search-queries.ts *)

Module CustomSearch.

Import Discovery.

Definition has (seen : list string) (k : string) : bool :=
  existsb (fun s => (s =? k)%string) seen.

(** The inner loop of the searches: a tool whose key was not seen is pushed,
    and its key added to [seen].  The key is [tool.id] in
    [searchGitHubCustom] and [searchNpmCustom], [tool.name] in
    [executeSearchStrategy]. *)
Fixpoint push_unseen (key : DiscoveredTool -> string) (results : list DiscoveredTool)
    (seen : list string) (tools : list DiscoveredTool)
    : list string * list DiscoveredTool :=
  match results with
  | [] => (seen, tools)
  | t :: rest =>
      if has seen (key t) then push_unseen key rest seen tools
      else push_unseen key rest (seen ++ [key t])%list (tools ++ [t])%list
  end.

Section Searches.

Context {W : Type}.

(** The loop over the queries: one search for each query (the query itself
    is only printed), a search that throws adds nothing, and the loop is left
    once [tools.length >= limit].  The console lines are not recorded. *)
Fixpoint search_queries (searchMCPServers : Z -> W -> outcome thrown (list DiscoveredTool) * W)
    (queries : list string) (limit_ : Z) (seen : list string) (tools : list DiscoveredTool)
    (w : W) : list DiscoveredTool * W :=
  match queries with
  | [] => (tools, w)
  | _ :: rest =>
      let '(r, w1) := searchMCPServers limit_ w in
      let '(seen1, tools1) :=
        match r with
        | Returned results => push_unseen id results seen tools
        | Raised _ => (seen, tools)
        end in
      if Z.of_nat (List.length tools1) >=? limit_ then (tools1, w1)
      else search_queries searchMCPServers rest limit_ seen1 tools1 w1
  end.

(** [github_searchMCPServers limit] is [github.searchMCPServers(limit)] and
    [npm_searchMCPServers limit] is [npm.searchMCPServers(limit)]. *)
Variable github_searchMCPServers : Z -> W -> outcome thrown (list DiscoveredTool) * W.
Variable npm_searchMCPServers : Z -> W -> outcome thrown (list DiscoveredTool) * W.

Definition searchGitHubCustom (queries : list string) (limit_ : Z) (w : W)
    : list DiscoveredTool * W :=
  let '(tools, w1) := search_queries github_searchMCPServers queries limit_ [] [] w in
  (slice0 tools limit_, w1).

Definition searchNpmCustom (queries : list string) (limit_ : Z) (w : W)
    : list DiscoveredTool * W :=
  let '(tools, w1) := search_queries npm_searchMCPServers queries limit_ [] [] w in
  (slice0 tools limit_, w1).

Record SearchStrategy : Type := mkStrategy {
  strategy_name : string;
  strategy_github : list string;
  strategy_npm : list string
}.

(** [Math.ceil(limit / 2)] for an integer [limit]. *)
Definition half_up (limit_ : Z) : Z := - ((- limit_) / 2).

Definition executeSearchStrategy (strategy : SearchStrategy) (limit_ : Z) (w : W)
    : list DiscoveredTool * W :=
  let '(githubTools, w1) := searchGitHubCustom (strategy_github strategy) (half_up limit_) w in
  let '(seen1, all1) := push_unseen name githubTools [] [] in
  let '(npmTools, w2) := searchNpmCustom (strategy_npm strategy) (half_up limit_) w1 in
  let '(seen2, all2) := push_unseen name npmTools seen1 all1 in
  (slice0 all2 limit_, w2).

End Searches.

(** The first tool of a list with a given key. *)
Definition find_by (key : DiscoveredTool -> string) (k : string) (tools : list DiscoveredTool)
    : option DiscoveredTool :=
  find (fun t => (key t =? k)%string) tools.

End CustomSearch.

(** ** examples/filter-by-template.ts and examples/batch-processing.ts *)

Module TemplateStats.

Import Schemas Discovery.

(** Two templates are the same string. *)
Definition template_eqb (a b : PluginTemplate) : bool :=
  (template_name a =? template_name b)%string.

Definition MCP_TEMPLATES : list PluginTemplate := [mcp_http; mcp_stdio].

Definition STANDARD_TEMPLATES : list PluginTemplate :=
  [basic; default; markdown; openapi; settings; standalone].

(** [templates.includes(t)] *)
Definition includes_template (templates : list PluginTemplate) (t : PluginTemplate) : bool :=
  existsb (fun k => template_eqb k t) templates.

Definition filterByTemplates (results : list DiscoveryResult)
    (templates : list PluginTemplate) : list DiscoveryResult :=
  filter (fun r => includes_template templates (template (decision r))) results.

(** A [Map] or a record keyed by templates: its entries in the order in
    which the keys were first set. *)
Fixpoint lookup {V : Type} (m : list (PluginTemplate * V)) (t : PluginTemplate) : option V :=
  match m with
  | [] => None
  | (k, v) :: tl => if template_eqb k t then Some v else lookup tl t
  end.

(** One round of the loop of [groupByTemplate]: the group of the template
    is created empty when the map has none, and the result pushed on it. *)
Fixpoint push_to_group (groups : list (PluginTemplate * list DiscoveryResult))
    (t : PluginTemplate) (r : DiscoveryResult)
    : list (PluginTemplate * list DiscoveryResult) :=
  match groups with
  | [] => [(t, [r])]
  | (k, g) :: tl =>
      if template_eqb k t then (k, (g ++ [r])%list) :: tl
      else (k, g) :: push_to_group tl t r
  end.

Definition groupByTemplate (results : list DiscoveryResult)
    : list (PluginTemplate * list DiscoveryResult) :=
  fold_left (fun groups r => push_to_group groups (template (decision r)) r) results [].

(** One round of the loop of [aggregateByTemplate]:
    [counts[template] = (counts[template] || 0) + 1]. *)
Fixpoint bump (counts : list (PluginTemplate * Z)) (t : PluginTemplate)
    : list (PluginTemplate * Z) :=
  match counts with
  | [] => [(t, 0 + 1)]
  | (k, n) :: tl =>
      if template_eqb k t then (k, (if n =? 0 then 0 else n) + 1) :: tl
      else (k, n) :: bump tl t
  end.

Definition aggregateByTemplate (results : list DiscoveryResult) : list (PluginTemplate * Z) :=
  fold_left (fun counts r => bump counts (template (decision r))) results [].

(** The number of results in the groups. *)
Definition sizes (groups : list (PluginTemplate * list DiscoveryResult)) : nat :=
  list_sum (map (fun kg => List.length (snd kg)) groups).

End TemplateStats.

(** ** ToolDiscovery.analyzeGitHubRepo and analyzeNpmPackage of src/index.ts *)

Module SingleAnalysis.

Import Schemas Discovery.

Inductive line : Type :=
| LogFetching (owner : string) (repo : option string)
| LogFetchingPackage (name : string)
| ErrRepositoryNotFound
| ErrPackageNotFound
| LogAnalyzingOne
| LogAnalysisComplete
| LogTemplateOne (t : PluginTemplate)
| LogReasoningOne (r : string)
| LogQuickImportOne (q : string).

(** What one analysis does to the outside, in order: console lines, the
    lookup of the tool and the call of [this.ai.analyzeAndDecide]. *)
Inductive event : Type :=
| EvLine (l : line)
| EvLookup
| EvClassify (t : DiscoveredTool).

Definition is_classify (ev : event) : bool :=
  match ev with EvClassify _ => true | _ => false end.

Definition classify_calls (tr : list event) : nat := List.length (filter is_classify tr).

Section One.

Context {W : Type}.

(** [this.github.getRepo(owner, repo)] and [this.npm.getPackageAsTool(name)]
    ([None] is [null]), whose code is in other files.  The [repo] of a caller
    that destructures [split('/')] without a check may be [undefined]:
    [None]. *)
Variable github_getRepo :
  string -> option string -> W -> outcome thrown (option DiscoveredTool) * W.
Variable npm_getPackageAsTool : string -> W -> outcome thrown (option DiscoveredTool) * W.
Variable analyzeAndDecide : DiscoveredTool -> W -> outcome thrown TemplateDecision * W.
Variable generateQuickImport : TemplateDecision -> option string.

Record run : Type := mkRun {
  result : outcome thrown (option DiscoveryResult);
  world : W;
  trace : list event
}.

(** What the two methods do once the lookup is done. *)
Definition analyze_found (not_found : line) (looked : outcome thrown (option DiscoveredTool))
    (w1 : W) (tr : list event) : run :=
  match looked with
  | Raised e => mkRun (Raised e) w1 tr
  | Returned None => mkRun (Returned None) w1 (tr ++ [EvLine not_found])%list
  | Returned (Some t) =>
      let tr1 := (tr ++ [EvLine LogAnalyzingOne; EvClassify t])%list in
      match analyzeAndDecide t w1 with
      | (Raised e, w2) => mkRun (Raised e) w2 tr1
      | (Returned d, w2) =>
          mkRun (Returned (Some (mkResult t d (config d)))) w2
            (tr1 ++ [EvLine LogAnalysisComplete; EvLine (LogTemplateOne (template d));
                     EvLine (LogReasoningOne (reasoning d))]
                 ++ match generateQuickImport d with
                    | Some q => if (q =? "")%string then [] else [EvLine (LogQuickImportOne q)]
                    | None => []
                    end)%list
      end
  end.

Definition analyzeGitHubRepo (owner : string) (repo : option string) (w : W) : run :=
  let '(looked, w1) := github_getRepo owner repo w in
  analyze_found ErrRepositoryNotFound looked w1 [EvLine (LogFetching owner repo); EvLookup].

Definition analyzeNpmPackage (name_ : string) (w : W) : run :=
  let '(looked, w1) := npm_getPackageAsTool name_ w in
  analyze_found ErrPackageNotFound looked w1 [EvLine (LogFetchingPackage name_); EvLookup].

End One.

Arguments run : clear implicits.

End SingleAnalysis.

(** ** examples/batch-processing.ts: processBatch *)

Module Batch.

Import Schemas Discovery.

(** [s.split('/')]: the pieces of [s] between the slashes; [cur] is the
    piece being read. *)
Fixpoint split_slash (s : string) (cur : string) : list string :=
  match s with
  | EmptyString => [cur]
  | String c tl =>
      if Ascii.eqb c "/" then cur :: split_slash tl ""
      else split_slash tl (cur ++ String c "")
  end.

(** [const [owner, name] = repo.split('/')]: a piece that is not there is
    [undefined]. *)
Definition owner_and_name (repo : string) : string * option string :=
  match split_slash repo "" with
  | [] => ("", None)
  | [o] => (o, None)
  | o :: n :: _ => (o, Some n)
  end.

Record Stats : Type := mkStats {
  total : Z;
  succeeded : Z;
  failed_count : Z;
  duration : Z
}.

Record BatchResult : Type := mkBatch {
  success : list DiscoveryResult;
  failed : list (string * string);
  stats : Stats
}.

(** The calls of [analyzeGitHubRepo] and the delays of a batch, in order;
    the console lines are not recorded. *)
Inductive event : Type :=
| EvAnalyzeRepo (owner : string) (name : option string)
| EvDelay (ms : Z).

Fixpoint delays (tr : list event) : list Z :=
  match tr with
  | [] => []
  | EvDelay ms :: tl => ms :: delays tl
  | _ :: tl => delays tl
  end.

Fixpoint analyses (tr : list event) : list (string * option string) :=
  match tr with
  | [] => []
  | EvAnalyzeRepo o n :: tl => (o, n) :: analyses tl
  | _ :: tl => analyses tl
  end.

(** [error instanceof Error ? error.message : 'Unknown error'] *)
Definition error_message (e : thrown) : string :=
  match e with
  | Undefined => "Unknown error"
  | _ => message e
  end.

Section ProcessBatch.

Context {W : Type}.

Variable github_getRepo :
  string -> option string -> W -> outcome thrown (option DiscoveredTool) * W.
Variable npm_getPackageAsTool : string -> W -> outcome thrown (option DiscoveredTool) * W.
Variable analyzeAndDecide : DiscoveredTool -> W -> outcome thrown TemplateDecision * W.
Variable generateQuickImport : TemplateDecision -> option string.
(** [Date.now()] *)
Variable now : W -> Z.

(** The loop of [processBatch], from the repository at index [i] on. *)
Fixpoint batch_loop (repos : list string) (delayMs : Z)
    (success_ : list DiscoveryResult) (failed_ : list (string * string)) (w : W)
    (tr : list event)
    : list DiscoveryResult * list (string * string) * W * list event :=
  match repos with
  | [] => (success_, failed_, w, tr)
  | repo :: rest =>
      let '(owner, name_) := owner_and_name repo in
      let r := SingleAnalysis.analyzeGitHubRepo github_getRepo analyzeAndDecide
                 generateQuickImport owner name_ w in
      let tr1 := (tr ++ [EvAnalyzeRepo owner name_])%list in
      let '(success1, failed1) :=
        match SingleAnalysis.result r with
        | Returned (Some res) => ((success_ ++ [res])%list, failed_)
        | Returned None => (success_, (failed_ ++ [(repo, "Repository not analyzable")])%list)
        | Raised e => (success_, (failed_ ++ [(repo, error_message e)])%list)
        end in
      let tr2 := match rest with
                 | [] => tr1
                 | _ => (tr1 ++ [EvDelay delayMs])%list
                 end in
      batch_loop rest delayMs success1 failed1 (SingleAnalysis.world r) tr2
  end.

Definition processBatch (repos : list string) (delayMs : option Z) (w : W)
    : BatchResult * W * list event :=
  let delayMs_ := match delayMs with Some d => d | None => 1000 end in
  let startTime := now w in
  let '(success_, failed_, w1, tr) := batch_loop repos delayMs_ [] [] w [] in
  let duration_ := now w1 - startTime in
  (mkBatch success_ failed_
     (mkStats (Z.of_nat (List.length repos)) (Z.of_nat (List.length success_))
        (Z.of_nat (List.length failed_)) duration_),
   w1, tr).

End ProcessBatch.

End Batch.

(** ** examples/10-pipeline-integration.ts: the stages after the discovery *)

Module Pipeline.

Import Schemas Discovery.

Record Metadata : Type := mkMetadata {
  m_author : option string;
  m_license : option string;
  m_homepage : option string;
  hasMCP : bool;
  m_hasOpenAPI : bool
}.

Record TransformedTool : Type := mkTransformed {
  t_id : string;
  t_name : string;
  t_template : PluginTemplate;
  t_source : DiscoverySource;
  t_url : string;
  t_description : string;
  t_config : PluginConfig;
  t_reasoning : string;
  metadata : Metadata
}.

Definition transform (r : DiscoveryResult) : TransformedTool :=
  mkTransformed (id (tool r)) (name (tool r)) (template (decision r)) (source (tool r))
    (sourceUrl (tool r)) (description (tool r)) (config (decision r)) (reasoning (decision r))
    (mkMetadata (author (tool r)) (license (tool r)) (homepage (tool r))
       (truthy_flag (hasMCPSupport (tool r))) (truthy_flag (hasOpenAPI (tool r)))).

Definition stageTransform (results : list DiscoveryResult) : list TransformedTool :=
  map transform results.

(** [PipelineConfig['filters']] *)
Record Filters : Type := mkFilters {
  f_templates : option (list PluginTemplate);
  minConfidence : option Z;
  requireMCP : option bool
}.

Definition stageFilter (tools : list TransformedTool) (filters : Filters)
    : list TransformedTool :=
  let filtered1 :=
    match f_templates filters with
    | Some (k :: ks) =>
        filter (fun t => TemplateStats.includes_template (k :: ks) (t_template t)) tools
    | _ => tools
    end in
  if truthy_flag (requireMCP filters)
  then filter (fun t => hasMCP (metadata t)) filtered1
  else filtered1.

Record ValidationResult : Type := mkValidation {
  v_tool : TransformedTool;
  valid : bool;
  errors : list string;
  warnings : list string
}.

(** [!s] on a string *)
Definition falsy (s : string) : bool := (s =? "")%string.

(** [!s] on a string that may be absent *)
Definition falsy_opt (s : option string) : bool :=
  match s with Some x => falsy x | None => true end.

(** [tool.template === 'mcp-http' || tool.template === 'mcp-stdio'] *)
Definition is_mcp_template (t : PluginTemplate) : bool :=
  (template_name t =? "mcp-http")%string || (template_name t =? "mcp-stdio")%string.

(** [!config.customParams?.mcp]: a standard config has no [customParams]. *)
Definition lacks_mcp (c : PluginConfig) : bool :=
  match c with MCPPlugin _ => false | StandardPlugin _ => true end.

Definition validate (t : TransformedTool) : ValidationResult :=
  let errors_ :=
    ((if falsy (t_name t) then ["Missing name"] else [])
     ++ (if falsy (template_name (t_template t)) then ["Missing template"] else [])
     ++ (if falsy (t_url t) then ["Missing URL"] else [])
     ++ (if is_mcp_template (t_template t)
         then (if lacks_mcp (t_config t) then ["MCP template missing mcp config"] else [])
         else []))%list in
  let warnings_ :=
    ((if falsy (t_description t) then ["Missing description"] else [])
     ++ (if falsy_opt (m_author (metadata t)) then ["Missing author"] else []))%list in
  mkValidation t (match errors_ with [] => true | _ => false end) errors_ warnings_.

Definition stageValidate (tools : list TransformedTool) : list ValidationResult :=
  map validate tools.

(** The default filters: [{ requireMCP: true }]. *)
Definition DEFAULT_filters : Filters := mkFilters None None (Some true).

(** [c] is one of a-z, 0-9 and the hyphen. *)
Definition slug_char (c : ascii) : bool :=
  let n := nat_of_ascii c in
  ((97 <=? n) && (n <=? 122))%nat || ((48 <=? n) && (n <=? 57))%nat || (n =? 45)%nat.

(** [s.replace(/[^a-z0-9-]/g, '-')] *)
Fixpoint replace_unsafe (s : string) : string :=
  match s with
  | EmptyString => EmptyString
  | String c tl => String (if slug_char c then c else "-"%char) (replace_unsafe tl)
  end.

(** Every character of [s] passes [p]. *)
Fixpoint all_chars (p : ascii -> bool) (s : string) : bool :=
  match s with
  | EmptyString => true
  | String c tl => p c && all_chars p tl
  end.

(** The identifier [outputPluginIndex] gives a tool:
    [tool.name.toLowerCase().replace(/[^a-z0-9-]/g, '-')]. *)
Definition plugin_identifier (t : TransformedTool) : string :=
  replace_unsafe (toLowerCase (t_name t)).

End Pipeline.

(** ** examples/pipeline-integration.ts: toMCPConfig *)

Module McpConfig.

Import Schemas Discovery.

(** An entry of [mcpServers]. *)
Inductive server : Type :=
| HttpServer (url_ : string) (auth_ : option Auth)
| StdioServer (command_ : string) (args_ : list string) (env_ : option (list (string * string))).

(** [mcp.auth && mcp.auth.type !== 'none' ? { auth: mcp.auth } : {}] *)
Definition written_auth (a : option Auth) : option Auth :=
  match a with
  | Some x => match auth_type x with auth_none => None | _ => Some x end
  | None => None
  end.

Definition server_of (c : MCPConnection) : server :=
  match c with
  | Http h => HttpServer (url h) (written_auth (auth h))
  | Stdio s => StdioServer (command s) (match args s with Some a => a | None => [] end) (env s)
  end.

(** [mcpServers[key] = value]: an object written through its keys, read
    through [get]. *)
Fixpoint set (servers : list (string * server)) (k : string) (v : server)
    : list (string * server) :=
  match servers with
  | [] => [(k, v)]
  | (k', v') :: tl => if (k' =? k)%string then (k', v) :: tl else (k', v') :: set tl k v
  end.

Fixpoint get (servers : list (string * server)) (k : string) : option server :=
  match servers with
  | [] => None
  | (k', v) :: tl => if (k' =? k)%string then Some v else get tl k
  end.

(** One round of the loop of [toMCPConfig]. *)
Definition add_server (servers : list (string * server)) (r : DiscoveryResult)
    : list (string * server) :=
  match generated_pluginConfig r with
  | MCPPlugin c => set servers (mcp_identifier c) (server_of (mcp (customParams c)))
  | StandardPlugin _ => servers
  end.

Definition toMCPConfig (results : list DiscoveryResult) : list (string * server) :=
  fold_left add_server results [].

(** The servers of the results, one for each result with an MCP config, in
    the order of the results. *)
Definition servers_of (results : list DiscoveryResult) : list (string * server) :=
  flat_map (fun r => match generated_pluginConfig r with
                     | MCPPlugin c => [(mcp_identifier c, server_of (mcp (customParams c)))]
                     | StandardPlugin _ => []
                     end) results.

End McpConfig.

(** ** examples/11-error-handling.ts: isRetryableError *)

Module ErrorHandlingExample.

(** What the example catches: an error of the library, or one of the three
    classes the example declares itself. *)
Inductive caught : Type :=
| FromLibrary (e : thrown)
| ExRateLimitError (message_ : string) (retryAfter_ : Z)
| ExNetworkError (message_ : string)
| ExInvalidRepositoryError (message_ : string).

Definition RETRYABLE_WORDS : list string :=
  [ "rate limit"; "too many requests"; "429";
    "network"; "timeout"; "econnreset"; "econnrefused"; "etimedout";
    "500"; "502"; "503"; "504" ].

(** [error instanceof Error], and the message then. *)
Definition error_message (c : caught) : option string :=
  match c with
  | FromLibrary Undefined => None
  | FromLibrary e => Some (message e)
  | ExRateLimitError m _ => Some m
  | ExNetworkError m => Some m
  | ExInvalidRepositoryError m => Some m
  end.

Definition isRetryableError (c : caught) : bool :=
  match c with
  | ExRateLimitError _ _ => true
  | ExNetworkError _ => true
  | _ =>
      match error_message c with
      | Some m =>
          existsb (fun word => Discovery.includes (Discovery.toLowerCase m) word)
            RETRYABLE_WORDS
      | None => false
      end
  end.

End ErrorHandlingExample.

(** * Properties *)

(** ** Sanity checks of the embedding, on the cases of the repository's tests *)

Example parseInt_30 : parseInt "30" = Some 30.
Proof. reflexivity. Qed.

Example parseInt_junk : parseInt "soon" = None.
Proof. reflexivity. Qed.

Example getRetryAfter_header :
  getRetryAfter 0 (mkResponse 429 [("retry-after", "30")]) = Some 30.
Proof. reflexivity. Qed.

Example getRetryAfter_reset :
  getRetryAfter 1000500 (mkResponse 403 [("x-ratelimit-reset", "1060")]) = Some 60.
Proof. reflexivity. Qed.

Example getRetryAfter_missing : getRetryAfter 0 (mkResponse 200 []) = None.
Proof. reflexivity. Qed.

Example message_rate_limit :
  message (RateLimitError npm (Some 60)) = "Rate limited by npm. Retry after 60s".
Proof. reflexivity. Qed.

(** ** Backoff *)

Section Backoff.

Local Open Scope Q_scope.




End Backoff.



Example calculateBackoff_values :
  calculateBackoff (1 # 2) 0 (1000 # 1) (30000 # 1) = 1150
  /\ calculateBackoff 0 1 (1000 # 1) (30000 # 1) = 2000
  /\ calculateBackoff (9 # 10) 5 (1000 # 1) (30000 # 1) = 30000.
Proof. repeat split; reflexivity. Qed.

(** ** The retry loop *)

Lemma calls_app (tr1 tr2 : list Retry.event) :
  calls (tr1 ++ tr2) = (calls tr1 + calls tr2)%nat.
Proof. unfold calls. rewrite filter_app, length_app. reflexivity. Qed.

Lemma sleeps_app (tr1 tr2 : list Retry.event) :
  sleeps (tr1 ++ tr2) = (sleeps tr1 + sleeps tr2)%nat.
Proof. unfold sleeps. rewrite filter_app, length_app. reflexivity. Qed.

Section RetryLoop.

Context {W T : Type}.
Variable fn : W -> outcome thrown T * W.
Variable opts : Policy W.
Variable rand : nat -> Q.

(** The budget of [retry_loop] is positive exactly when the loop condition
    [attempt <= opts.maxRetries] holds, and one round uses one unit. *)
Lemma budget_condition (attempt : nat) :
  (0 < budget_from opts attempt)%nat <-> Z.of_nat attempt <= p_maxRetries opts.
Proof. unfold budget_from. lia. Qed.

Lemma budget_step (attempt : nat) :
  Z.of_nat attempt <= p_maxRetries opts ->
  budget_from opts attempt = S (budget_from opts (S attempt)).
Proof. unfold budget_from. lia. Qed.


Hypothesis always_retryable :
  forall w, exists e, fst (fn w) = Raised e /\ isRetryableError e = true.
Hypothesis callback_returns :
  forall cb, p_onRetry opts = Some cb ->
  forall a e d w, exists w', cb a e d w = (Returned tt, w').

(** When every call throws a retryable error, the loop entered at [attempt]
    with [budget] rounds left calls the operation [budget] times, sleeps
    between the calls, and throws what the last call threw. *)
Lemma retry_loop_exhausts (budget : nat) :
  forall (attempt : nat) (lastError : thrown) (w : W) (tr : list Retry.event),
    budget_from opts attempt = budget -> (0 < budget)%nat ->
    let r := retry_loop fn opts rand budget attempt lastError w tr in
    calls (Retry.trace r) = (calls tr + budget)%nat
    /\ sleeps (Retry.trace r) = (sleeps tr + (budget - 1))%nat
    /\ exists e w_before tr',
         fn w_before = (Raised e, Retry.world r)
         /\ Retry.result r = Raised e
         /\ Retry.trace r = (tr' ++ [EvCall; EvDebug (DbgMaxRetries (p_maxRetries opts))])%list.
Proof.
  induction budget as [| b IH]; intros attempt lastError w tr Hb Hpos; [lia |].
  cbn zeta. cbn [retry_loop].
  destruct (always_retryable w) as [e [He Hr]].
  destruct (fn w) as [r w1] eqn:Hfn. simpl in He. subst r.
  rewrite Hr. cbn [negb].
  destruct (Z.of_nat attempt >=? p_maxRetries opts) eqn:Hge.
  - (* the last round *)
    apply Z.geb_le in Hge.
    assert (b = 0)%nat by (unfold budget_from in Hb; lia). subst b.
    cbn [Retry.trace Retry.result Retry.world].
    rewrite !calls_app, !sleeps_app. cbn.
    split; [lia | split; [lia |]].
    exists e, w, tr. rewrite <- app_assoc.
    split; [exact Hfn | split; reflexivity].
  - (* a round followed by a sleep and the rest of the loop *)
    assert (Hb' : budget_from opts (S attempt) = b /\ (0 < b)%nat).
    { unfold budget_from in *.
      assert (Z.of_nat attempt < p_maxRetries opts).
      { destruct (Z.lt_ge_cases (Z.of_nat attempt) (p_maxRetries opts)) as [L | G];
          [exact L | apply Z.geb_le in G; congruence]. }
      lia. }
    destruct Hb' as [Hb' Hpos'].
    destruct (p_onRetry opts) as [cb |] eqn:Hcb.
    + destruct (callback_returns cb eq_refl (Z.of_nat attempt + 1) e
                  (delay_for opts rand attempt e) w1) as [w2 Hw2].
      rewrite Hw2.
      match goal with
      | |- context [retry_loop fn opts rand b (S attempt) e w2 ?tr0] =>
          specialize (IH (S attempt) e w2 tr0 Hb' Hpos'); cbn zeta in IH;
          destruct IH as [Hc [Hs Hex]]
      end.
      rewrite Hc, Hs, !calls_app, !sleeps_app. cbn.
      split; [lia | split; [lia | exact Hex]].
    + match goal with
      | |- context [retry_loop fn opts rand b (S attempt) e w1 ?tr0] =>
          specialize (IH (S attempt) e w1 tr0 Hb' Hpos'); cbn zeta in IH;
          destruct IH as [Hc [Hs Hex]]
      end.
      rewrite Hc, Hs, !calls_app, !sleeps_app. cbn.
      split; [lia | split; [lia | exact Hex]].
Qed.

End RetryLoop.



(** C3, as the code has it.  Under a policy whose [maxRetries] is not
    negative and whose [onRetry], when given, returns, an operation that
    throws a retryable error at every call is called exactly
    [maxRetries + 1] times, with [maxRetries] sleeps in between; then, after
    the debug line "Max retries reached", [withRetry] throws the very value
    the last call threw. *)
Theorem withRetry_exhausts_and_rethrows :
  forall (W T : Type) (fn : W -> outcome thrown T * W) (options : RetryOptions W)
         (rand : nat -> Q) (w : W),
    0 <= p_maxRetries (merge_options options) ->
    (forall w0, exists e, fst (fn w0) = Raised e /\ isRetryableError e = true) ->
    (forall cb, onRetry options = Some cb ->
       forall a e d w0, exists w1, cb a e d w0 = (Returned tt, w1)) ->
    let r := withRetry fn options rand w in
    Z.of_nat (calls (Retry.trace r)) = p_maxRetries (merge_options options) + 1
    /\ Z.of_nat (sleeps (Retry.trace r)) = p_maxRetries (merge_options options)
    /\ exists e w_before tr',
         fn w_before = (Raised e, Retry.world r)
         /\ Retry.result r = Raised e
         /\ Retry.trace r
            = (tr' ++ [EvCall;
                       EvDebug (DbgMaxRetries (p_maxRetries (merge_options options)))])%list.
Proof.
  intros W T fn options rand w Hmax Hfn Hcb.
  unfold withRetry, withRetry_policy.
  assert (Hpos : (0 < budget_from (merge_options options) 0)%nat).
  { apply budget_condition. exact Hmax. }
  destruct (retry_loop_exhausts fn (merge_options options) rand Hfn Hcb
              (budget_from (merge_options options) 0) 0%nat Undefined w [] eq_refl Hpos)
    as [Hc [Hs Hex]].
  cbn zeta. rewrite Hc, Hs. unfold budget_from. cbn [calls sleeps filter List.length].
  split; [lia | split; [lia | exact Hex]].
Qed.

Lemma withRetry_exhausts_and_rethrows_witness :
  let r := withRetry always_503 no_options (fun _ => 0%Q) tt in
  Z.of_nat (calls (Retry.trace r)) = 3 + 1
  /\ Z.of_nat (sleeps (Retry.trace r)) = 3
  /\ exists e w_before tr',
       always_503 w_before = (Raised e, Retry.world r)
       /\ Retry.result r = Raised e
       /\ Retry.trace r = (tr' ++ [EvCall; EvDebug (DbgMaxRetries 3)])%list.
Proof.
  apply (withRetry_exhausts_and_rethrows unit nat always_503 no_options (fun _ => 0%Q) tt).
  - discriminate.
  - intros w0. eexists. split; reflexivity.
  - intros cb H. discriminate H.
Defined.

(** C3, as the claim states it, fails: after the default four calls the
    value [withRetry] throws is the [NetworkError] of the operation, with the
    name, code and message the operation gave it; nothing on it says that
    retries were exhausted. *)
Lemma withRetry_rethrows_unannotated :
  let r := withRetry always_503 no_options (fun _ => 0%Q) tt in
  Retry.result r
  = Raised (NetworkError "https://registry.npmjs.org/-/v1/search" (Some 503))
  /\ calls (Retry.trace r) = 4%nat
  /\ (exists e, Retry.result r = Raised e /\ fst (always_503 tt) = Raised e
        /\ Errors.name e = "NetworkError"
        /\ code e = "NETWORK_ERROR"
        /\ message e
           = "Network request failed: https://registry.npmjs.org/-/v1/search (status: 503)").
Proof.
  cbn zeta. split; [reflexivity | split; [reflexivity |]].
  eexists. repeat split; reflexivity.
Qed.

(** With a negative [maxRetries] the loop condition is false at once: the
    operation is never called and the unassigned [lastError] is thrown. *)
Example withRetry_negative_maxRetries :
  let r := withRetry always_503 (mkRetryOptions (Some (-1)) None None None)
             (fun _ => 0%Q) tt in
  Retry.result r = Raised Undefined /\ calls (Retry.trace r) = 0%nat.
Proof. split; reflexivity. Qed.

(** A rate-limit error with a [retryAfter] is waited for that many seconds;
    any other retryable error is waited for the backoff. *)
Example delay_for_cases :
  let opts := merge_options (@no_options unit) in
  delay_for opts (fun _ => 0%Q) 2 (RateLimitError github (Some 7)) = 7000
  /\ delay_for opts (fun _ => 0%Q) 2 (RateLimitError github None) = 4000
  /\ delay_for opts (fun _ => 0%Q) 2 (RateLimitError github (Some 0)) = 4000
  /\ delay_for opts (fun _ => 0%Q) 2 (NetworkError "u" (Some 502)) = 4000.
Proof. repeat split; reflexivity. Qed.

(** ** Rate-limit detection of [fetchWithRetry] *)




Example check_response_cases :
  check_response 0 "u" (Http.mkResponse 429 [("retry-after", "7")])
  = Raised (RateLimitError github (Some 7))
  /\ check_response 0 "u" (Http.mkResponse 403 [("x-ratelimit-remaining", "0")])
     = Raised (RateLimitError github None)
  /\ check_response 0 "u" (Http.mkResponse 403 [])
     = Returned (Http.mkResponse 403 [])
  /\ check_response 0 "u" (Http.mkResponse 503 [])
     = Raised (NetworkError "u" (Some 503))
  /\ check_response 0 "u" (Http.mkResponse 404 [])
     = Returned (Http.mkResponse 404 []).
Proof. repeat split; reflexivity. Qed.

(** ** Schemas *)

Section SchemaRoundTrip.

Import Schemas.

Variable is_url : string -> bool.

Lemma all_strings_enc (l : list string) : all_strings (map JStr l) = Some l.
Proof. induction l as [| s l IH]; [reflexivity |]. cbn. rewrite IH. reflexivity. Qed.

Lemma all_string_values_enc (l : list (string * string)) :
  all_string_values (map (fun kv => (fst kv, JStr (snd kv))) l) = Some l.
Proof.
  induction l as [| [k v] l IH]; [reflexivity |]. cbn. rewrite IH. reflexivity.
Qed.

Lemma optional_string_enc (x : option string) :
  z_optional z_string (enc_opt JStr x) = Some x.
Proof. destruct x; reflexivity. Qed.

Lemma optional_strings_enc (x : option (list string)) :
  z_optional z_array_string (enc_opt enc_strings x) = Some x.
Proof. destruct x as [l |]; [| reflexivity]. cbn. rewrite all_strings_enc. reflexivity. Qed.

Lemma optional_record_enc (x : option (list (string * string))) :
  z_optional z_record_string (enc_opt enc_record x) = Some x.
Proof.
  destruct x as [l |]; [| reflexivity].
  cbn. rewrite all_string_values_enc. reflexivity.
Qed.

Lemma template_of_name_enc (t : PluginTemplate) : template_of_name (template_name t) = Some t.
Proof. destruct t; reflexivity. Qed.

Lemma auth_enc (a : Auth) : AuthSchema (enc_auth a) = Some a.
Proof.
  destruct a as [ty tk at_]. unfold AuthSchema, enc_auth. cbn.
  rewrite !optional_string_enc. destruct ty; reflexivity.
Qed.

Lemma optional_auth_enc (x : option Auth) :
  z_optional AuthSchema (enc_opt enc_auth x) = Some x.
Proof.
  destruct x as [a |]; [| reflexivity].
  cbn [enc_opt]. change (z_optional AuthSchema (enc_auth a))
    with (option_map Some (AuthSchema (enc_auth a))).
  rewrite auth_enc. reflexivity.
Qed.

Lemma connection_enc (c : MCPConnection) :
  match c with Http h => is_url (url h) = true | Stdio _ => True end ->
  MCPConnectionSchema is_url (enc_connection c) = Some c.
Proof.
  destruct c as [[u a h] | [c a e]]; intros Hok.
  - cbn in Hok. unfold MCPConnectionSchema, MCPHttpConfigSchema, enc_connection, z_url.
    cbn. rewrite Hok. cbn.
    rewrite optional_auth_enc. cbn. rewrite optional_record_enc. reflexivity.
  - unfold MCPConnectionSchema, MCPStdioConfigSchema, enc_connection.
    cbn. rewrite optional_strings_enc. cbn. rewrite optional_record_enc. reflexivity.
Qed.

Lemma meta_enc (m : PluginMeta) : PluginMetaSchema (enc_meta m) = Some m.
Proof.
  destruct m as [t d a g c]. unfold PluginMetaSchema, enc_meta. cbn.
  rewrite optional_string_enc. cbn. rewrite optional_strings_enc. cbn.
  rewrite optional_string_enc. reflexivity.
Qed.

Lemma optional_meta_enc (x : option PluginMeta) :
  z_optional PluginMetaSchema (enc_opt enc_meta x) = Some x.
Proof.
  destruct x as [m |]; [| reflexivity].
  cbn [enc_opt]. change (z_optional PluginMetaSchema (enc_meta m))
    with (option_map Some (PluginMetaSchema (enc_meta m))).
  rewrite meta_enc. reflexivity.
Qed.

Lemma config_enc (c : PluginConfig) :
  match c with
  | MCPPlugin m =>
      match mcp (customParams m) with Http h => is_url (url h) = true | Stdio _ => True end
  | StandardPlugin _ => True
  end ->
  ConfigSchema is_url (enc_config c) = Some c.
Proof.
  destruct c as [[i [m d a]] | [i mf au me]]; intros Hok.
  - cbn in Hok. unfold ConfigSchema, MCPPluginConfigSchema, MCPCustomParamsSchema. cbn.
    rewrite (connection_enc m Hok). cbn.
    rewrite !optional_string_enc. reflexivity.
  - unfold ConfigSchema, MCPPluginConfigSchema, StandardPluginConfigSchema. cbn.
    rewrite !optional_string_enc. cbn. rewrite optional_meta_enc. reflexivity.
Qed.

Lemma decision_enc (d : AIAnalysisResponse) :
  urls_ok is_url d = true ->
  AIAnalysisResponseSchema is_url (enc_decision d) = Some d.
Proof.
  destruct d as [t r c]. unfold urls_ok. cbn [config]. intros Hok.
  unfold AIAnalysisResponseSchema, enc_decision, PluginTemplateSchema.
  cbn -[template_of_name ConfigSchema].
  rewrite template_of_name_enc. cbn -[ConfigSchema].
  rewrite config_enc; [reflexivity |].
  destruct c as [[i [m de a]] |]; [| exact I].
  cbn in *. destruct m; [exact Hok | exact I].
Qed.

End SchemaRoundTrip.




(** C10.  [safeParseAIResponse] returns on every value; it returns [null]
    exactly on the values on which [parseAIResponse] throws, and on every
    other value the two return the same decision. *)
Theorem safeParseAIResponse_agrees_with_parseAIResponse :
  forall (is_url : string -> bool) (data : Schemas.json),
    (exists r, Schemas.safeParseAIResponse is_url data = Returned r)
    /\ (Schemas.safeParseAIResponse is_url data = Returned None
        <-> exists e, Schemas.parseAIResponse is_url data = Raised e)
    /\ (forall d,
          Schemas.parseAIResponse is_url data = Returned d
          <-> Schemas.safeParseAIResponse is_url data = Returned (Some d)).
Proof.
  intros is_url data.
  unfold Schemas.safeParseAIResponse, Schemas.parseAIResponse, Schemas.parse,
    Schemas.safeParse.
  destruct (Schemas.AIAnalysisResponseSchema is_url data) as [d0 |].
  - split; [eexists; reflexivity |]. split.
    + split; [intros H; discriminate H | intros [e H]; discriminate H].
    + intros d. split; intros H; inversion H; reflexivity.
  - split; [eexists; reflexivity |]. split.
    + split; [intros _; eexists; reflexivity | reflexivity].
    + intros d. split; intros H; discriminate H.
Qed.

(** The cases of the repository's schema tests. *)
Example parse_standard_plugin :
  forall is_url,
    Schemas.parseAIResponse is_url
      (Schemas.JObj
         [ ("template", Schemas.JStr "openapi");
           ("reasoning", Schemas.JStr "Has OpenAPI spec");
           ("config",
            Schemas.JObj
              [ ("identifier", Schemas.JStr "my-api");
                ("manifest", Schemas.JStr "https://example.com/manifest.json");
                ("author", Schemas.JStr "me");
                ("meta",
                 Schemas.JObj [ ("title", Schemas.JStr "My API");
                                ("description", Schemas.JStr "An API plugin") ]) ]) ])
    = Returned
        (Schemas.mkAIAnalysisResponse Schemas.openapi "Has OpenAPI spec"
           (Schemas.StandardPlugin
              (Schemas.mkStandard "my-api" (Some "https://example.com/manifest.json")
                 (Some "me")
                 (Some (Schemas.mkMeta "My API" "An API plugin" None None None))))).
Proof. intros is_url. reflexivity. Qed.

Example parse_invalid_template :
  forall is_url,
    Schemas.parseAIResponse is_url
      (Schemas.JObj [ ("template", Schemas.JStr "invalid-template");
                      ("reasoning", Schemas.JStr "Test");
                      ("config", Schemas.JObj []) ])
    = Raised Schemas.mkZodError.
Proof. intros is_url. reflexivity. Qed.

Example safeParse_invalid :
  forall is_url,
    Schemas.safeParseAIResponse is_url (Schemas.JObj [("invalid", Schemas.JBool true)])
    = Returned None.
Proof. intros is_url. reflexivity. Qed.

Example isValidTemplate_cases :
  Schemas.isValidTemplate "mcp-http" = true
  /\ Schemas.isValidTemplate "mcp-stdio" = true
  /\ Schemas.isValidTemplate "invalid" = false
  /\ Schemas.isValidTemplate "" = false.
Proof. repeat split; reflexivity. Qed.

(** An http descriptor whose url is refused makes the MCP option fail; the
    union then falls back on the standard option, which keeps the
    identifier. *)
Example union_falls_back_on_standard :
  Schemas.parseAIResponse (fun _ => false)
    (Schemas.JObj
       [ ("template", Schemas.JStr "mcp-http");
         ("reasoning", Schemas.JStr "remote");
         ("config",
          Schemas.JObj
            [ ("identifier", Schemas.JStr "x");
              ("customParams",
               Schemas.JObj
                 [ ("mcp", Schemas.JObj [ ("type", Schemas.JStr "http");
                                          ("url", Schemas.JStr "not-a-url") ]) ]) ]) ])
  = Returned
      (Schemas.mkAIAnalysisResponse Schemas.mcp_http "remote"
         (Schemas.StandardPlugin (Schemas.mkStandard "x" None None None))).
Proof. reflexivity. Qed.

(** ** The discovery run *)

Ltac count_events :=
  repeat split;
  first [ reflexivity
        | unfold Discovery.analyze_calls, Discovery.failure_lines; cbn; lia ].

Section DiscoverProperties.

Import Discovery.

Context {W : Type}.
Variable github_searchMCPServers : Z -> Z -> W -> outcome thrown (list DiscoveredTool) * W.
Variable npm_searchMCPServers : Z -> W -> outcome thrown (list DiscoveredTool) * W.
Variable analyzeAndDecide : DiscoveredTool -> W -> outcome thrown TemplateDecision * W.
Variable generateQuickImport : TemplateDecision -> option string.

Local Abbreviation collect_ := (collect github_searchMCPServers npm_searchMCPServers).
Local Abbreviation analyze_loop_ := (analyze_loop analyzeAndDecide generateQuickImport).
Local Abbreviation item_outcomes_ := (item_outcomes analyzeAndDecide).

Lemma analyze_calls_app (tr1 tr2 : list event) :
  analyze_calls (tr1 ++ tr2) = (analyze_calls tr1 + analyze_calls tr2)%nat.
Proof. unfold analyze_calls. rewrite filter_app, length_app. reflexivity. Qed.

Lemma failure_lines_app (tr1 tr2 : list event) :
  failure_lines (tr1 ++ tr2) = (failure_lines tr1 + failure_lines tr2)%nat.
Proof. unfold failure_lines. rewrite filter_app, length_app. reflexivity. Qed.

Lemma quick_import_lines_quiet (d : TemplateDecision) :
  analyze_calls (quick_import_lines generateQuickImport d) = 0%nat
  /\ failure_lines (quick_import_lines generateQuickImport d) = 0%nat.
Proof.
  unfold quick_import_lines. destruct (generateQuickImport d) as [q |]; [| split; reflexivity].
  destruct (q =? "")%string; split; reflexivity.
Qed.

(** The first loop calls no classifier and writes no failure line. *)
Lemma collect_quiet (srcs : list DiscoverySource) (limit_ maxAge : Z) :
  forall (tools : list DiscoveredTool) (w : W) (tr : list event),
    analyze_calls (snd (collect_ srcs limit_ maxAge tools w tr)) = analyze_calls tr
    /\ failure_lines (snd (collect_ srcs limit_ maxAge tools w tr)) = failure_lines tr.
Proof.
  induction srcs as [| s rest IH]; intros tools w tr; [split; reflexivity |].
  cbn [collect].
  destruct (discoverFromSource github_searchMCPServers npm_searchMCPServers s limit_ maxAge w)
    as [[r w1] evs] eqn:Hd.
  assert (Hevs : analyze_calls evs = 0%nat /\ failure_lines evs = 0%nat).
  { unfold discoverFromSource in Hd.
    destruct s;
      try (destruct (github_searchMCPServers limit_ maxAge w));
      try (destruct (npm_searchMCPServers limit_ w));
      inversion Hd; split; reflexivity. }
  destruct Hevs as [Ha Hf].
  destruct r as [discovered | error];
    match goal with
    | |- context [collect_ rest limit_ maxAge ?ts w1 ?tr0] =>
        destruct (IH ts w1 tr0) as [IHa IHf]
    end;
    rewrite IHa, IHf, !analyze_calls_app, !failure_lines_app, Ha, Hf; cbn; split; lia.
Qed.

(** In a dry run the second loop writes one line per candidate and nothing
    else happens. *)
Lemma analyze_loop_dry (cands : list DiscoveredTool) :
  forall (results : list DiscoveryResult) (w : W) (tr : list event),
    analyze_loop_ true cands results w tr
    = (results, w, (tr ++ map (fun t => EvConsole (LogDryRun t)) cands)%list).
Proof.
  induction cands as [| t rest IH]; intros results w tr; cbn [analyze_loop map].
  - rewrite app_nil_r. reflexivity.
  - rewrite IH, <- app_assoc. reflexivity.
Qed.

Lemma dry_run_lines_quiet (cands : list DiscoveredTool) :
  analyze_calls (map (fun t => EvConsole (LogDryRun t)) cands) = 0%nat.
Proof. induction cands as [| t rest IH]; [reflexivity | exact IH]. Qed.

(** Outside a dry run the second loop goes through every candidate: a
    success adds a result, a failure adds one failure line, and in both cases
    the loop goes on with the next candidate. *)
Lemma analyze_loop_classifies (cands : list DiscoveredTool) :
  forall (results : list DiscoveryResult) (w : W) (tr : list event),
    let r := analyze_loop_ false cands results w tr in
    fst (fst r) = (results ++ successes (item_outcomes_ cands w))%list
    /\ snd (fst r) = world_after analyzeAndDecide cands w
    /\ analyze_calls (snd r) = (analyze_calls tr + List.length cands)%nat
    /\ failure_lines (snd r)
       = (failure_lines tr + List.length (failures (item_outcomes_ cands w)))%nat.
Proof.
  induction cands as [| t rest IH]; intros results w tr; cbn zeta.
  - cbn. rewrite app_nil_r. count_events.
  - cbn [analyze_loop item_outcomes world_after].
    destruct (analyzeAndDecide t w) as [[d | error] w1] eqn:Ha; cbn [snd].
    + match goal with
      | |- context [analyze_loop_ false rest ?rs w1 ?tr0] =>
          destruct (IH rs w1 tr0) as [Hr [Hw [Hc Hf]]]
      end.
      rewrite Hr, Hw, Hc, Hf.
      destruct (quick_import_lines_quiet d) as [Hqa Hqf].
      rewrite !analyze_calls_app, !failure_lines_app, Hqa, Hqf.
      unfold successes, failures. cbn.
      rewrite <- app_assoc. cbn. count_events.
    + match goal with
      | |- context [analyze_loop_ false rest ?rs w1 ?tr0] =>
          destruct (IH rs w1 tr0) as [Hr [Hw [Hc Hf]]]
      end.
      rewrite Hr, Hw, Hc, Hf.
      rewrite !analyze_calls_app, !failure_lines_app.
      unfold successes, failures. cbn. count_events.
Qed.

Lemma successes_failures_length
    (os : list (DiscoveredTool * outcome thrown TemplateDecision)) :
  (List.length (successes os) + List.length (failures os) = List.length os)%nat.
Proof.
  induction os as [| [t [d | e]] os IH]; [reflexivity | |];
    unfold successes, failures in *; cbn in *; lia.
Qed.

Lemma item_outcomes_length (cands : list DiscoveredTool) :
  forall w, List.length (item_outcomes_ cands w) = List.length cands.
Proof.
  induction cands as [| t rest IH]; intros w; [reflexivity |].
  cbn [item_outcomes]. destruct (analyzeAndDecide t w) as [o w1]. cbn. rewrite IH. reflexivity.
Qed.

Lemma item_outcomes_tools (cands : list DiscoveredTool) :
  forall w, map fst (item_outcomes_ cands w) = cands.
Proof.
  induction cands as [| t rest IH]; intros w; [reflexivity |].
  cbn [item_outcomes]. destruct (analyzeAndDecide t w) as [o w1]. cbn. rewrite IH. reflexivity.
Qed.

End DiscoverProperties.

Section DiscoverRun.

Import Discovery.

Context {W : Type}.
Variable github_searchMCPServers : Z -> Z -> W -> outcome thrown (list DiscoveredTool) * W.
Variable npm_searchMCPServers : Z -> W -> outcome thrown (list DiscoveredTool) * W.
Variable analyzeAndDecide : DiscoveredTool -> W -> outcome thrown TemplateDecision * W.
Variable generateQuickImport : TemplateDecision -> option string.

Local Abbreviation discover_ :=
  (discover github_searchMCPServers npm_searchMCPServers analyzeAndDecide generateQuickImport).

Lemma candidates_of_nil (limit_ : Z) : candidates_of [] limit_ = [].
Proof. unfold candidates_of, slice0. cbn. apply firstn_nil. Qed.

(** What a run that is not a dry run returns and does, in terms of the
    outcomes of its candidates. *)
Lemma discover_classifies (options : DiscoveryOptions) (w : W) :
  get_or (dryRun options) false = false ->
  let r := discover_ options w in
  let os := outcomes github_searchMCPServers npm_searchMCPServers analyzeAndDecide options w in
  Discovery.result r = Returned (successes os)
  /\ failure_lines (Discovery.trace r) = List.length (failures os)
  /\ analyze_calls (Discovery.trace r)
     = List.length (candidates github_searchMCPServers npm_searchMCPServers options w).
Proof.
  intros Hdry. cbn zeta.
  unfold discover, outcomes, candidates, collected. rewrite Hdry.
  match goal with
  | |- context [collect ?g ?n ?s ?l ?m [] w ?tr0] =>
      pose proof (collect_quiet g n s l m [] w tr0) as Hq;
      destruct (collect g n s l m [] w tr0) as [[tools w1] tr1] eqn:Hc
  end.
  cbn [fst snd] in *. destruct Hq as [Hqa Hqf].
  destruct tools as [| t0 tools'].
  - rewrite candidates_of_nil. cbn [item_outcomes successes failures flat_map].
    cbn [Discovery.result Discovery.trace].
    rewrite analyze_calls_app, failure_lines_app, Hqa, Hqf. count_events.
  - match goal with
    | |- context [analyze_loop analyzeAndDecide generateQuickImport false ?cs [] w1 ?tr0] =>
        pose proof (analyze_loop_classifies analyzeAndDecide generateQuickImport cs [] w1 tr0)
          as Hl;
        destruct (analyze_loop analyzeAndDecide generateQuickImport false cs [] w1 tr0)
          as [[results w2] tr4] eqn:Hloop
    end.
    cbn zeta in Hl. cbn [fst snd] in Hl. destruct Hl as [Hr [_ [Ha Hf]]].
    cbn [Discovery.result Discovery.trace]. unfold candidates_of.
    rewrite Hr, Ha, Hf, !analyze_calls_app, !failure_lines_app, Hqa, Hqf.
    count_events.
Qed.

End DiscoverRun.

(** C2, as the code has it.  In a run that is not a dry run, the failure of
    the classification of a candidate is caught in the loop: the run returns,
    in the order of the candidates, one result for each candidate whose
    classification returned, and writes one "Failed to analyze" line on the
    error console for each candidate whose classification threw; every
    candidate is classified, and the run itself never throws.  The array the
    caller gets holds the results only. *)
Theorem discover_excludes_failed_items :
  forall (W : Type)
         (github_searchMCPServers :
            Z -> Z -> W -> outcome thrown (list Discovery.DiscoveredTool) * W)
         (npm_searchMCPServers : Z -> W -> outcome thrown (list Discovery.DiscoveredTool) * W)
         (analyzeAndDecide :
            Discovery.DiscoveredTool -> W -> outcome thrown Discovery.TemplateDecision * W)
         (generateQuickImport : Discovery.TemplateDecision -> option string)
         (options : Discovery.DiscoveryOptions) (w : W),
    Discovery.dryRun options <> Some true ->
    let r := Discovery.discover github_searchMCPServers npm_searchMCPServers
               analyzeAndDecide generateQuickImport options w in
    let cands := Discovery.candidates github_searchMCPServers npm_searchMCPServers options w in
    let os := Discovery.outcomes github_searchMCPServers npm_searchMCPServers
                analyzeAndDecide options w in
    Discovery.result r = Returned (Discovery.successes os)
    /\ map fst os = cands
    /\ Discovery.failure_lines (Discovery.trace r) = List.length (Discovery.failures os)
    /\ Discovery.analyze_calls (Discovery.trace r) = List.length cands
    /\ (List.length (Discovery.successes os) + List.length (Discovery.failures os)
        = List.length cands)%nat.
Proof.
  intros W gh np an qi options w Hdry. cbn zeta.
  assert (Hd : Discovery.get_or (Discovery.dryRun options) false = false).
  { destruct (Discovery.dryRun options) as [[|] |]; [congruence | reflexivity | reflexivity]. }
  destruct (discover_classifies gh np an qi options w Hd) as [Hr [Hf Ha]].
  split; [exact Hr | split; [| split; [exact Hf | split; [exact Ha |]]]].
  - unfold Discovery.outcomes. apply item_outcomes_tools.
  - rewrite successes_failures_length. unfold Discovery.outcomes.
    apply item_outcomes_length.
Qed.

(** C8.  A run with [dryRun: true] never calls [analyzeAndDecide] and
    returns the empty array, whatever the sources, the limit and what the
    sources find. *)
Theorem discover_dry_run_calls_no_classifier :
  forall (W : Type)
         (github_searchMCPServers :
            Z -> Z -> W -> outcome thrown (list Discovery.DiscoveredTool) * W)
         (npm_searchMCPServers : Z -> W -> outcome thrown (list Discovery.DiscoveredTool) * W)
         (analyzeAndDecide :
            Discovery.DiscoveredTool -> W -> outcome thrown Discovery.TemplateDecision * W)
         (generateQuickImport : Discovery.TemplateDecision -> option string)
         (sources : option (list Discovery.DiscoverySource)) (limit : option Z)
         (outputDir : option string) (maxAgeMonths : option Z) (w : W),
    let r := Discovery.discover github_searchMCPServers npm_searchMCPServers
               analyzeAndDecide generateQuickImport
               (Discovery.mkOptions sources limit (Some true) outputDir maxAgeMonths) w in
    Discovery.result r = Returned []
    /\ Discovery.analyze_calls (Discovery.trace r) = 0%nat.
Proof.
  intros W gh np an qi srcs lim out age w. cbn zeta.
  unfold Discovery.discover.
  cbn [Discovery.sources Discovery.limit Discovery.dryRun Discovery.maxAgeMonths
       Discovery.get_or].
  match goal with
  | |- context [Discovery.collect gh np ?s ?l ?m [] w ?tr0] =>
      pose proof (collect_quiet gh np s l m [] w tr0) as Hq;
      destruct (Discovery.collect gh np s l m [] w tr0) as [[tools w1] tr1] eqn:Hc
  end.
  cbn [fst snd] in Hq. destruct Hq as [Hqa _].
  destruct tools as [| t0 tools'].
  - cbn [Discovery.result Discovery.trace].
    rewrite analyze_calls_app, Hqa. split; reflexivity.
  - rewrite analyze_loop_dry. cbn [Discovery.result Discovery.trace].
    rewrite !analyze_calls_app, dry_run_lines_quiet, Hqa. split; reflexivity.
Qed.

Lemma discover_excludes_failed_items_witness :
  let r := Discovery.discover (github_returns five_tools) (npm_returns [])
             analyze_fails_on_t3 no_quick_import from_github tt in
  let cands := Discovery.candidates (github_returns five_tools) (npm_returns [])
                 from_github tt in
  let os := Discovery.outcomes (github_returns five_tools) (npm_returns [])
              analyze_fails_on_t3 from_github tt in
  Discovery.result r = Returned (Discovery.successes os)
  /\ map fst os = cands
  /\ Discovery.failure_lines (Discovery.trace r) = List.length (Discovery.failures os)
  /\ Discovery.analyze_calls (Discovery.trace r) = List.length cands
  /\ (List.length (Discovery.successes os) + List.length (Discovery.failures os)
      = List.length cands)%nat.
Proof.
  apply (discover_excludes_failed_items unit (github_returns five_tools) (npm_returns [])
           analyze_fails_on_t3 no_quick_import from_github tt).
  discriminate.
Defined.

(** The scenario of the claim: five candidates, the classification of the
    third throws. *)
Example discover_five_candidates_third_fails :
  let r := Discovery.discover (github_returns five_tools) (npm_returns [])
             analyze_fails_on_t3 no_quick_import from_github tt in
  Discovery.candidates (github_returns five_tools) (npm_returns []) from_github tt
  = five_tools
  /\ Discovery.result r = Returned (map result_for four_tools)
  /\ Discovery.analyze_calls (Discovery.trace r) = 5%nat
  /\ Discovery.failure_lines (Discovery.trace r) = 1%nat.
Proof. vm_compute. repeat split; reflexivity. Qed.

(** C2, as the claim states it, fails on its last part: what the caller
    gets from the run with five candidates of which the third fails is the
    array of the four results, and it is the same value that the run with
    those four candidates and no failure returns.  The exclusion shows only
    as a line on the error console. *)
Lemma discover_returns_no_exclusion_count :
  let r5 := Discovery.discover (github_returns five_tools) (npm_returns [])
              analyze_fails_on_t3 no_quick_import from_github tt in
  let r4 := Discovery.discover (github_returns four_tools) (npm_returns [])
              analyze_fails_on_t3 no_quick_import from_github tt in
  Discovery.result r5 = Returned (map result_for four_tools)
  /\ Discovery.failure_lines (Discovery.trace r5) = 1%nat
  /\ Discovery.result r4 = Discovery.result r5
  /\ Discovery.failure_lines (Discovery.trace r4) = 0%nat.
Proof. vm_compute. repeat split; reflexivity. Qed.

(** ** Merging the sources *)

Lemma collect_concatenates (found_github found_npm : list Discovery.DiscoveredTool)
    (srcs : list Discovery.DiscoverySource) (limit_ maxAge : Z) :
  forall (tools : list Discovery.DiscoveredTool) (tr : list Discovery.event),
    fst (fst (Discovery.collect (github_returns found_github) (npm_returns found_npm)
                srcs limit_ maxAge tools tt tr))
    = (tools ++ flat_map (found_by found_github found_npm) srcs)%list.
Proof.
  induction srcs as [| s rest IH]; intros tools tr.
  - cbn. rewrite app_nil_r. reflexivity.
  - destruct s; cbn [Discovery.collect Discovery.discoverFromSource github_returns npm_returns
                     flat_map found_by];
      rewrite IH; rewrite <- ?app_assoc, ?app_nil_r; reflexivity.
Qed.

(** With adapters that return fixed lists, the merged list is the lists of
    the requested sources one after the other, in the order of the request:
    nothing is dropped and nothing is reordered. *)
Lemma merged_concatenates (found_github found_npm : list Discovery.DiscoveredTool)
    (srcs : list Discovery.DiscoverySource) (limit_ maxAge : Z) :
  Discovery.merged (github_returns found_github) (npm_returns found_npm) srcs limit_ maxAge tt
  = flat_map (found_by found_github found_npm) srcs.
Proof. unfold Discovery.merged. rewrite collect_concatenates. reflexivity. Qed.

(** C7 fails on the code: the first loop of [discover] appends what each
    source returns and removes nothing.  With the source github requested
    twice, the tool it finds is in the merged list twice, under one [id],
    and the run returns two results for it. *)
Lemma discover_merge_keeps_duplicate_ids :
  map Discovery.id
    (Discovery.merged (github_returns [wallet_tool "t1"]) (npm_returns [])
       [Discovery.src_github; Discovery.src_github] 10 12 tt)
  = ["github:acme/t1"; "github:acme/t1"]
  /\ Discovery.result
       (Discovery.discover (github_returns [wallet_tool "t1"]) (npm_returns [])
          analyze_succeeds no_quick_import from_github_twice tt)
     = Returned [result_for (wallet_tool "t1"); result_for (wallet_tool "t1")].
Proof. vm_compute. split; reflexivity. Qed.





Example isCryptoRelated_cases :
  Discovery.isCryptoRelated (wallet_tool "t1") = true
  /\ Discovery.isCryptoRelated
       (Discovery.mkTool "npm:left-pad" "left-pad" "Pads a string" Discovery.src_npm
          "https://www.npmjs.com/package/left-pad"
          None None None None None (Some true) None None None None None) = false
  /\ Discovery.slice0 [1; 2; 3] 2 = [1; 2]
  /\ Discovery.slice0 [1; 2; 3] 10 = [1; 2; 3]
  /\ Discovery.slice0 [1; 2; 3] (-1) = [1; 2].
Proof. vm_compute. repeat split; reflexivity. Qed.

(** * Further properties of the code *)

(** ** The retry loop, for every operation *)

Lemma sleep_delays_app (tr1 tr2 : list Retry.event) :
  sleep_delays (tr1 ++ tr2) = (sleep_delays tr1 ++ sleep_delays tr2)%list.
Proof.
  induction tr1 as [| ev tr1 IH]; [reflexivity |].
  destruct ev; cbn; rewrite IH; reflexivity.
Qed.


Ltac count_retry :=
  unfold calls, sleeps in *; cbn [filter is_call is_sleep List.length] in *; repeat split; lia.

Section RetryLoopAny.

Context {W T : Type}.
Variable fn : W -> outcome thrown T * W.
Variable opts : Policy W.
Variable rand : nat -> Q.

(** Whatever the operation and the callback do, a loop entered with its
    budget makes at most that many calls and at least one when the budget is
    positive, and it sleeps only between two calls. *)
Lemma retry_loop_bounded (budget : nat) :
  forall (attempt : nat) (lastError : thrown) (w : W) (tr : list Retry.event),
    budget_from opts attempt = budget ->
    let r := retry_loop fn opts rand budget attempt lastError w tr in
    (calls (Retry.trace r) <= calls tr + budget)%nat
    /\ (sleeps tr <= sleeps (Retry.trace r))%nat
    /\ ((0 < budget)%nat ->
        (calls tr + 1 <= calls (Retry.trace r))%nat
        /\ (sleeps (Retry.trace r) + calls tr + 1 <= sleeps tr + calls (Retry.trace r))%nat)
    /\ (budget = 0%nat ->
        calls (Retry.trace r) = calls tr /\ sleeps (Retry.trace r) = sleeps tr).
Proof.
  induction budget as [| b IH]; intros attempt lastError w tr Hb; cbn zeta.
  - cbn [retry_loop Retry.trace]. repeat split; lia.
  - cbn [retry_loop].
    destruct (fn w) as [[v | e] w1].
    + cbn [Retry.trace]. rewrite !calls_app, !sleeps_app. count_retry.
    + destruct (isRetryableError e); cbn [negb].
      2:{ cbn [Retry.trace]. rewrite !calls_app, !sleeps_app. count_retry. }
      destruct (Z.of_nat attempt >=? p_maxRetries opts) eqn:Hge.
      { cbn [Retry.trace]. rewrite !calls_app, !sleeps_app. count_retry. }
      assert (Hb' : budget_from opts (S attempt) = b) by (unfold budget_from in *; lia).
      assert (Hpos : (0 < b)%nat).
      { unfold budget_from in *.
        destruct (Z.lt_ge_cases (Z.of_nat attempt) (p_maxRetries opts)) as [L | G];
          [lia | apply Z.geb_le in G; congruence]. }
      destruct (p_onRetry opts) as [cb |].
      * destruct (cb (Z.of_nat attempt + 1) e (delay_for opts rand attempt e) w1)
          as [[u | e'] w2].
        -- match goal with
           | |- context [retry_loop fn opts rand b (S attempt) e w2 ?tr0] =>
               pose proof (IH (S attempt) e w2 tr0 Hb') as IH'
           end.
           cbn zeta in IH'. destruct IH' as [H1 [H2 [H3 _]]]. specialize (H3 Hpos).
           rewrite !calls_app, !sleeps_app in *. count_retry.
        -- cbn [Retry.trace]. rewrite !calls_app, !sleeps_app. count_retry.
      * match goal with
        | |- context [retry_loop fn opts rand b (S attempt) e w1 ?tr0] =>
            pose proof (IH (S attempt) e w1 tr0 Hb') as IH'
        end.
        cbn zeta in IH'. destruct IH' as [H1 [H2 [H3 _]]]. specialize (H3 Hpos).
        rewrite !calls_app, !sleeps_app in *. count_retry.
Qed.

(** Every sleep of the loop lasts what [delay_for] gives for a retryable
    error the operation threw: a property of all these delays is a property
    of all the sleeps. *)
Lemma retry_loop_sleeps (P : Z -> Prop) :
  (forall w e attempt,
     fst (fn w) = Raised e -> isRetryableError e = true ->
     P (delay_for opts rand attempt e)) ->
  forall (budget attempt : nat) (lastError : thrown) (w : W) (tr : list Retry.event),
    Forall P (sleep_delays tr) ->
    Forall P (sleep_delays (Retry.trace (retry_loop fn opts rand budget attempt lastError w tr))).
Proof.
  intros HP. induction budget as [| b IH]; intros attempt lastError w tr Htr.
  - exact Htr.
  - cbn [retry_loop].
    destruct (fn w) as [[v | e] w1] eqn:Hfn.
    + cbn [Retry.trace]. rewrite sleep_delays_app. cbn. rewrite app_nil_r. exact Htr.
    + destruct (isRetryableError e) eqn:Hr; cbn [negb].
      2:{ cbn [Retry.trace]. rewrite !sleep_delays_app. cbn. rewrite !app_nil_r. exact Htr. }
      destruct (Z.of_nat attempt >=? p_maxRetries opts).
      { cbn [Retry.trace]. rewrite !sleep_delays_app. cbn. rewrite !app_nil_r. exact Htr. }
      assert (Hd : P (delay_for opts rand attempt e)).
      { apply (HP w e attempt); [rewrite Hfn; reflexivity | exact Hr]. }
      destruct (p_onRetry opts) as [cb |].
      * destruct (cb (Z.of_nat attempt + 1) e (delay_for opts rand attempt e) w1)
          as [[u | e'] w2].
        -- apply IH. rewrite !sleep_delays_app. cbn. rewrite !app_nil_r.
           apply Forall_app. split; [exact Htr | constructor; [exact Hd | constructor]].
        -- cbn [Retry.trace]. rewrite !sleep_delays_app. cbn. rewrite !app_nil_r. exact Htr.
      * apply IH. rewrite !sleep_delays_app. cbn. rewrite !app_nil_r.
        apply Forall_app. split; [exact Htr | constructor; [exact Hd | constructor]].
Qed.

End RetryLoopAny.

(** The counts of a run of [withRetry], for every operation. *)
Lemma withRetry_counts {W T : Type} (fn : W -> outcome thrown T * W)
    (options : RetryOptions W) (rand : nat -> Q) (w : W) :
  let r := withRetry fn options rand w in
  Z.of_nat (calls (Retry.trace r)) <= Z.max 0 (p_maxRetries (merge_options options) + 1)
  /\ Z.of_nat (sleeps (Retry.trace r)) <= Z.max 0 (p_maxRetries (merge_options options))
  /\ (sleeps (Retry.trace r) + 1 <= calls (Retry.trace r)
      \/ (calls (Retry.trace r) = 0 /\ sleeps (Retry.trace r) = 0))%nat.
Proof.
  cbn zeta. unfold withRetry, withRetry_policy.
  destruct (retry_loop_bounded fn (merge_options options) rand
              (budget_from (merge_options options) 0) 0%nat Undefined w [] eq_refl)
    as [H1 [H2 [H3 H4]]].
  cbn zeta in *. unfold budget_from in *. cbn [calls sleeps filter List.length] in *.
  destruct (Z.to_nat (p_maxRetries (merge_options options) + 1 - Z.of_nat 0)) as [| b] eqn:Hb.
  - destruct (H4 eq_refl) as [Hc Hs]. rewrite Hc, Hs. cbn. lia.
  - assert (Hp : (0 < S b)%nat) by lia. destruct (H3 Hp) as [Hc Hs]. lia.
Qed.


(** X1.  Whatever the operation throws or returns and whatever the callback
    does, [withRetry] calls the operation at most [maxRetries + 1] times
    (never, when [maxRetries] is negative), sleeps at most [maxRetries]
    times, and only between two calls. *)
Theorem withRetry_call_bound :
  forall (W T : Type) (fn : W -> outcome thrown T * W) (options : RetryOptions W)
         (rand : nat -> Q) (w : W),
    let r := withRetry fn options rand w in
    Z.of_nat (calls (Retry.trace r)) <= Z.max 0 (p_maxRetries (merge_options options) + 1)
    /\ Z.of_nat (sleeps (Retry.trace r)) <= Z.max 0 (p_maxRetries (merge_options options))
    /\ (sleeps (Retry.trace r) + 1 <= calls (Retry.trace r)
        \/ (calls (Retry.trace r) = 0 /\ sleeps (Retry.trace r) = 0))%nat.
Proof. intros W T fn options rand w. exact (withRetry_counts fn options rand w). Qed.

Section RetryRecovers.

Context {T : Type}.
Variable k : nat.
Variable e : thrown.
Variable v : T.
Variable opts : Policy nat.
Variable rand : nat -> Q.

Hypothesis retryable : isRetryableError e = true.
Hypothesis enough_retries : Z.of_nat k <= p_maxRetries opts.
Hypothesis callback_keeps_world :
  forall cb, p_onRetry opts = Some cb -> forall a e0 d n, cb a e0 d n = (Returned tt, n).

Lemma fails_then_returns_early (n : nat) :
  (n < k)%nat -> fails_then_returns k e v n = (Raised e, S n).
Proof. intros H. unfold fails_then_returns. apply Nat.ltb_lt in H. rewrite H. reflexivity. Qed.

Lemma fails_then_returns_late (n : nat) :
  (k <= n)%nat -> fails_then_returns k e v n = (Returned v, S n).
Proof. intros H. unfold fails_then_returns. apply Nat.ltb_ge in H. rewrite H. reflexivity. Qed.

Lemma retry_loop_recovers (j : nat) :
  forall (attempt : nat) (lastError : thrown) (tr : list Retry.event),
    (attempt + j = k)%nat ->
    let r := retry_loop (fails_then_returns k e v) opts rand (budget_from opts attempt)
               attempt lastError attempt tr in
    Retry.result r = Returned v
    /\ Retry.world r = S k
    /\ calls (Retry.trace r) = (calls tr + j + 1)%nat
    /\ sleeps (Retry.trace r) = (sleeps tr + j)%nat.
Proof.
  induction j as [| j IH]; intros attempt lastError tr Hj; cbn zeta.
  - rewrite (budget_step opts attempt) by lia.
    cbn [retry_loop]. rewrite fails_then_returns_late by lia.
    cbn [Retry.result Retry.world Retry.trace].
    rewrite calls_app, sleeps_app. cbn. repeat split; lia.
  - rewrite (budget_step opts attempt) by lia.
    cbn [retry_loop]. rewrite fails_then_returns_early by lia.
    rewrite retryable. cbn [negb].
    assert (Hge : (Z.of_nat attempt >=? p_maxRetries opts) = false).
    { destruct (Z.of_nat attempt >=? p_maxRetries opts) eqn:E; [| reflexivity].
      apply Z.geb_le in E. lia. }
    rewrite Hge.
    destruct (p_onRetry opts) as [cb |] eqn:Hcb.
    + rewrite (callback_keeps_world cb eq_refl).
      match goal with
      | |- context [retry_loop _ opts rand _ (S attempt) e (S attempt) ?tr0] =>
          destruct (IH (S attempt) e tr0 ltac:(lia)) as [Hr [Hw [Hc Hs]]]
      end.
      rewrite Hr, Hw, Hc, Hs, !calls_app, !sleeps_app. cbn. repeat split; lia.
    + match goal with
      | |- context [retry_loop _ opts rand _ (S attempt) e (S attempt) ?tr0] =>
          destruct (IH (S attempt) e tr0 ltac:(lia)) as [Hr [Hw [Hc Hs]]]
      end.
      rewrite Hr, Hw, Hc, Hs, !calls_app, !sleeps_app. cbn. repeat split; lia.
Qed.

End RetryRecovers.

(** X2.  An operation that throws a retryable error at its first [k] calls
    and then returns [v] is brought to its result by [withRetry] whenever
    [k <= maxRetries]: exactly [k + 1] calls, [k] sleeps, and [v] returned. *)
Theorem withRetry_recovers :
  forall (T : Type) (k : nat) (e : thrown) (v : T) (options : RetryOptions nat)
         (rand : nat -> Q),
    isRetryableError e = true ->
    Z.of_nat k <= p_maxRetries (merge_options options) ->
    (forall cb, onRetry options = Some cb ->
       forall a e0 d n, cb a e0 d n = (Returned tt, n)) ->
    let r := withRetry (fails_then_returns k e v) options rand 0%nat in
    Retry.result r = Returned v
    /\ calls (Retry.trace r) = (k + 1)%nat
    /\ sleeps (Retry.trace r) = k.
Proof.
  intros T k e v options rand Hr Hk Hcb. cbn zeta.
  unfold withRetry, withRetry_policy.
  destruct (retry_loop_recovers k e v (merge_options options) rand Hr Hk Hcb k 0%nat
              Undefined [] eq_refl) as [H1 [_ [H2 H3]]].
  rewrite H1, H2, H3. cbn. repeat split; lia.
Qed.

Lemma withRetry_recovers_witness :
  let r := withRetry (fails_then_returns 2 (NetworkError "u" (Some 502)) 7%nat)
             no_options (fun _ => 0%Q) 0%nat in
  Retry.result r = Returned 7%nat
  /\ calls (Retry.trace r) = (2 + 1)%nat
  /\ sleeps (Retry.trace r) = 2%nat.
Proof.
  apply (withRetry_recovers nat 2 (NetworkError "u" (Some 502)) 7%nat no_options
           (fun _ => 0%Q)).
  - reflexivity.
  - discriminate.
  - intros cb H. discriminate H.
Defined.

(** ** Delays *)




Lemma delay_for_hint {W : Type} (opts : Policy W) (rand : nat -> Q) (attempt : nat)
    (e : thrown) (n : Z) :
  retry_hint e = Some n -> delay_for opts rand attempt e = n * 1000.
Proof.
  destruct e as [| | p [m |] | | | | | |]; try discriminate.
  cbn. destruct (m =? 0); [discriminate | intros H; inversion H; reflexivity].
Qed.




Example always_503_sleeps :
  sleep_delays (Retry.trace (withRetry always_503 no_options (fun _ => 0%Q) tt))
  = [1000; 2000; 4000].
Proof. reflexivity. Qed.

(** X5.  When every error of the operation is a [RateLimitError] with the
    same [retryAfter] of [n] seconds, [n] not zero, every sleep of
    [withRetry] lasts exactly [n * 1000] ms: the hint replaces the backoff
    and is not capped by [maxDelayMs]. *)
Theorem withRetry_waits_for_retry_after :
  forall (W T : Type) (fn : W -> outcome thrown T * W) (options : RetryOptions W)
         (rand : nat -> Q) (w : W) (n : Z),
    n <> 0 ->
    (forall w0 e, fst (fn w0) = Raised e -> exists p, e = RateLimitError p (Some n)) ->
    Forall (fun ms => ms = n * 1000)
      (sleep_delays (Retry.trace (withRetry fn options rand w))).
Proof.
  intros W T fn options rand w n Hn Herr.
  unfold withRetry, withRetry_policy. apply retry_loop_sleeps; [| constructor].
  intros w0 e attempt He _. destruct (Herr w0 e He) as [p ->].
  apply delay_for_hint. cbn. destruct (n =? 0) eqn:E; [| reflexivity].
  apply Z.eqb_eq in E. contradiction.
Qed.

Lemma withRetry_waits_for_retry_after_witness :
  Forall (fun ms => ms = 3600 * 1000)
    (sleep_delays
       (Retry.trace
          (withRetry (fun w : unit => (@Raised thrown nat (RateLimitError github (Some 3600)), w))
             no_options (fun _ => 0%Q) tt))).
Proof.
  apply (withRetry_waits_for_retry_after unit nat
           (fun w : unit => (@Raised thrown nat (RateLimitError github (Some 3600)), w))
           no_options (fun _ => 0%Q) tt 3600).
  - discriminate.
  - intros w0 e H. inversion H. exists github. reflexivity.
Defined.

(** ** Responses *)

Lemma check_response_returns_5xx (now : Z) (url : string) (st : Z)
    (hs : list (string * string)) :
  500 <= st ->
  check_response now url (Http.mkResponse st hs) = Raised (NetworkError url (Some st)).
Proof.
  intros Hst. unfold check_response, ok. cbn [status Http.headers].
  replace (st =? 429) with false by (symmetry; apply Z.eqb_neq; lia).
  replace (st =? 403) with false by (symmetry; apply Z.eqb_neq; lia).
  replace (st <=? 299) with false by (symmetry; apply Z.leb_gt; lia).
  replace (st >=? 500) with true by (symmetry; apply Z.geb_le; lia).
  rewrite andb_false_r. reflexivity.
Qed.


(** X7.  When the server answers every fetch with one and the same status
    of 500 or more, [fetchWithRetry] fetches [maxRetries + 1] times and then
    throws the [NetworkError] of the url and the status. *)
Theorem fetchWithRetry_exhausts_on_server_errors :
  forall (W : Type) (fetch : W -> outcome thrown Response * W) (clock : W -> Z)
         (url : string) (options : RetryOptions W) (rand : nat -> Q) (w : W)
         (st : Z) (hs : list (string * string)),
    500 <= st ->
    0 <= p_maxRetries (merge_options options) ->
    (forall w0, exists w1, fetch w0 = (Returned (Http.mkResponse st hs), w1)) ->
    (forall cb, onRetry options = Some cb ->
       forall a e d w0, exists w1, cb a e d w0 = (Returned tt, w1)) ->
    let r := fetchWithRetry fetch clock url options rand w in
    Retry.result r = Raised (NetworkError url (Some st))
    /\ Z.of_nat (calls (Retry.trace r)) = p_maxRetries (merge_options options) + 1
    /\ Z.of_nat (sleeps (Retry.trace r)) = p_maxRetries (merge_options options).
Proof.
  intros W fetch clock url options rand w st hs Hst Hmax Hfetch Hcb. cbn zeta.
  unfold fetchWithRetry, withRetry, withRetry_policy.
  set (fn := fun w0 : W =>
               match fetch w0 with
               | (Returned response, w1) => (check_response (clock w1) url response, w1)
               | (Raised e, w1) => (Raised e, w1)
               end).
  assert (Hfn : forall w0, exists w1, fn w0 = (Raised (NetworkError url (Some st)), w1)).
  { intros w0. destruct (Hfetch w0) as [w1 H1]. exists w1. unfold fn. rewrite H1.
    rewrite (check_response_returns_5xx (clock w1) url st hs Hst). reflexivity. }
  assert (Hpos : (0 < budget_from (merge_options options) 0)%nat).
  { apply budget_condition. exact Hmax. }
  destruct (retry_loop_exhausts fn (merge_options options) rand
              ltac:(intros w0; destruct (Hfn w0) as [w1 H1]; eexists; rewrite H1;
                    split; reflexivity)
              Hcb (budget_from (merge_options options) 0) 0%nat Undefined w [] eq_refl Hpos)
    as [Hc [Hs [e [wb [tr' [He [Hres _]]]]]]].
  rewrite Hc, Hs, Hres. unfold budget_from. cbn [calls sleeps filter List.length].
  split; [| split; lia].
  destruct (Hfn wb) as [w1 H1]. rewrite H1 in He. inversion He. reflexivity.
Qed.

Lemma fetchWithRetry_exhausts_on_server_errors_witness :
  let fetch := fun w : unit => (@Returned thrown Response (Http.mkResponse 503 []), w) in
  let r := fetchWithRetry fetch (fun _ => 0) "https://api.github.com/search/repositories"
             no_options (fun _ => 0%Q) tt in
  Retry.result r
  = Raised (NetworkError "https://api.github.com/search/repositories" (Some 503))
  /\ Z.of_nat (calls (Retry.trace r)) = 3 + 1
  /\ Z.of_nat (sleeps (Retry.trace r)) = 3.
Proof.
  intros fetch.
  apply (fetchWithRetry_exhausts_on_server_errors unit fetch (fun _ => 0)
           "https://api.github.com/search/repositories" no_options (fun _ => 0%Q) tt 503 []).
  - discriminate.
  - discriminate.
  - intros w0. exists w0. reflexivity.
  - intros cb H. discriminate H.
Defined.

(** X8.  Of [getRetryAfter]: a [retry-after] header that starts with a
    number wins, whatever the number and whatever [x-ratelimit-reset] says;
    without it, a wait is returned only for a reset time in the future, and
    it is then the least whole number of seconds, at least 1, that covers the
    time left. *)
Theorem getRetryAfter_reads_headers :
  forall (now : Z) (response : Response),
    (forall n, usable_retry_after response = Some n ->
               getRetryAfter now response = Some n)
    /\ (usable_retry_after response = None ->
        forall k, getRetryAfter now response = Some k ->
          exists reset,
            usable_reset response = Some reset
            /\ now < reset * 1000
            /\ 1 <= k
            /\ 1000 * (k - 1) < reset * 1000 - now <= 1000 * k)
    /\ (usable_retry_after response = None ->
        (forall reset, usable_reset response = Some reset -> reset * 1000 <= now) ->
        getRetryAfter now response = None).
Proof.
  intros now response. unfold usable_retry_after, usable_reset, getRetryAfter.
  destruct (nonempty (headers_get (Http.headers response) "retry-after")) as [ra |];
    [destruct (parseInt ra) as [n |] |].
  - split; [intros n0 H; exact H | split; intros H; discriminate H].
  - split; [intros n0 H; discriminate H |].
    destruct (nonempty (headers_get (Http.headers response) "x-ratelimit-reset")) as [rs |];
      [destruct (parseInt rs) as [reset |] |].
    + destruct (reset * 1000 >? now) eqn:Hgt.
      * apply Z.gtb_lt in Hgt. split.
        -- intros _ k Hk. inversion Hk; subst k. exists reset.
           split; [reflexivity | split; [exact Hgt |]].
           unfold ceil_div_1000.
           pose proof (Z.div_mod (- (reset * 1000 - now)) 1000 ltac:(lia)) as Hdm.
           pose proof (Z.mod_pos_bound (- (reset * 1000 - now)) 1000 ltac:(lia)) as Hmb.
           lia.
        -- intros _ Hall. specialize (Hall reset eq_refl). lia.
      * split; [intros _ k Hk; discriminate Hk | reflexivity].
    + split; [intros _ k Hk; discriminate Hk | reflexivity].
    + split; [intros _ k Hk; discriminate Hk | reflexivity].
  - split; [intros n0 H; discriminate H |].
    destruct (nonempty (headers_get (Http.headers response) "x-ratelimit-reset")) as [rs |];
      [destruct (parseInt rs) as [reset |] |].
    + destruct (reset * 1000 >? now) eqn:Hgt.
      * apply Z.gtb_lt in Hgt. split.
        -- intros _ k Hk. inversion Hk; subst k. exists reset.
           split; [reflexivity | split; [exact Hgt |]].
           unfold ceil_div_1000.
           pose proof (Z.div_mod (- (reset * 1000 - now)) 1000 ltac:(lia)) as Hdm.
           pose proof (Z.mod_pos_bound (- (reset * 1000 - now)) 1000 ltac:(lia)) as Hmb.
           lia.
        -- intros _ Hall. specialize (Hall reset eq_refl). lia.
      * split; [intros _ k Hk; discriminate Hk | reflexivity].
    + split; [intros _ k Hk; discriminate Hk | reflexivity].
    + split; [intros _ k Hk; discriminate Hk | reflexivity].
Qed.

(** ** Schemas *)

(** X9.  [isValidTemplate] accepts exactly the eight template names, and
    the name of a template is read back as that template and no other. *)
Theorem isValidTemplate_iff :
  forall s : string,
    (Schemas.isValidTemplate s = true <-> In s template_names)
    /\ (forall t, Schemas.PluginTemplateSchema (Schemas.JStr s) = Some t
                  <-> Schemas.template_name t = s).
Proof.
  intros s.
  assert (Hfind : forall t, Schemas.template_of_name s = Some t
                            <-> Schemas.template_name t = s).
  { intros t. split.
    - intros H. unfold Schemas.template_of_name in H.
      apply find_some in H. destruct H as [_ H]. apply String.eqb_eq in H. exact H.
    - intros H. subst s. destruct t; reflexivity. }
  split; [| exact Hfind].
  unfold Schemas.isValidTemplate, Schemas.PluginTemplateSchema.
  cbn [Schemas.bind Schemas.z_string].
  split.
  - destruct (Schemas.template_of_name s) as [t |] eqn:Ht; [| discriminate].
    intros _. pose proof (proj1 (Hfind t) eq_refl) as Hs. subst s. destruct t; cbn; tauto.
  - intros Hin. cbn in Hin.
    repeat (destruct Hin as [Hin | Hin]; [subst s; reflexivity |]). contradiction.
Qed.

Lemma bind_inv {A B : Type} (x : option A) (f : A -> option B) (b : B) :
  Schemas.bind x f = Some b -> exists a, x = Some a /\ f a = Some b.
Proof. destruct x as [a |]; [intros H; exists a; split; [reflexivity | exact H] | discriminate]. Qed.

Ltac invert_binds H :=
  repeat (apply bind_inv in H; let a := fresh "a" in let E := fresh "E" in
          destruct H as [a [E H]]).

Section SchemaAccepts.

Import Schemas.

Variable is_url : string -> bool.

(** What the schema of an http descriptor accepts has a url that [is_url]
    accepts. *)
Lemma http_schema_url (v : json) (h : MCPHttpConfig) :
  MCPHttpConfigSchema is_url v = Some h -> is_url (url h) = true.
Proof.
  unfold MCPHttpConfigSchema. intros H. invert_binds H.
  inversion H; subst h. cbn [url].
  match goal with E : z_url is_url _ = Some _ |- _ => unfold z_url in E; invert_binds E end.
  match goal with E : (if is_url ?s then _ else _) = Some _ |- _ =>
    destruct (is_url s) eqn:Hu; [inversion E; subst; exact Hu | discriminate E] end.
Qed.

Lemma config_schema_urls (v : json) (c : PluginConfig) :
  ConfigSchema is_url v = Some c ->
  match c with
  | MCPPlugin m =>
      match mcp (customParams m) with Http h => is_url (url h) = true | Stdio _ => True end
  | StandardPlugin _ => True
  end.
Proof.
  unfold ConfigSchema. intros H.
  destruct (MCPPluginConfigSchema is_url v) as [m |] eqn:Hm.
  - inversion H; subst c.
    unfold MCPPluginConfigSchema in Hm. invert_binds Hm. inversion Hm; subst m.
    cbn [customParams].
    match goal with E : MCPCustomParamsSchema is_url _ = Some _ |- _ =>
      unfold MCPCustomParamsSchema in E; invert_binds E; inversion E; subst end.
    cbn [mcp].
    match goal with E : MCPConnectionSchema is_url _ = Some ?conn |- _ =>
      destruct conn as [h | s]; [| exact I];
      unfold MCPConnectionSchema in E; invert_binds E end.
    match goal with E : match ?p with _ => _ end = Some (Http h) |- _ =>
      destruct p; try discriminate E end.
    match goal with E : (if ?b then _ else _) = Some (Http h) |- _ =>
      destruct b; [| destruct (_ =? "stdio")%string; [| discriminate E]] end.
    + match goal with E : option_map Http ?x = Some (Http h) |- _ =>
        destruct x as [h0 |] eqn:Hh; [| discriminate E];
        inversion E; subst h0; exact (http_schema_url _ _ Hh) end.
    + match goal with E : option_map Stdio ?x = Some (Http h) |- _ =>
        destruct x; discriminate E end.
  - destruct (StandardPluginConfigSchema v); [| discriminate H].
    inversion H. exact I.
Qed.

Lemma schema_accepts_urls_ok (data : json) (d : AIAnalysisResponse) :
  AIAnalysisResponseSchema is_url data = Some d -> urls_ok is_url d = true.
Proof.
  unfold AIAnalysisResponseSchema. intros H. invert_binds H. inversion H; subst d.
  unfold urls_ok. cbn [config].
  match goal with E : ConfigSchema is_url _ = Some ?c |- _ =>
    pose proof (config_schema_urls _ _ E) as Hc; destruct c as [m | s]; [| reflexivity] end.
  destruct (mcp (customParams m)); [exact Hc | reflexivity].
Qed.

End SchemaAccepts.

(** X10.  What [parseAIResponse] returns is a fixed point of the validation:
    the decision it returns for any value, written back as a value, is
    accepted and returned unchanged. *)
Theorem parseAIResponse_idempotent :
  forall (is_url : string -> bool) (data : Schemas.json) (d : Schemas.AIAnalysisResponse),
    Schemas.parseAIResponse is_url data = Returned d ->
    Schemas.parseAIResponse is_url (Schemas.enc_decision d) = Returned d.
Proof.
  intros is_url data d H.
  unfold Schemas.parseAIResponse, Schemas.parse, Schemas.safeParse in *.
  destruct (Schemas.AIAnalysisResponseSchema is_url data) as [d0 |] eqn:Hd; [| discriminate H].
  inversion H; subst d0.
  rewrite (decision_enc is_url d (schema_accepts_urls_ok is_url data d Hd)). reflexivity.
Qed.

Lemma parseAIResponse_idempotent_witness :
  Schemas.parseAIResponse (fun _ => false)
    (Schemas.enc_decision http_template_stdio_decision)
  = Returned http_template_stdio_decision.
Proof.
  apply (parseAIResponse_idempotent (fun _ => false) http_template_stdio_descriptor
           http_template_stdio_decision).
  reflexivity.
Defined.

(** X11.  An MCP config whose http descriptor has a url that [new URL]
    refuses is not rejected: the union falls back on the standard shape, and
    the decision is returned with the identifier alone; the connection, the
    description and the avatar are dropped. *)
Theorem parseAIResponse_bad_url_degrades :
  forall (is_url : string -> bool) (t : Schemas.PluginTemplate) (r i : string)
         (h : Schemas.MCPHttpConfig) (desc av : option string),
    is_url (Schemas.url h) = false ->
    Schemas.parseAIResponse is_url
      (Schemas.enc_decision
         (Schemas.mkAIAnalysisResponse t r
            (Schemas.MCPPlugin
               (Schemas.mkMCPPlugin i (Schemas.mkParams (Schemas.Http h) desc av)))))
    = Returned
        (Schemas.mkAIAnalysisResponse t r
           (Schemas.StandardPlugin (Schemas.mkStandard i None None None))).
Proof.
  intros is_url t r i [u a hd] desc av Hu. cbn [Schemas.url] in Hu.
  unfold Schemas.parseAIResponse, Schemas.parse, Schemas.safeParse,
    Schemas.AIAnalysisResponseSchema, Schemas.enc_decision, Schemas.PluginTemplateSchema.
  cbn -[Schemas.template_of_name Schemas.ConfigSchema].
  rewrite template_of_name_enc. cbn -[Schemas.ConfigSchema].
  unfold Schemas.ConfigSchema, Schemas.MCPPluginConfigSchema, Schemas.MCPCustomParamsSchema,
    Schemas.MCPConnectionSchema, Schemas.MCPHttpConfigSchema, Schemas.z_url,
    Schemas.StandardPluginConfigSchema.
  cbn. rewrite Hu. reflexivity.
Qed.

Lemma parseAIResponse_bad_url_degrades_witness :
  Schemas.parseAIResponse (fun _ => false)
    (Schemas.enc_decision
       (Schemas.mkAIAnalysisResponse Schemas.mcp_http "remote" 
          (Schemas.MCPPlugin
             (Schemas.mkMCPPlugin "x"
                (Schemas.mkParams (Schemas.Http (Schemas.mkHttp "not-a-url" None None))
                   (Some "d") None)))))
  = Returned
      (Schemas.mkAIAnalysisResponse Schemas.mcp_http "remote"
         (Schemas.StandardPlugin (Schemas.mkStandard "x" None None None))).
Proof.
  apply (parseAIResponse_bad_url_degrades (fun _ => false) Schemas.mcp_http "remote" "x"
           (Schemas.mkHttp "not-a-url" None None) (Some "d") None).
  reflexivity.
Defined.

(** ** The discovery run, for every adapter and classifier *)

Lemma In_firstn {A : Type} (n : nat) (l : list A) (x : A) : In x (firstn n l) -> In x l.
Proof.
  intros H. rewrite <- (firstn_skipn n l). apply in_or_app. left. exact H.
Qed.

Lemma slice0_length {A : Type} (l : list A) (end_ : Z) :
  0 <= end_ -> Z.of_nat (List.length (Discovery.slice0 l end_)) <= end_.
Proof.
  intros H. unfold Discovery.slice0.
  replace (end_ <? 0) with false by (symmetry; apply Z.ltb_ge; exact H).
  rewrite length_firstn. lia.
Qed.

Lemma In_slice0 {A : Type} (l : list A) (end_ : Z) (x : A) :
  In x (Discovery.slice0 l end_) -> In x l.
Proof. unfold Discovery.slice0. apply In_firstn. Qed.

Section DiscoverAny.

Import Discovery.

Context {W : Type}.
Variable github_searchMCPServers : Z -> Z -> W -> outcome thrown (list DiscoveredTool) * W.
Variable npm_searchMCPServers : Z -> W -> outcome thrown (list DiscoveredTool) * W.
Variable analyzeAndDecide : DiscoveredTool -> W -> outcome thrown TemplateDecision * W.
Variable generateQuickImport : TemplateDecision -> option string.

Local Abbreviation discover_ :=
  (discover github_searchMCPServers npm_searchMCPServers analyzeAndDecide generateQuickImport).
Local Abbreviation candidates_ :=
  (candidates github_searchMCPServers npm_searchMCPServers).
Local Abbreviation outcomes_ :=
  (outcomes github_searchMCPServers npm_searchMCPServers analyzeAndDecide).

(** A dry run returns the empty array and calls no classifier. *)
Lemma discover_dry (options : DiscoveryOptions) (w : W) :
  get_or (dryRun options) false = true ->
  Discovery.result (discover_ options w) = Returned []
  /\ analyze_calls (Discovery.trace (discover_ options w)) = 0%nat.
Proof.
  intros Hdry. unfold discover. rewrite Hdry.
  match goal with
  | |- context [collect ?g ?n ?s ?l ?m [] w ?tr0] =>
      pose proof (collect_quiet g n s l m [] w tr0) as Hq;
      destruct (collect g n s l m [] w tr0) as [[tools w1] tr1] eqn:Hc
  end.
  cbn [fst snd] in Hq. destruct Hq as [Hqa _].
  destruct tools as [| t0 tools'].
  - cbn [Discovery.result Discovery.trace]. rewrite analyze_calls_app, Hqa. split; reflexivity.
  - rewrite analyze_loop_dry. cbn [Discovery.result Discovery.trace].
    rewrite !analyze_calls_app, dry_run_lines_quiet, Hqa. split; reflexivity.
Qed.

(** Every run returns an array, and the array is the successes of the
    outcomes of the candidates, or empty in a dry run. *)
Lemma discover_result (options : DiscoveryOptions) (w : W) :
  exists rs,
    Discovery.result (discover_ options w) = Returned rs
    /\ (forall x, In x rs -> In x (successes (outcomes_ options w)))
    /\ (List.length rs <= List.length (candidates_ options w))%nat
    /\ (analyze_calls (Discovery.trace (discover_ options w))
        <= List.length (candidates_ options w))%nat.
Proof.
  destruct (get_or (dryRun options) false) eqn:Hdry.
  - destruct (discover_dry options w Hdry) as [Hr Ha].
    exists []. rewrite Ha. split; [exact Hr | split; [intros x [] | split; cbn; lia]].
  - destruct (discover_classifies github_searchMCPServers npm_searchMCPServers
                analyzeAndDecide generateQuickImport options w Hdry) as [Hr [_ Ha]].
    exists (successes (outcomes_ options w)).
    split; [exact Hr | split; [intros x Hx; exact Hx | split; [| lia]]].
    pose proof (successes_failures_length (outcomes_ options w)) as Hl.
    unfold outcomes in *. rewrite item_outcomes_length in Hl. unfold candidates in *. lia.
Qed.

(** Each success is a candidate with the decision the classifier returned
    for it. *)
Lemma In_successes (os : list (DiscoveredTool * outcome thrown TemplateDecision))
    (x : DiscoveryResult) :
  In x (successes os) ->
  In (tool x) (map fst os) /\ generated_pluginConfig x = Schemas.config (decision x).
Proof.
  unfold successes. intros H. apply in_flat_map in H. destruct H as [[t o] [Hin Hx]].
  cbn [fst snd] in Hx. destruct o as [d | e]; [| contradiction].
  destruct Hx as [Hx | []]. subst x. cbn.
  split; [apply (in_map fst) in Hin; exact Hin | reflexivity].
Qed.

End DiscoverAny.

(** X12.  With a limit that is not negative, a run never classifies more
    than [limit] tools and never returns more than [limit] results. *)
Theorem discover_bounded_by_limit :
  forall (W : Type)
         (github_searchMCPServers :
            Z -> Z -> W -> outcome thrown (list Discovery.DiscoveredTool) * W)
         (npm_searchMCPServers : Z -> W -> outcome thrown (list Discovery.DiscoveredTool) * W)
         (analyzeAndDecide :
            Discovery.DiscoveredTool -> W -> outcome thrown Discovery.TemplateDecision * W)
         (generateQuickImport : Discovery.TemplateDecision -> option string)
         (options : Discovery.DiscoveryOptions) (w : W),
    0 <= Discovery.get_or (Discovery.limit options) 10 ->
    let r := Discovery.discover github_searchMCPServers npm_searchMCPServers
               analyzeAndDecide generateQuickImport options w in
    exists rs,
      Discovery.result r = Returned rs
      /\ Z.of_nat (List.length rs) <= Discovery.get_or (Discovery.limit options) 10
      /\ Z.of_nat (Discovery.analyze_calls (Discovery.trace r))
         <= Discovery.get_or (Discovery.limit options) 10.
Proof.
  intros W gh np an qi options w Hlim. cbn zeta.
  destruct (discover_result gh np an qi options w) as [rs [Hr [_ [Hl Ha]]]].
  exists rs. split; [exact Hr |].
  pose proof (slice0_length
                (filter (fun t => Discovery.truthy_flag (Discovery.hasMCPSupport t))
                   (filter Discovery.isCryptoRelated
                      (fst (Discovery.collected gh np options w))))
                (Discovery.get_or (Discovery.limit options) 10) Hlim) as Hs.
  unfold Discovery.candidates, Discovery.candidates_of in *. lia.
Qed.

Lemma discover_bounded_by_limit_witness :
  let r := Discovery.discover (github_returns five_tools) (npm_returns [])
             analyze_succeeds no_quick_import
             (Discovery.mkOptions (Some [Discovery.src_github]) (Some 2) None None None) tt in
  exists rs,
    Discovery.result r = Returned rs
    /\ Z.of_nat (List.length rs) <= 2
    /\ Z.of_nat (Discovery.analyze_calls (Discovery.trace r)) <= 2.
Proof.
  apply (discover_bounded_by_limit unit (github_returns five_tools) (npm_returns [])
           analyze_succeeds no_quick_import
           (Discovery.mkOptions (Some [Discovery.src_github]) (Some 2) None None None) tt).
  discriminate.
Defined.

(** X13.  Every result a run returns is for a tool that a source returned,
    that passed the keyword filter and that has MCP support; and its
    generated plugin config is the config of its decision. *)
Theorem discover_results_pass_filters :
  forall (W : Type)
         (github_searchMCPServers :
            Z -> Z -> W -> outcome thrown (list Discovery.DiscoveredTool) * W)
         (npm_searchMCPServers : Z -> W -> outcome thrown (list Discovery.DiscoveredTool) * W)
         (analyzeAndDecide :
            Discovery.DiscoveredTool -> W -> outcome thrown Discovery.TemplateDecision * W)
         (generateQuickImport : Discovery.TemplateDecision -> option string)
         (options : Discovery.DiscoveryOptions) (w : W),
    exists rs,
      Discovery.result
        (Discovery.discover github_searchMCPServers npm_searchMCPServers
           analyzeAndDecide generateQuickImport options w) = Returned rs
      /\ forall x, In x rs ->
           In (Discovery.tool x)
              (fst (Discovery.collected github_searchMCPServers npm_searchMCPServers
                      options w))
           /\ Discovery.isCryptoRelated (Discovery.tool x) = true
           /\ Discovery.hasMCPSupport (Discovery.tool x) = Some true
           /\ Discovery.generated_pluginConfig x = Schemas.config (Discovery.decision x).
Proof.
  intros W gh np an qi options w.
  destruct (discover_result gh np an qi options w) as [rs [Hr [Hin _]]].
  exists rs. split; [exact Hr |]. intros x Hx.
  destruct (In_successes _ x (Hin x Hx)) as [Ht Hg].
  unfold Discovery.outcomes in Ht. rewrite item_outcomes_tools in Ht.
  unfold Discovery.candidates, Discovery.candidates_of in Ht.
  apply In_slice0 in Ht. apply filter_In in Ht. destruct Ht as [Ht Hm].
  apply filter_In in Ht. destruct Ht as [Ht Hc].
  split; [exact Ht | split; [exact Hc | split; [| exact Hg]]].
  unfold Discovery.truthy_flag in Hm.
  destruct (Discovery.hasMCPSupport (Discovery.tool x)) as [[|] |];
    [reflexivity | discriminate | discriminate].
Qed.

(** ** The keyword filter *)

Lemma prefix_app (k a b : string) : prefix k a = true -> prefix k (a ++ b) = true.
Proof.
  revert a. induction k as [| c k IH]; intros a H.
  - destruct (a ++ b); reflexivity.
  - destruct a as [| c' a]; [discriminate H |]. cbn in *.
    destruct (ascii_dec c c'); [apply IH; exact H | discriminate H].
Qed.

Lemma includes_app_l (a b k : string) :
  Discovery.includes a k = true -> Discovery.includes (a ++ b) k = true.
Proof.
  induction a as [| c a IH]; intros H.
  - destruct k as [| c k]; [| discriminate H].
    cbn [append]. destruct b; reflexivity.
  - cbn [Discovery.includes] in H. cbn [append Discovery.includes].
    destruct (prefix k (String c a)) eqn:Hp.
    + change (String c (a ++ b)) with (String c a ++ b).
      rewrite (prefix_app _ _ b Hp). reflexivity.
    + destruct (prefix k (String c (a ++ b))); [reflexivity | apply IH; exact H].
Qed.

Lemma includes_app_r (a b k : string) :
  Discovery.includes b k = true -> Discovery.includes (a ++ b) k = true.
Proof.
  induction a as [| c a IH]; intros H; [exact H |].
  cbn [append Discovery.includes].
  destruct (prefix k (String c (a ++ b))); [reflexivity | apply IH; exact H].
Qed.

Lemma toLowerCase_app (a b : string) :
  Discovery.toLowerCase (a ++ b) = Discovery.toLowerCase a ++ Discovery.toLowerCase b.
Proof. induction a as [| c a IH]; [reflexivity |]. cbn. rewrite IH. reflexivity. Qed.

Lemma keywords_lower_case (kw : string) :
  In kw Discovery.CRYPTO_KEYWORDS -> Discovery.toLowerCase kw = kw.
Proof.
  intros H.
  assert (Hall : forallb (fun k => (Discovery.toLowerCase k =? k)%string)
                   Discovery.CRYPTO_KEYWORDS = true) by (vm_compute; reflexivity).
  rewrite forallb_forall in Hall. apply String.eqb_eq. apply Hall. exact H.
Qed.

(** X14.  A tool is kept by the keyword filter as soon as one of the
    keywords occurs, in any letter case, in its name, in its description or
    in the first 5000 characters of its readme. *)
Theorem isCryptoRelated_keyword_anywhere :
  forall (t : Discovery.DiscoveredTool) (kw : string),
    In kw Discovery.CRYPTO_KEYWORDS ->
    Discovery.includes (Discovery.toLowerCase (Discovery.name t)) kw = true
    \/ Discovery.includes (Discovery.toLowerCase (Discovery.description t)) kw = true
    \/ Discovery.includes (Discovery.toLowerCase (Discovery.readme_head t)) kw = true ->
    Discovery.isCryptoRelated t = true.
Proof.
  intros t kw Hin Hocc. unfold Discovery.isCryptoRelated.
  apply existsb_exists. exists kw. split; [exact Hin |].
  rewrite (keywords_lower_case kw Hin), !toLowerCase_app.
  destruct Hocc as [H | [H | H]].
  - apply includes_app_l. exact H.
  - apply includes_app_r. apply includes_app_r. apply includes_app_l. exact H.
  - do 4 apply includes_app_r. exact H.
Qed.

Lemma isCryptoRelated_keyword_anywhere_witness :
  Discovery.isCryptoRelated
    (Discovery.mkTool "npm:x" "x" "A Wallet for teams" Discovery.src_npm "https://x"
       None None None None None None None None None None None) = true.
Proof.
  apply (isCryptoRelated_keyword_anywhere
           (Discovery.mkTool "npm:x" "x" "A Wallet for teams" Discovery.src_npm "https://x"
              None None None None None None None None None None None) "wallet").
  - cbn. tauto.
  - right. left. reflexivity.
Defined.

Lemma substring_prefix_app (m : nat) :
  forall r s : string, (m <= String.length r)%nat ->
    substring 0 m (r ++ s) = substring 0 m r.
Proof.
  induction m as [| m IH]; intros r s H.
  - destruct (r ++ s), r; reflexivity.
  - destruct r as [| c r]; [cbn in H; lia |].
    cbn [append substring]. rewrite IH by (cbn in H; lia). reflexivity.
Qed.

(** X15.  What a readme holds after its first 5000 characters never changes
    whether the tool is kept by the keyword filter. *)
Theorem isCryptoRelated_ignores_readme_tail :
  forall (t : Discovery.DiscoveredTool) (r tail : string),
    (5000 <= String.length r)%nat ->
    Discovery.isCryptoRelated (with_readme t (Some (r ++ tail)))
    = Discovery.isCryptoRelated (with_readme t (Some r)).
Proof.
  intros t r tail H. unfold Discovery.isCryptoRelated, Discovery.readme_head, with_readme.
  cbn [Discovery.readme Discovery.name Discovery.description].
  rewrite (substring_prefix_app 5000 r tail H). reflexivity.
Qed.

Lemma isCryptoRelated_ignores_readme_tail_witness :
  Discovery.isCryptoRelated (with_readme plain_tool (Some (padding ++ " bitcoin wallet")))
  = Discovery.isCryptoRelated (with_readme plain_tool (Some padding)).
Proof.
  apply (isCryptoRelated_ignores_readme_tail plain_tool padding " bitcoin wallet").
  apply Nat.leb_le. vm_compute. reflexivity.
Defined.

(** ** The sources of a run *)

Section DiscoverSources.

Import Discovery.

Context {W : Type}.
Variable github_searchMCPServers : Z -> Z -> W -> outcome thrown (list DiscoveredTool) * W.
Variable npm_searchMCPServers : Z -> W -> outcome thrown (list DiscoveredTool) * W.
Variable analyzeAndDecide : DiscoveredTool -> W -> outcome thrown TemplateDecision * W.
Variable generateQuickImport : TemplateDecision -> option string.

Local Abbreviation collect_ := (collect github_searchMCPServers npm_searchMCPServers).
Local Abbreviation from_source_ :=
  (discoverFromSource github_searchMCPServers npm_searchMCPServers).
Local Abbreviation analyze_loop_ := (analyze_loop analyzeAndDecide generateQuickImport).
Local Abbreviation discover_ :=
  (discover github_searchMCPServers npm_searchMCPServers analyzeAndDecide generateQuickImport).

Lemma search_calls_app (tr1 tr2 : list event) :
  search_calls (tr1 ++ tr2) = (search_calls tr1 + search_calls tr2)%nat.
Proof. unfold search_calls. rewrite filter_app, length_app. reflexivity. Qed.

(** The tools and the world a loop leaves do not depend on the trace it was
    entered with. *)
Lemma collect_any_trace (srcs : list DiscoverySource) (limit_ maxAge : Z) :
  forall (tools : list DiscoveredTool) (w : W) (tr tr' : list event),
    fst (collect_ srcs limit_ maxAge tools w tr) = fst (collect_ srcs limit_ maxAge tools w tr').
Proof.
  induction srcs as [| s rest IH]; intros tools w tr tr'; [reflexivity |].
  cbn [collect]. destruct (from_source_ s limit_ maxAge w) as [[[discovered | e] w1] evs];
    apply IH.
Qed.

Lemma analyze_loop_any_trace (dry : bool) (cands : list DiscoveredTool) :
  forall (results : list DiscoveryResult) (w : W) (tr tr' : list event),
    fst (analyze_loop_ dry cands results w tr) = fst (analyze_loop_ dry cands results w tr').
Proof.
  induction cands as [| t rest IH]; intros results w tr tr'; [reflexivity |].
  cbn [analyze_loop]. destruct dry; [apply IH |].
  destruct (analyzeAndDecide t w) as [[d | e] w1]; apply IH.
Qed.

Lemma discover_of_collected (options : DiscoveryOptions) (w : W) :
  (Discovery.result (discover_ options w), Discovery.world (discover_ options w))
  = outcome_of_collected analyzeAndDecide generateQuickImport options
      (collected github_searchMCPServers npm_searchMCPServers options w).
Proof.
  unfold discover, outcome_of_collected, collected.
  destruct (collect_ _ _ _ [] w _) as [[tools w1] tr1].
  cbn [fst snd]. destruct tools as [| t0 tools']; [reflexivity |].
  unfold candidates_of.
  match goal with
  | |- context [analyze_loop_ ?d ?cs [] w1 ?tr0] =>
      rewrite (analyze_loop_any_trace d cs [] w1 [] tr0);
      destruct (analyze_loop_ d cs [] w1 tr0) as [[rs w2] tr4]
  end.
  reflexivity.
Qed.

(** Sources that are not implemented leave the tools and the world as they
    are, and call no adapter. *)
Lemma collect_unimplemented (srcs : list DiscoverySource) (limit_ maxAge : Z) :
  forallb (fun s => negb (implemented s)) srcs = true ->
  forall (tools : list DiscoveredTool) (w : W) (tr : list event),
    fst (collect_ srcs limit_ maxAge tools w tr) = (tools, w)
    /\ search_calls (snd (collect_ srcs limit_ maxAge tools w tr)) = search_calls tr.
Proof.
  induction srcs as [| s rest IH]; intros Hall tools w tr; [split; reflexivity |].
  cbn [forallb] in Hall. apply andb_true_iff in Hall. destruct Hall as [Hs Hrest].
  destruct s; try discriminate Hs;
    cbn [collect discoverFromSource List.length];
    rewrite app_nil_r;
    match goal with
    | |- context [collect_ rest limit_ maxAge tools w ?tr0] =>
        destruct (IH Hrest tools w tr0) as [H1 H2]
    end;
    (split; [exact H1 | rewrite H2, search_calls_app; cbn; lia]).
Qed.

End DiscoverSources.

(** X16.  A source whose adapter throws is skipped: the run returns what the
    run over the remaining sources returns, started in the world the failed
    call left, and leaves the same world. *)
Theorem discover_skips_failing_source :
  forall (W : Type)
         (github_searchMCPServers :
            Z -> Z -> W -> outcome thrown (list Discovery.DiscoveredTool) * W)
         (npm_searchMCPServers : Z -> W -> outcome thrown (list Discovery.DiscoveredTool) * W)
         (analyzeAndDecide :
            Discovery.DiscoveredTool -> W -> outcome thrown Discovery.TemplateDecision * W)
         (generateQuickImport : Discovery.TemplateDecision -> option string)
         (s : Discovery.DiscoverySource) (srcs : list Discovery.DiscoverySource)
         (limit : option Z) (dryRun : option bool) (outputDir : option string)
         (maxAgeMonths : option Z) (w w1 : W) (e : thrown) (evs : list Discovery.event),
    Discovery.discoverFromSource github_searchMCPServers npm_searchMCPServers s
      (Discovery.get_or limit 10) (Discovery.get_or maxAgeMonths 12) w
    = (Raised e, w1, evs) ->
    let r := Discovery.discover github_searchMCPServers npm_searchMCPServers
               analyzeAndDecide generateQuickImport
               (Discovery.mkOptions (Some (s :: srcs)) limit dryRun outputDir maxAgeMonths) w in
    let r' := Discovery.discover github_searchMCPServers npm_searchMCPServers
                analyzeAndDecide generateQuickImport
                (Discovery.mkOptions (Some srcs) limit dryRun outputDir maxAgeMonths) w1 in
    Discovery.result r = Discovery.result r' /\ Discovery.world r = Discovery.world r'.
Proof.
  intros W gh np an qi s srcs lim dry out age w w1 e evs Hs. cbn zeta.
  pose proof (discover_of_collected gh np an qi
                (Discovery.mkOptions (Some (s :: srcs)) lim dry out age) w) as H1.
  pose proof (discover_of_collected gh np an qi
                (Discovery.mkOptions (Some srcs) lim dry out age) w1) as H2.
  assert (Hc : Discovery.collected gh np
                 (Discovery.mkOptions (Some (s :: srcs)) lim dry out age) w
               = Discovery.collected gh np
                   (Discovery.mkOptions (Some srcs) lim dry out age) w1).
  { unfold Discovery.collected.
    cbn [Discovery.sources Discovery.limit Discovery.maxAgeMonths Discovery.get_or
         Discovery.collect].
    rewrite Hs. apply collect_any_trace. }
  rewrite Hc in H1.
  assert (Ho : forall c,
             outcome_of_collected an qi
               (Discovery.mkOptions (Some (s :: srcs)) lim dry out age) c
             = outcome_of_collected an qi
                 (Discovery.mkOptions (Some srcs) lim dry out age) c) by reflexivity.
  rewrite Ho, <- H2 in H1. inversion H1. split; reflexivity.
Qed.

Lemma discover_skips_failing_source_witness :
  let github_down := fun (_ _ : Z) (w : unit) =>
    (@Raised thrown (list Discovery.DiscoveredTool) (RateLimitError github None), w) in
  let r := Discovery.discover github_down (npm_returns five_tools) analyze_succeeds
             no_quick_import
             (Discovery.mkOptions (Some [Discovery.src_github; Discovery.src_npm]) None None
                None None) tt in
  let r' := Discovery.discover github_down (npm_returns five_tools) analyze_succeeds
              no_quick_import
              (Discovery.mkOptions (Some [Discovery.src_npm]) None None None None) tt in
  Discovery.result r = Discovery.result r' /\ Discovery.world r = Discovery.world r'.
Proof.
  intros github_down.
  apply (discover_skips_failing_source unit github_down (npm_returns five_tools)
           analyze_succeeds no_quick_import Discovery.src_github [Discovery.src_npm]
           None None None None tt tt (RateLimitError github None)
           [Discovery.EvSearch Discovery.src_github]).
  reflexivity.
Defined.

(** X17.  The sources other than github and npm are not implemented: a run
    over such sources alone calls no adapter and no classifier, leaves the
    world as it is, and returns the empty array. *)
Theorem discover_unimplemented_sources :
  forall (W : Type)
         (github_searchMCPServers :
            Z -> Z -> W -> outcome thrown (list Discovery.DiscoveredTool) * W)
         (npm_searchMCPServers : Z -> W -> outcome thrown (list Discovery.DiscoveredTool) * W)
         (analyzeAndDecide :
            Discovery.DiscoveredTool -> W -> outcome thrown Discovery.TemplateDecision * W)
         (generateQuickImport : Discovery.TemplateDecision -> option string)
         (srcs : list Discovery.DiscoverySource)
         (limit : option Z) (dryRun : option bool) (outputDir : option string)
         (maxAgeMonths : option Z) (w : W),
    forallb (fun s => negb (implemented s)) srcs = true ->
    let r := Discovery.discover github_searchMCPServers npm_searchMCPServers
               analyzeAndDecide generateQuickImport
               (Discovery.mkOptions (Some srcs) limit dryRun outputDir maxAgeMonths) w in
    Discovery.result r = Returned []
    /\ Discovery.world r = w
    /\ search_calls (Discovery.trace r) = 0%nat
    /\ Discovery.analyze_calls (Discovery.trace r) = 0%nat.
Proof.
  intros W gh np an qi srcs lim dry out age w Hall. cbn zeta.
  unfold Discovery.discover.
  cbn [Discovery.sources Discovery.limit Discovery.maxAgeMonths Discovery.get_or].
  match goal with
  | |- context [Discovery.collect gh np srcs ?l ?m [] w ?tr0] =>
      destruct (collect_unimplemented gh np srcs l m Hall [] w tr0) as [Hf Hsc];
      pose proof (collect_quiet gh np srcs l m [] w tr0) as [Hqa _];
      destruct (Discovery.collect gh np srcs l m [] w tr0) as [[tools w1] tr1]
  end.
  cbn [fst snd] in *. inversion Hf; subst tools w1.
  cbn [Discovery.result Discovery.world Discovery.trace].
  rewrite search_calls_app, analyze_calls_app, Hsc, Hqa. repeat split; reflexivity.
Qed.

Lemma discover_unimplemented_sources_witness :
  let r := Discovery.discover (github_returns five_tools) (npm_returns five_tools)
             analyze_succeeds no_quick_import
             (Discovery.mkOptions (Some [Discovery.src_smithery; Discovery.src_rapidapi])
                None None None None) tt in
  Discovery.result r = Returned []
  /\ Discovery.world r = tt
  /\ search_calls (Discovery.trace r) = 0%nat
  /\ Discovery.analyze_calls (Discovery.trace r) = 0%nat.
Proof.
  apply (discover_unimplemented_sources unit (github_returns five_tools)
           (npm_returns five_tools) analyze_succeeds no_quick_import
           [Discovery.src_smithery; Discovery.src_rapidapi] None None None None tt).
  reflexivity.
Defined.

(** ** examples/09-custom-search-queries.ts: searches without duplicates *)

Section PushUnseen.

Import Discovery CustomSearch.

Variable key : DiscoveredTool -> string.

Lemma has_In (seen : list string) (k : string) : has seen k = true <-> In k seen.
Proof.
  unfold has. rewrite existsb_exists. split.
  - intros [s [Hin Heq]]. apply String.eqb_eq in Heq. subst s. exact Hin.
  - intros Hin. exists k. split; [exact Hin | apply String.eqb_refl].
Qed.

Lemma find_by_app (k : string) (l1 l2 : list DiscoveredTool) :
  find_by key k (l1 ++ l2)
  = match find_by key k l1 with Some t => Some t | None => find_by key k l2 end.
Proof.
  unfold find_by. induction l1 as [| t l1 IH]; [reflexivity |].
  cbn. destruct (key t =? k)%string; [reflexivity | exact IH].
Qed.

Lemma find_by_none (k : string) (l : list DiscoveredTool) :
  ~ In k (map key l) -> find_by key k l = None.
Proof.
  unfold find_by. induction l as [| t l IH]; intros H; [reflexivity |].
  cbn in *. destruct (key t =? k)%string eqn:E.
  - apply String.eqb_eq in E. exfalso. apply H. left. exact E.
  - apply IH. intros Hin. apply H. right. exact Hin.
Qed.

Lemma find_by_some (k : string) (l : list DiscoveredTool) :
  In k (map key l) -> exists t, find_by key k l = Some t.
Proof.
  unfold find_by. induction l as [| t l IH]; intros H; [contradiction |].
  cbn in *. destruct (key t =? k)%string eqn:E; [eexists; reflexivity |].
  destruct H as [H | H]; [apply String.eqb_neq in E; contradiction | apply IH; exact H].
Qed.

(** The inner loop keeps [seen] the keys of [tools], without repeats, and
    for each key the first tool with that key, those of [tools] first. *)
Lemma push_unseen_spec (results : list DiscoveredTool) :
  forall (seen : list string) (tools : list DiscoveredTool),
    seen = map key tools -> NoDup seen ->
    let out := push_unseen key results seen tools in
    fst out = map key (snd out)
    /\ NoDup (fst out)
    /\ (exists added, snd out = (tools ++ added)%list)
    /\ forall k, find_by key k (snd out)
                 = match find_by key k tools with
                   | Some t => Some t
                   | None => find_by key k results
                   end.
Proof.
  induction results as [| t rest IH]; intros seen tools Hseen Hnd; cbn zeta.
  - cbn [push_unseen fst snd]. split; [exact Hseen | split; [exact Hnd | split]].
    + exists []. rewrite app_nil_r. reflexivity.
    + intros k. destruct (find_by key k tools); reflexivity.
  - cbn [push_unseen]. destruct (has seen (key t)) eqn:Hhas.
    + destruct (IH seen tools Hseen Hnd) as [H1 [H2 [H3 H4]]].
      split; [exact H1 | split; [exact H2 | split; [exact H3 |]]].
      intros k. rewrite H4. destruct (find_by key k tools) as [x |] eqn:Hf; [reflexivity |].
      unfold find_by at 2. cbn [find].
      destruct (key t =? k)%string eqn:E; [| reflexivity].
      apply String.eqb_eq in E. subst k.
      apply has_In in Hhas. rewrite Hseen in Hhas.
      destruct (find_by_some _ _ Hhas) as [x Hx]. congruence.
    + assert (Hnot : ~ In (key t) seen).
      { intros Hin. apply has_In in Hin. congruence. }
      assert (Hseen' : (seen ++ [key t])%list = map key (tools ++ [t])%list).
      { rewrite map_app, Hseen. reflexivity. }
      assert (Hnd' : NoDup (seen ++ [key t])%list).
      { apply NoDup_app; [exact Hnd | repeat constructor; intros [] |].
        intros x Hx [Hx' | []]. subst x. contradiction. }
      destruct (IH _ _ Hseen' Hnd') as [H1 [H2 [[added H3] H4]]].
      split; [exact H1 | split; [exact H2 | split]].
      * exists (t :: added). rewrite H3, <- app_assoc. reflexivity.
      * intros k. rewrite H4, find_by_app.
        destruct (find_by key k tools) as [x |]; [reflexivity |].
        unfold find_by at 1 3. cbn [find]. destruct (key t =? k)%string; reflexivity.
Qed.

End PushUnseen.

(** X18.  The merge of the custom searches keeps, of the tools a search
    returns, exactly the first one with each id, in the order of the search:
    no id is kept twice, and looking up an id in the merged list gives the
    first tool with that id in the results. *)
Theorem push_unseen_first_wins :
  forall (results : list Discovery.DiscoveredTool),
    let out := snd (CustomSearch.push_unseen Discovery.id results [] []) in
    NoDup (map Discovery.id out)
    /\ forall k, CustomSearch.find_by Discovery.id k out
                 = CustomSearch.find_by Discovery.id k results.
Proof.
  intros results. cbn zeta.
  destruct (push_unseen_spec Discovery.id results [] [] eq_refl (NoDup_nil _))
    as [H1 [H2 [_ H4]]].
  split; [rewrite <- H1; exact H2 | intros k; rewrite H4; reflexivity].
Qed.

Lemma NoDup_map_firstn {A B : Type} (f : A -> B) (n : nat) (l : list A) :
  NoDup (map f l) -> NoDup (map f (firstn n l)).
Proof.
  intros H. rewrite <- (firstn_skipn n l), map_app in H.
  apply NoDup_app_remove_r in H. exact H.
Qed.

Section SearchesUnique.

Import Discovery CustomSearch.

Context {W : Type}.
Variable search : Z -> W -> outcome thrown (list DiscoveredTool) * W.

Lemma search_queries_unique (queries : list string) (limit_ : Z) :
  forall (seen : list string) (tools : list DiscoveredTool) (w : W),
    seen = map id tools -> NoDup seen ->
    NoDup (map id (fst (search_queries search queries limit_ seen tools w))).
Proof.
  induction queries as [| q rest IH]; intros seen tools w Hseen Hnd.
  - cbn. rewrite <- Hseen. exact Hnd.
  - cbn [search_queries]. destruct (search limit_ w) as [[results | e] w1].
    + pose proof (push_unseen_spec id results seen tools Hseen Hnd) as Hp. cbn zeta in Hp.
      destruct (push_unseen id results seen tools) as [seen1 tools1].
      cbn [fst snd] in Hp. destruct Hp as [H1 [H2 _]].
      destruct (Z.of_nat (List.length tools1) >=? limit_).
      * cbn [fst]. rewrite <- H1. exact H2.
      * apply IH; assumption.
    + destruct (Z.of_nat (List.length tools) >=? limit_).
      * cbn [fst]. rewrite <- Hseen. exact Hnd.
      * apply IH; assumption.
Qed.

End SearchesUnique.

(** X19.  [searchGitHubCustom] and [searchNpmCustom] never return two tools
    with one id, whatever the adapter returns or throws at each query, and
    with a limit that is not negative they return at most [limit] tools. *)
Theorem custom_searches_unique_ids :
  forall (W : Type)
         (github_searchMCPServers npm_searchMCPServers :
            Z -> W -> outcome thrown (list Discovery.DiscoveredTool) * W)
         (queries : list string) (limit : Z) (w : W),
    let g := fst (CustomSearch.searchGitHubCustom github_searchMCPServers queries limit w) in
    let n := fst (CustomSearch.searchNpmCustom npm_searchMCPServers queries limit w) in
    NoDup (map Discovery.id g)
    /\ NoDup (map Discovery.id n)
    /\ (0 <= limit ->
        Z.of_nat (List.length g) <= limit /\ Z.of_nat (List.length n) <= limit).
Proof.
  intros W gh np queries limit w. cbn zeta.
  unfold CustomSearch.searchGitHubCustom, CustomSearch.searchNpmCustom.
  pose proof (search_queries_unique gh queries limit [] [] w eq_refl (NoDup_nil _)) as Hg.
  pose proof (search_queries_unique np queries limit [] [] w eq_refl (NoDup_nil _)) as Hn.
  destruct (CustomSearch.search_queries gh queries limit [] [] w) as [tg wg].
  destruct (CustomSearch.search_queries np queries limit [] [] w) as [tn wn].
  cbn [fst] in *. unfold Discovery.slice0 at 1 2.
  split; [apply NoDup_map_firstn; exact Hg | split; [apply NoDup_map_firstn; exact Hn |]].
  intros Hl. split; apply slice0_length; exact Hl.
Qed.

(** X20.  [executeSearchStrategy] never returns two tools with one name,
    and with a limit that is not negative it returns at most [limit] tools. *)
Theorem executeSearchStrategy_unique_names :
  forall (W : Type)
         (github_searchMCPServers npm_searchMCPServers :
            Z -> W -> outcome thrown (list Discovery.DiscoveredTool) * W)
         (strategy : CustomSearch.SearchStrategy) (limit : Z) (w : W),
    let out := fst (CustomSearch.executeSearchStrategy github_searchMCPServers
                      npm_searchMCPServers strategy limit w) in
    NoDup (map Discovery.name out)
    /\ (0 <= limit -> Z.of_nat (List.length out) <= limit).
Proof.
  intros W gh np strategy limit w. cbn zeta.
  unfold CustomSearch.executeSearchStrategy.
  destruct (CustomSearch.searchGitHubCustom gh _ _ w) as [gt w1].
  pose proof (push_unseen_spec Discovery.name gt [] [] eq_refl (NoDup_nil _)) as H1.
  cbn zeta in H1.
  destruct (CustomSearch.push_unseen Discovery.name gt [] []) as [seen1 all1].
  cbn [fst snd] in H1. destruct H1 as [Hs1 [Hn1 _]].
  destruct (CustomSearch.searchNpmCustom np _ _ w1) as [nt w2].
  pose proof (push_unseen_spec Discovery.name nt seen1 all1 Hs1 Hn1) as H2.
  cbn zeta in H2.
  destruct (CustomSearch.push_unseen Discovery.name nt seen1 all1) as [seen2 all2].
  cbn [fst snd] in *. destruct H2 as [Hs2 [Hn2 _]].
  split.
  - unfold Discovery.slice0. apply NoDup_map_firstn. rewrite <- Hs2. exact Hn2.
  - apply slice0_length.
Qed.

(** ** examples/filter-by-template.ts and examples/batch-processing.ts *)

Section TemplateStatsProperties.

Import Schemas Discovery TemplateStats.

Lemma template_eqb_eq (a b : PluginTemplate) : template_eqb a b = true <-> a = b.
Proof.
  split; [| intros ->; apply String.eqb_refl].
  destruct a, b; intros H; first [reflexivity | discriminate H].
Qed.

Lemma template_eqb_refl (a : PluginTemplate) : template_eqb a a = true.
Proof. apply template_eqb_eq. reflexivity. Qed.

Lemma template_eqb_neq (a b : PluginTemplate) : template_eqb a b = false <-> a <> b.
Proof.
  split.
  - intros H E. apply template_eqb_eq in E. congruence.
  - intros H. destruct (template_eqb a b) eqn:E; [| reflexivity].
    apply template_eqb_eq in E. contradiction.
Qed.

(** The results of a list with the template [t], in order. *)
Lemma filter_one_app (t : PluginTemplate) (p : list DiscoveryResult) (r : DiscoveryResult) :
  filterByTemplates (p ++ [r]) [t]
  = (filterByTemplates p [t]
     ++ (if template_eqb t (template (decision r)) then [r] else []))%list.
Proof.
  unfold filterByTemplates. rewrite filter_app. cbn.
  rewrite orb_false_r. reflexivity.
Qed.

Lemma lookup_push_same (groups : list (PluginTemplate * list DiscoveryResult))
    (t : PluginTemplate) (r : DiscoveryResult) :
  lookup (push_to_group groups t r) t
  = Some (match lookup groups t with Some g => g ++ [r] | None => [r] end)%list.
Proof.
  induction groups as [| [k g] tl IH]; cbn.
  - rewrite template_eqb_refl. reflexivity.
  - destruct (template_eqb k t) eqn:E; cbn; rewrite E; [reflexivity | exact IH].
Qed.

Lemma lookup_push_other (groups : list (PluginTemplate * list DiscoveryResult))
    (t t' : PluginTemplate) (r : DiscoveryResult) :
  t' <> t -> lookup (push_to_group groups t r) t' = lookup groups t'.
Proof.
  intros Hne. induction groups as [| [k g] tl IH]; cbn.
  - replace (template_eqb t t') with false; [reflexivity |].
    symmetry. apply template_eqb_neq. congruence.
  - destruct (template_eqb k t) eqn:E; cbn.
    + apply template_eqb_eq in E. subst k.
      replace (template_eqb t t') with false; [reflexivity |].
      symmetry. apply template_eqb_neq. congruence.
    + destruct (template_eqb k t'); [reflexivity | exact IH].
Qed.

Lemma keys_push (groups : list (PluginTemplate * list DiscoveryResult))
    (t : PluginTemplate) (r : DiscoveryResult) :
  map fst (push_to_group groups t r)
  = if in_dec (fun a b => match bool_dec (template_eqb a b) true with
                          | left e => left (proj1 (template_eqb_eq a b) e)
                          | right n => right (fun e => n (proj2 (template_eqb_eq a b) e))
                          end) t (map fst groups)
    then map fst groups else (map fst groups ++ [t])%list.
Proof.
  induction groups as [| [k g] tl IH]; [reflexivity |].
  cbn [push_to_group]. destruct (template_eqb k t) eqn:E.
  - apply template_eqb_eq in E. subst k. cbn [map fst].
    destruct (in_dec _ t (t :: map fst tl)) as [_ | Hn]; [reflexivity |].
    exfalso. apply Hn. left. reflexivity.
  - cbn [map fst]. rewrite IH.
    apply template_eqb_neq in E.
    destruct (in_dec _ t (map fst tl)) as [Hi | Hn];
      destruct (in_dec _ t (k :: map fst tl)) as [Hi' | Hn']; try reflexivity.
    + exfalso. apply Hn'. right. exact Hi.
    + exfalso. destruct Hi' as [Hk | Hi']; [congruence | contradiction].
Qed.

Lemma keys_push_NoDup (groups : list (PluginTemplate * list DiscoveryResult))
    (t : PluginTemplate) (r : DiscoveryResult) :
  NoDup (map fst groups) -> NoDup (map fst (push_to_group groups t r)).
Proof.
  intros H. rewrite keys_push. destruct (in_dec _ t (map fst groups)) as [Hi | Hn]; [exact H |].
  apply NoDup_app; [exact H | repeat constructor; intros [] |].
  intros x Hx [Hx' | []]. subst x. contradiction.
Qed.

Lemma sizes_cons (k : PluginTemplate) (g : list DiscoveryResult)
    (tl : list (PluginTemplate * list DiscoveryResult)) :
  sizes ((k, g) :: tl) = (List.length g + sizes tl)%nat.
Proof. reflexivity. Qed.

Lemma sizes_push (groups : list (PluginTemplate * list DiscoveryResult))
    (t : PluginTemplate) (r : DiscoveryResult) :
  sizes (push_to_group groups t r) = S (sizes groups).
Proof.
  induction groups as [| [k g] tl IH]; [reflexivity |].
  cbn [push_to_group]. destruct (template_eqb k t).
  - rewrite !sizes_cons, length_app. cbn. lia.
  - rewrite !sizes_cons, IH. lia.
Qed.

(** The groups after the loop has gone through [p], from groups that are
    right for nothing processed yet. *)
Lemma groupByTemplate_invariant (rs : list DiscoveryResult) :
  forall (groups : list (PluginTemplate * list DiscoveryResult)) (p : list DiscoveryResult),
    NoDup (map fst groups) ->
    (forall t, lookup groups t
               = match filterByTemplates p [t] with [] => None | g => Some g end) ->
    sizes groups = List.length p ->
    let out := fold_left (fun gs r => push_to_group gs (template (decision r)) r) rs groups in
    NoDup (map fst out)
    /\ (forall t, lookup out t
                  = match filterByTemplates (p ++ rs) [t] with [] => None | g => Some g end)
    /\ sizes out = List.length (p ++ rs).
Proof.
  induction rs as [| r rs IH]; intros groups p Hnd Hl Hs; cbn zeta.
  - cbn [fold_left]. rewrite app_nil_r. split; [exact Hnd | split; [exact Hl | exact Hs]].
  - cbn [fold_left].
    replace (p ++ r :: rs)%list with ((p ++ [r]) ++ rs)%list
      by (rewrite <- app_assoc; reflexivity).
    apply IH.
    + apply keys_push_NoDup. exact Hnd.
    + intros t. rewrite filter_one_app.
      destruct (template_eqb t (template (decision r))) eqn:E.
      * apply template_eqb_eq in E. subst t. rewrite lookup_push_same, Hl.
        destruct (filterByTemplates p [template (decision r)]); reflexivity.
      * apply template_eqb_neq in E. rewrite lookup_push_other by exact E.
        rewrite Hl, app_nil_r. reflexivity.
    + rewrite sizes_push, Hs, length_app. cbn. lia.
Qed.

End TemplateStatsProperties.

(** X21.  The MCP templates and the standard templates split every list of
    results in two: each result is in exactly one of
    [filterByTemplates(results, MCP_TEMPLATES)] and
    [filterByTemplates(results, STANDARD_TEMPLATES)]. *)
Theorem filterByTemplates_partition :
  forall results : list Discovery.DiscoveryResult,
    Permutation
      (TemplateStats.filterByTemplates results TemplateStats.MCP_TEMPLATES
       ++ TemplateStats.filterByTemplates results TemplateStats.STANDARD_TEMPLATES)
      results.
Proof.
  induction results as [| r rs IH]; [constructor |].
  unfold TemplateStats.filterByTemplates in *. cbn [filter].
  destruct (Schemas.template (Discovery.decision r)); cbn.
  1,2: apply perm_skip; exact IH.
  all: apply Permutation_sym, Permutation_cons_app, Permutation_sym; exact IH.
Qed.

(** X22.  [groupByTemplate] has one group for each template that occurs and
    none for the others; the group of a template is the results with that
    template in their order, that is [filterByTemplates(results, [t])]; and
    the groups hold as many results as the list. *)
Theorem groupByTemplate_groups :
  forall results : list Discovery.DiscoveryResult,
    NoDup (map fst (TemplateStats.groupByTemplate results))
    /\ (forall t,
          TemplateStats.lookup (TemplateStats.groupByTemplate results) t
          = match TemplateStats.filterByTemplates results [t] with
            | [] => None
            | g => Some g
            end)
    /\ TemplateStats.sizes (TemplateStats.groupByTemplate results) = List.length results.
Proof.
  intros results.
  exact (groupByTemplate_invariant results [] [] (NoDup_nil _) (fun t => eq_refl) eq_refl).
Qed.

Lemma bump_push (groups : list (Schemas.PluginTemplate * list Discovery.DiscoveryResult))
    (t : Schemas.PluginTemplate) (r : Discovery.DiscoveryResult) :
  TemplateStats.bump (map (fun kg => (fst kg, Z.of_nat (List.length (snd kg)))) groups) t
  = map (fun kg => (fst kg, Z.of_nat (List.length (snd kg))))
      (TemplateStats.push_to_group groups t r).
Proof.
  induction groups as [| [k g] tl IH]; [reflexivity |].
  cbn [map TemplateStats.bump TemplateStats.push_to_group fst snd].
  destruct (TemplateStats.template_eqb k t).
  - cbn [map fst snd]. rewrite length_app. cbn [List.length].
    destruct (Z.of_nat (List.length g) =? 0) eqn:E.
    + apply Z.eqb_eq in E. f_equal. f_equal. lia.
    + f_equal. f_equal. lia.
  - cbn [map fst snd]. rewrite IH. reflexivity.
Qed.

(** X23.  [aggregateByTemplate] counts what [groupByTemplate] groups: its
    entries are the templates of the groups, in the same order, each with
    the size of its group. *)
Theorem aggregateByTemplate_counts_groups :
  forall results : list Discovery.DiscoveryResult,
    TemplateStats.aggregateByTemplate results
    = map (fun kg => (fst kg, Z.of_nat (List.length (snd kg))))
        (TemplateStats.groupByTemplate results).
Proof.
  intros results. unfold TemplateStats.aggregateByTemplate, TemplateStats.groupByTemplate.
  change (@nil (Schemas.PluginTemplate * Z))
    with (map (fun kg : Schemas.PluginTemplate * list Discovery.DiscoveryResult =>
                 (fst kg, Z.of_nat (List.length (snd kg)))) []).
  generalize (@nil (Schemas.PluginTemplate * list Discovery.DiscoveryResult)) as groups.
  induction results as [| r rs IH]; intros groups; [reflexivity |].
  cbn [fold_left].
  rewrite (bump_push groups (Schemas.template (Discovery.decision r)) r). apply IH.
Qed.

(** ** Analyses of one tool *)

(** Opens the disjunctions and existentials among the hypotheses; [Ha] is the
    equation of the call of the classifier, put into the hypotheses that
    speak of it. *)
Ltac break_cases Ha :=
  repeat match goal with
         | H : exists _, _ |- _ => destruct H
         | H : _ /\ _ |- _ => destruct H
         | H : _ \/ _ |- _ => destruct H
         | H : Returned (Some _) = Returned (Some _) |- _ => inversion H; clear H; subst
         | H : context [fst (_ _ _)] |- _ => rewrite Ha in H; cbn [fst] in H
         end.

Section AnalyzeFound.

Import Schemas Discovery SingleAnalysis.

Context {W : Type}.
Variable analyzeAndDecide : DiscoveredTool -> W -> outcome thrown TemplateDecision * W.
Variable generateQuickImport : TemplateDecision -> option string.

Lemma classify_calls_app (tr1 tr2 : list event) :
  classify_calls (tr1 ++ tr2) = (classify_calls tr1 + classify_calls tr2)%nat.
Proof. unfold classify_calls. rewrite filter_app, length_app. reflexivity. Qed.

Lemma analyze_found_spec (not_found : line) (looked : outcome thrown (option DiscoveredTool))
    (w1 : W) (tr : list event) :
  classify_calls tr = 0%nat ->
  let r := analyze_found analyzeAndDecide generateQuickImport not_found looked w1 tr in
  (result r = Returned None <-> looked = Returned None)
  /\ (forall e, result r = Raised e
                <-> looked = Raised e
                    \/ exists t, looked = Returned (Some t)
                                 /\ fst (analyzeAndDecide t w1) = Raised e)
  /\ (forall x, result r = Returned (Some x)
                <-> exists t d, looked = Returned (Some t)
                                /\ fst (analyzeAndDecide t w1) = Returned d
                                /\ x = mkResult t d (config d))
  /\ (classify_calls (trace r) = 1%nat <-> exists t, looked = Returned (Some t))
  /\ (classify_calls (trace r) <= 1)%nat.
Proof.
  intros Htr. cbn zeta. unfold analyze_found.
  destruct looked as [[t |] | e0].
  - destruct (analyzeAndDecide t w1) as [[d | e1] w2] eqn:Ha; cbn [result trace fst];
      rewrite ?classify_calls_app, Htr.
    + assert (Hq : classify_calls
                     (match generateQuickImport d with
                      | Some q => if (q =? "")%string then [] else [EvLine (LogQuickImportOne q)]
                      | None => []
                      end) = 0%nat).
      { destruct (generateQuickImport d) as [q |]; [destruct (q =? "")%string |]; reflexivity. }
      rewrite Hq. cbn [classify_calls filter is_classify List.length Nat.add].
      repeat split; intros; break_cases Ha; try lia;
        first [discriminate | congruence | (eexists; reflexivity)
              | (exists t, d; rewrite Ha; cbn; repeat split; congruence) | idtac].
    + cbn [classify_calls filter is_classify List.length Nat.add].
      repeat split; intros; break_cases Ha; try lia;
        first [discriminate | congruence | (eexists; reflexivity)
              | (right; exists t; rewrite Ha; split; [reflexivity | cbn; congruence]) | idtac].
  - cbn [result trace]. rewrite classify_calls_app, Htr.
    cbn [classify_calls filter is_classify List.length Nat.add].
    repeat split; intros; break_cases Htr; try lia;
      first [discriminate | congruence | idtac].
  - cbn [result trace]. rewrite Htr.
    repeat split; intros; break_cases Htr; try lia;
      first [discriminate | congruence | (left; congruence) | idtac].
Qed.

End AnalyzeFound.

(** X24.  [analyzeGitHubRepo] and [analyzeNpmPackage] swallow nothing: they
    throw exactly what the lookup or the classifier throws, return [null]
    exactly when the lookup returns [null], and call the classifier once,
    for a tool that was found, and otherwise not at all. *)
Theorem single_analysis_propagates :
  forall (W : Type)
         (github_getRepo :
            string -> option string -> W ->
            outcome thrown (option Discovery.DiscoveredTool) * W)
         (npm_getPackageAsTool :
            string -> W -> outcome thrown (option Discovery.DiscoveredTool) * W)
         (analyzeAndDecide :
            Discovery.DiscoveredTool -> W -> outcome thrown Discovery.TemplateDecision * W)
         (generateQuickImport : Discovery.TemplateDecision -> option string)
         (owner : string) (repo : option string) (name : string) (w : W),
    let spec := fun (looked : outcome thrown (option Discovery.DiscoveredTool) * W)
                    (r : SingleAnalysis.run W) =>
      (SingleAnalysis.result r = Returned None <-> fst looked = Returned None)
      /\ (forall e, SingleAnalysis.result r = Raised e
                    <-> fst looked = Raised e
                        \/ exists t, fst looked = Returned (Some t)
                                     /\ fst (analyzeAndDecide t (snd looked)) = Raised e)
      /\ (SingleAnalysis.classify_calls (SingleAnalysis.trace r) = 1%nat
          <-> exists t, fst looked = Returned (Some t))
      /\ (SingleAnalysis.classify_calls (SingleAnalysis.trace r) <= 1)%nat in
    spec (github_getRepo owner repo w)
         (SingleAnalysis.analyzeGitHubRepo github_getRepo analyzeAndDecide
            generateQuickImport owner repo w)
    /\ spec (npm_getPackageAsTool name w)
            (SingleAnalysis.analyzeNpmPackage npm_getPackageAsTool analyzeAndDecide
               generateQuickImport name w).
Proof.
  intros W gr np an qi owner repo name w. cbn zeta.
  unfold SingleAnalysis.analyzeGitHubRepo, SingleAnalysis.analyzeNpmPackage.
  destruct (gr owner repo w) as [lg wg]. destruct (np name w) as [ln wn]. cbn [fst snd].
  split.
  - destruct (analyze_found_spec an qi SingleAnalysis.ErrRepositoryNotFound lg wg
                [SingleAnalysis.EvLine (SingleAnalysis.LogFetching owner repo);
                 SingleAnalysis.EvLookup] eq_refl) as [H1 [H2 [_ [H4 H5]]]].
    split; [exact H1 | split; [exact H2 | split; [exact H4 | exact H5]]].
  - destruct (analyze_found_spec an qi SingleAnalysis.ErrPackageNotFound ln wn
                [SingleAnalysis.EvLine (SingleAnalysis.LogFetchingPackage name);
                 SingleAnalysis.EvLookup] eq_refl) as [H1 [H2 [_ [H4 H5]]]].
    split; [exact H1 | split; [exact H2 | split; [exact H4 | exact H5]]].
Qed.

(** ** examples/batch-processing.ts *)

Section BatchLoop.

Import Schemas Discovery Batch.

Context {W : Type}.
Variable github_getRepo :
  string -> option string -> W -> outcome thrown (option DiscoveredTool) * W.
Variable analyzeAndDecide : DiscoveredTool -> W -> outcome thrown TemplateDecision * W.
Variable generateQuickImport : TemplateDecision -> option string.

Local Abbreviation batch_loop_ :=
  (batch_loop github_getRepo analyzeAndDecide generateQuickImport).

Lemma delays_app (tr1 tr2 : list event) : delays (tr1 ++ tr2) = (delays tr1 ++ delays tr2)%list.
Proof.
  induction tr1 as [| ev tr1 IH]; [reflexivity |]. destruct ev; cbn; rewrite IH; reflexivity.
Qed.

Lemma analyses_app (tr1 tr2 : list event) :
  analyses (tr1 ++ tr2) = (analyses tr1 ++ analyses tr2)%list.
Proof.
  induction tr1 as [| ev tr1 IH]; [reflexivity |]. destruct ev; cbn; rewrite IH; reflexivity.
Qed.

(** Each repository of the loop ends in exactly one of the two lists, is
    analysed once, and is followed by a delay unless it is the last. *)
Lemma batch_loop_accounts (repos : list string) (delayMs : Z) :
  forall (success_ : list DiscoveryResult) (failed_ : list (string * string)) (w : W)
         (tr : list event),
    let out := batch_loop_ repos delayMs success_ failed_ w tr in
    let success' := fst (fst (fst out)) in
    let failed' := snd (fst (fst out)) in
    (List.length success' + List.length failed'
     = List.length success_ + List.length failed_ + List.length repos)%nat
    /\ (exists more, map fst failed' = (map fst failed_ ++ more)%list /\ incl more repos)
    /\ delays (snd out) = (delays tr ++ repeat delayMs (List.length repos - 1))%list
    /\ analyses (snd out) = (analyses tr ++ map owner_and_name repos)%list.
Proof.
  induction repos as [| repo rest IH]; intros success_ failed_ w tr; cbn zeta.
  - cbn. rewrite !app_nil_r. split; [lia | split; [| split; reflexivity]].
    exists []. rewrite app_nil_r. split; [reflexivity | intros x []].
  - cbn [batch_loop]. destruct (owner_and_name repo) as [owner name_] eqn:Hon.
    set (r := SingleAnalysis.analyzeGitHubRepo github_getRepo analyzeAndDecide
                generateQuickImport owner name_ w).
    set (tr2 := match rest with
                | [] => (tr ++ [EvAnalyzeRepo owner name_])%list
                | _ :: _ => ((tr ++ [EvAnalyzeRepo owner name_]) ++ [EvDelay delayMs])%list
                end).
    assert (Hd : delays tr2
                 = (delays tr ++ match rest with [] => [] | _ => [delayMs] end)%list).
    { unfold tr2. destruct rest; rewrite !delays_app; cbn; rewrite ?app_nil_r; reflexivity. }
    assert (Han : analyses tr2 = (analyses tr ++ [(owner, name_)])%list).
    { unfold tr2. destruct rest; rewrite !analyses_app; cbn; rewrite ?app_nil_r; reflexivity. }
    destruct (SingleAnalysis.result r) as [[res |] | e];
      match goal with
      | |- context [batch_loop_ rest delayMs ?s ?f ?w0 tr2] =>
          destruct (IH s f w0 tr2) as [H1 [[more [H2 H2']] [H3 H4]]]
      end;
      (split; [rewrite H1; rewrite ?length_app; cbn; lia |]);
      (split; [| split;
                 [rewrite H3, Hd, <- app_assoc; f_equal;
                  destruct rest; cbn; rewrite ?Nat.sub_0_r; reflexivity
                 | rewrite H4, Han, <- app_assoc; cbn [map]; rewrite Hon; reflexivity]]).
    + exists more. split; [exact H2 | intros x Hx; right; apply H2'; exact Hx].
    + exists (repo :: more). rewrite H2, map_app, <- app_assoc. cbn.
      split; [reflexivity | intros x [Hx | Hx]; [left; exact Hx | right; apply H2'; exact Hx]].
    + exists (repo :: more). rewrite H2, map_app, <- app_assoc. cbn.
      split; [reflexivity | intros x [Hx | Hx]; [left; exact Hx | right; apply H2'; exact Hx]].
Qed.

End BatchLoop.

(** X25.  [processBatch] accounts for every repository once: it analyses
    each repository of the list, in order, and puts it either in [success]
    or in [failed], so that [succeeded + failed = total]; the names in
    [failed] are names of the list; and it waits [delayMs] between two
    repositories, never after the last. *)
Theorem processBatch_accounts :
  forall (W : Type)
         (github_getRepo :
            string -> option string -> W ->
            outcome thrown (option Discovery.DiscoveredTool) * W)
         (analyzeAndDecide :
            Discovery.DiscoveredTool -> W -> outcome thrown Discovery.TemplateDecision * W)
         (generateQuickImport : Discovery.TemplateDecision -> option string)
         (now : W -> Z) (repos : list string) (delayMs : option Z) (w : W),
    let out := Batch.processBatch github_getRepo analyzeAndDecide generateQuickImport now
                 repos delayMs w in
    let b := fst (fst out) in
    Batch.total (Batch.stats b) = Z.of_nat (List.length repos)
    /\ Batch.succeeded (Batch.stats b) = Z.of_nat (List.length (Batch.success b))
    /\ Batch.failed_count (Batch.stats b) = Z.of_nat (List.length (Batch.failed b))
    /\ Batch.succeeded (Batch.stats b) + Batch.failed_count (Batch.stats b)
       = Batch.total (Batch.stats b)
    /\ incl (map fst (Batch.failed b)) repos
    /\ Batch.analyses (snd out) = map Batch.owner_and_name repos
    /\ Batch.delays (snd out)
       = repeat (match delayMs with Some d => d | None => 1000 end) (List.length repos - 1).
Proof.
  intros W gr an qi now repos delayMs w. cbn zeta. unfold Batch.processBatch.
  pose proof (batch_loop_accounts gr an qi repos
                (match delayMs with Some d => d | None => 1000 end) [] [] w []) as H.
  cbn zeta in H.
  destruct (Batch.batch_loop gr an qi repos _ [] [] w []) as [[[s f] w1] tr].
  cbn [fst snd] in *. destruct H as [H1 [[more [H2 H2']] [H3 H4]]].
  cbn [Batch.stats Batch.total Batch.succeeded Batch.failed_count Batch.success Batch.failed].
  cbn in H1, H2, H3, H4.
  repeat split; try lia; try assumption.
  rewrite H2. exact H2'.
Qed.

(** ** examples/10-pipeline-integration.ts *)

Lemma filter_all {A : Type} (f : A -> bool) (l : list A) :
  (forall x, In x l -> f x = true) -> filter f l = l.
Proof.
  induction l as [| a l IH]; intros H; [reflexivity |].
  cbn. rewrite (H a (or_introl eq_refl)). f_equal. apply IH.
  intros x Hx. apply H. right. exact Hx.
Qed.

(** X26.  With the default filters of the pipeline ([requireMCP: true]),
    the filter stage drops nothing of what a discovery run returned: every
    tool a run returns has MCP support. *)
Theorem pipeline_default_filter_keeps_discovered :
  forall (W : Type)
         (github_searchMCPServers :
            Z -> Z -> W -> outcome thrown (list Discovery.DiscoveredTool) * W)
         (npm_searchMCPServers : Z -> W -> outcome thrown (list Discovery.DiscoveredTool) * W)
         (analyzeAndDecide :
            Discovery.DiscoveredTool -> W -> outcome thrown Discovery.TemplateDecision * W)
         (generateQuickImport : Discovery.TemplateDecision -> option string)
         (options : Discovery.DiscoveryOptions) (w : W),
    exists rs,
      Discovery.result
        (Discovery.discover github_searchMCPServers npm_searchMCPServers
           analyzeAndDecide generateQuickImport options w) = Returned rs
      /\ Pipeline.stageFilter (Pipeline.stageTransform rs) Pipeline.DEFAULT_filters
         = Pipeline.stageTransform rs.
Proof.
  intros W gh np an qi options w.
  destruct (discover_result gh np an qi options w) as [rs [Hr [Hin _]]].
  exists rs. split; [exact Hr |].
  unfold Pipeline.stageFilter, Pipeline.DEFAULT_filters, Pipeline.stageTransform. cbn.
  apply filter_all. intros t Ht. apply in_map_iff in Ht. destruct Ht as [x [Hx Hxin]].
  subst t. cbn.
  destruct (In_successes _ x (Hin x Hxin)) as [Ht _].
  unfold Discovery.outcomes in Ht. rewrite item_outcomes_tools in Ht.
  unfold Discovery.candidates, Discovery.candidates_of in Ht.
  apply In_slice0 in Ht. apply filter_In in Ht. destruct Ht as [_ Hm]. exact Hm.
Qed.

(** X27.  The validation stage keeps every tool, in order, and marks a tool
    valid exactly when its name and its url are not empty and, for an MCP
    template, its config is an MCP config.  Which descriptor the MCP config
    holds is not looked at. *)
Theorem stageValidate_valid_iff :
  forall tools : list Pipeline.TransformedTool,
    map Pipeline.v_tool (Pipeline.stageValidate tools) = tools
    /\ forall v, In v (Pipeline.stageValidate tools) ->
         (Pipeline.valid v = true
          <-> Pipeline.t_name (Pipeline.v_tool v) <> ""
              /\ Pipeline.t_url (Pipeline.v_tool v) <> ""
              /\ (Pipeline.is_mcp_template (Pipeline.t_template (Pipeline.v_tool v)) = true ->
                  exists c, Pipeline.t_config (Pipeline.v_tool v) = Schemas.MCPPlugin c))
         /\ (Pipeline.valid v = true <-> Pipeline.errors v = []).
Proof.
  intros tools. split.
  - unfold Pipeline.stageValidate. rewrite map_map. cbn. apply map_id.
  - intros v Hv. unfold Pipeline.stageValidate in Hv. apply in_map_iff in Hv.
    destruct Hv as [t [Hv _]]. subst v. unfold Pipeline.validate.
    cbn [Pipeline.valid Pipeline.v_tool Pipeline.errors].
    assert (Htn : Pipeline.falsy (Schemas.template_name (Pipeline.t_template t)) = false)
      by (destruct (Pipeline.t_template t); reflexivity).
    rewrite Htn. unfold Pipeline.falsy.
    destruct (Pipeline.t_name t =? "")%string eqn:En;
      destruct (Pipeline.t_url t =? "")%string eqn:Eu;
      destruct (Pipeline.is_mcp_template (Pipeline.t_template t)) eqn:Em;
      destruct (Pipeline.t_config t) as [c | c] eqn:Ec; cbn;
      rewrite ?String.eqb_eq in *; rewrite ?String.eqb_neq in *;
      (split; [| split; intros H; first [reflexivity | discriminate H]]);
      (split;
       [ intros H; try discriminate H;
         (split; [assumption | split; [assumption |]]);
         intros Hm; first [discriminate Hm | eexists; reflexivity]
       | intros [H1 [H2 H3]]; try contradiction; try reflexivity;
         destruct (H3 eq_refl) as [c' Hc']; discriminate Hc' ]).
Qed.

(** ** examples/pipeline-integration.ts *)

Section McpServers.

Import Schemas Discovery McpConfig.

Lemma get_set_same (servers : list (string * server)) (k : string) (v : server) :
  get (set servers k v) k = Some v.
Proof.
  induction servers as [| [k' v'] tl IH]; cbn.
  - rewrite String.eqb_refl. reflexivity.
  - destruct (k' =? k)%string eqn:E; cbn; rewrite E; [reflexivity | exact IH].
Qed.

Lemma get_set_other (servers : list (string * server)) (k k' : string) (v : server) :
  k' <> k -> get (set servers k v) k' = get servers k'.
Proof.
  intros Hne. induction servers as [| [k0 v0] tl IH]; cbn.
  - replace (k =? k')%string with false; [reflexivity |].
    symmetry. apply String.eqb_neq. congruence.
  - destruct (k0 =? k)%string eqn:E; cbn.
    + apply String.eqb_eq in E. subst k0.
      replace (k =? k')%string with false; [reflexivity |].
      symmetry. apply String.eqb_neq. congruence.
    + destruct (k0 =? k')%string; [reflexivity | exact IH].
Qed.

Lemma get_app (a b : list (string * server)) (k : string) :
  get (a ++ b) k = match get a k with Some v => Some v | None => get b k end.
Proof.
  induction a as [| [k' v'] tl IH]; [reflexivity |].
  cbn. destruct (k' =? k)%string; [reflexivity | exact IH].
Qed.

Lemma toMCPConfig_from (results : list DiscoveryResult) (k : string) :
  forall acc : list (string * server),
    get (fold_left add_server results acc) k
    = match get (rev (servers_of results)) k with
      | Some v => Some v
      | None => get acc k
      end.
Proof.
  induction results as [| r rs IH]; intros acc; [reflexivity |].
  cbn [fold_left]. rewrite IH. unfold servers_of. cbn [flat_map].
  fold (servers_of rs). rewrite rev_app_distr, get_app.
  destruct (get (rev (servers_of rs)) k) as [v |]; [reflexivity |].
  unfold add_server. destruct (generated_pluginConfig r) as [c | c]; [| reflexivity].
  cbn [rev app get].
  destruct (mcp_identifier c =? k)%string eqn:E.
  - apply String.eqb_eq in E. subst k. apply get_set_same.
  - apply String.eqb_neq in E. apply get_set_other. congruence.
Qed.

End McpServers.

(** X28.  In the object [toMCPConfig] builds, the entry under an identifier
    is the server of the last result with an MCP config of that identifier:
    of two results with one identifier the later one wins, and a result with
    a standard config adds nothing. *)
Theorem toMCPConfig_last_wins :
  forall (results : list Discovery.DiscoveryResult) (k : string),
    McpConfig.get (McpConfig.toMCPConfig results) k
    = McpConfig.get (rev (McpConfig.servers_of results)) k.
Proof.
  intros results k. unfold McpConfig.toMCPConfig. rewrite toMCPConfig_from.
  destruct (McpConfig.get (rev (McpConfig.servers_of results)) k); reflexivity.
Qed.

(** ** examples/11-error-handling.ts *)

(** X29.  The example's [isRetryableError] retries every error the
    library's does: a [RateLimitError] or a [NetworkError] of the library is
    not an instance of the example's own classes, but its message holds
    "rate limit" or "network". *)
Theorem example_isRetryableError_covers_library :
  forall e : thrown,
    Errors.isRetryableError e = true ->
    ErrorHandlingExample.isRetryableError (ErrorHandlingExample.FromLibrary e) = true.
Proof.
  intros e He. destruct e as [| | p ra | u st | | | | |]; try discriminate He.
  - unfold ErrorHandlingExample.isRetryableError. cbn [ErrorHandlingExample.error_message].
    apply existsb_exists. exists "rate limit". split; [cbn; tauto |].
    cbn [message]. rewrite toLowerCase_app. apply includes_app_l. reflexivity.
  - unfold ErrorHandlingExample.isRetryableError. cbn [ErrorHandlingExample.error_message].
    apply existsb_exists. exists "network". split; [cbn; tauto |].
    cbn [message]. rewrite toLowerCase_app. apply includes_app_l. reflexivity.
Qed.

Lemma example_isRetryableError_covers_library_witness :
  ErrorHandlingExample.isRetryableError
    (ErrorHandlingExample.FromLibrary (NetworkError "https://api.github.com" (Some 503)))
  = true.
Proof.
  apply (example_isRetryableError_covers_library
           (NetworkError "https://api.github.com" (Some 503))).
  reflexivity.
Defined.

(** The example retries more than the library: an error that is not
    retryable for the library is, as soon as its message holds one of the
    words. *)
Example example_isRetryableError_retries_more :
  Errors.isRetryableError (OtherError "Request timeout") = false
  /\ ErrorHandlingExample.isRetryableError
       (ErrorHandlingExample.FromLibrary (OtherError "Request timeout")) = true.
Proof. split; reflexivity. Qed.

(** ** The identifier of a plugin *)

Lemma replace_unsafe_chars (s : string) :
  Pipeline.all_chars Pipeline.slug_char (Pipeline.replace_unsafe s) = true.
Proof.
  induction s as [| c s IH]; [reflexivity |].
  cbn [Pipeline.replace_unsafe Pipeline.all_chars]. rewrite IH, andb_true_r.
  destruct (Pipeline.slug_char c) eqn:E; [exact E | reflexivity].
Qed.

Lemma slug_char_lower (c : ascii) :
  Pipeline.slug_char c = true -> Discovery.lower_ascii c = c.
Proof. destruct c as [[] [] [] [] [] [] [] []]; intros H; first [reflexivity | discriminate H]. Qed.

Lemma safe_fixed (s : string) :
  Pipeline.all_chars Pipeline.slug_char s = true ->
  Pipeline.replace_unsafe (Discovery.toLowerCase s) = s.
Proof.
  induction s as [| c s IH]; intros H; [reflexivity |].
  cbn [Pipeline.all_chars] in H. apply andb_true_iff in H. destruct H as [Hc Hs].
  cbn [Discovery.toLowerCase Pipeline.replace_unsafe].
  rewrite (slug_char_lower c Hc), Hc, (IH Hs). reflexivity.
Qed.

(** X30.  The identifier the plugin index gives a tool is made of the
    characters a-z, 0-9 and the hyphen only, whatever the name of the tool,
    and it is its own identifier: lower-casing and replacing it again
    changes nothing. *)
Theorem plugin_identifier_safe :
  forall t : Pipeline.TransformedTool,
    Pipeline.all_chars Pipeline.slug_char (Pipeline.plugin_identifier t) = true
    /\ Pipeline.replace_unsafe (Discovery.toLowerCase (Pipeline.plugin_identifier t))
       = Pipeline.plugin_identifier t.
Proof.
  intros t. unfold Pipeline.plugin_identifier.
  split; [apply replace_unsafe_chars |].
  apply safe_fixed. apply replace_unsafe_chars.
Qed.
